(** * Granola sync: token lifecycle, Markdown converters and orchestrator

    A shallow embedding of [token_manager.py] (class [TokenManager]) and of
    [main.py] (the converters [convert_prosemirror_to_markdown] and
    [convert_transcript_to_markdown], [sanitize_filename], the two fetch
    functions and [main]), with the properties of the specification and
    further properties of the code stated and proved over it.

    Modelling conventions.
    - A Python value that comes out of [json.load] / [response.json()] is a
      [json].  JSON numbers are integers; numbers with a fraction or an
      exponent (Python floats) are outside the model.
    - A Python [str] is a [string]; every character stands for one code
      point in the range 0..255.
    - A [datetime] is the reading of a wall clock, counted in microseconds
      from 0001-01-01T00:00:00; a [timedelta] is a number of microseconds.
      Date arithmetic stays within the years 1..9999 or raises
      [OverflowError], as does [timedelta(seconds=...)] beyond 999999999
      days.  An expiry time is a [moment]: naive, or aware with its UTC
      offset; [datetime.now()] is naive.
    - A call either returns a value or raises: [outcome].  Exhausted
      memory and the recursion limit of the interpreter are outside the
      model.
    - A run of [main] is followed in a [run]: the records handed to its
      logger, the files written and the requests sent.  The command line is
      taken as parsed; what the clock reads, what the servers answer and
      whether [mkdir] makes the folder of a document is given with the run
      ([circumstances]); a file opened for writing in a folder that was
      made is taken to be written. *)

From Stdlib Require Import ZArith List String Ascii Bool Lia DecimalString.
Import ListNotations.
Open Scope string_scope.
Open Scope Z_scope.

(** ** Python values *)

Unset Elimination Schemes.
Inductive json : Type :=
| JNull
| JBool (b : bool)
| JInt (n : Z)
| JStr (s : string)
| JList (items : list json)
| JDict (fields : list (string * json)).
Set Elimination Schemes.

(** A [dict] keeps its keys in insertion order; a key is looked up at its
    first binding. *)
Definition dict := list (string * json).

(** The exceptions met in the two modules.  [OSError] stands for the class
    and its subclasses ([FileNotFoundError], [FileExistsError], ...); an
    exception of another class is given by the name of its class. *)
Inductive exn : Type :=
| AttributeError
| TypeError
| OverflowError
| OSError
| Exception (class : string).

Inductive outcome (A : Type) : Type :=
| Returns (a : A)
| Raises (e : exn).
Arguments Returns {A} a.
Arguments Raises {A} e.

Definition bind {A B : Type} (m : outcome A) (k : A -> outcome B) : outcome B :=
  match m with
  | Returns a => k a
  | Raises e => Raises e
  end.

Notation "x <- m ;; k" := (bind m (fun x => k))
  (at level 61, m at next level, right associativity).

(** [bool(v)]: what [if v] and [not v] test. *)
Definition truthy (v : json) : bool :=
  match v with
  | JNull => false
  | JBool b => b
  | JInt n => negb (n =? 0)
  | JStr s => negb (s =? "")%string
  | JList l => match l with [] => false | _ :: _ => true end
  | JDict d => match d with [] => false | _ :: _ => true end
  end.

Definition is_dict (v : json) : bool :=
  match v with JDict _ => true | _ => false end.

Definition is_list (v : json) : bool :=
  match v with JList _ => true | _ => false end.

Definition is_str (v : json) : bool :=
  match v with JStr _ => true | _ => false end.

(** [v == s] for a string literal [s]. *)
Definition eq_str (v : json) (s : string) : bool :=
  match v with JStr s' => (s' =? s)%string | _ => false end.

Fixpoint dict_get (key : string) (d : dict) : option json :=
  match d with
  | [] => None
  | (k, v) :: d' => if (k =? key)%string then Some v else dict_get key d'
  end.

(** [d.get(key, default)] *)
Definition get (key : string) (d : dict) (default : json) : json :=
  match dict_get key d with
  | Some v => v
  | None => default
  end.

(** [key in d] *)
Definition contains_key (key : string) (d : dict) : bool :=
  match dict_get key d with
  | Some _ => true
  | None => false
  end.

(** [d[key] = v] *)
Fixpoint dict_set (key : string) (v : json) (d : dict) : dict :=
  match d with
  | [] => [(key, v)]
  | (k, x) :: d' =>
      if (k =? key)%string then (k, v) :: d' else (k, x) :: dict_set key v d'
  end.

Definition keys (d : dict) : list string := map fst d.

(** [d.get(key, absent)] handed to a continuation, so that a recursive
    function can be applied to the field of a node. *)
Definition with_field {R : Type} (key : string) (k : json -> R) (absent : R)
    : dict -> R :=
  fix go (d : dict) : R :=
    match d with
    | [] => absent
    | (k', v) :: d' => if (k' =? key)%string then k v else go d'
    end.

(** ** Strings *)

(** [str.isspace] on the code points below 256. *)
Definition isspace (c : ascii) : bool :=
  let n := nat_of_ascii c in
  (((9 <=? n) && (n <=? 13)) || ((28 <=? n) && (n <=? 32))
   || (n =? 133) || (n =? 160))%nat.

Fixpoint lstrip (s : string) : string :=
  match s with
  | EmptyString => EmptyString
  | String c s' => if isspace c then lstrip s' else s
  end.

Fixpoint rstrip (s : string) : string :=
  match s with
  | EmptyString => EmptyString
  | String c s' =>
      match rstrip s' with
      | EmptyString => if isspace c then EmptyString else String c EmptyString
      | r => String c r
      end
  end.

(** [s.strip()] *)
Definition strip (s : string) : string := rstrip (lstrip s).

(** [sep.join(l)] *)
Fixpoint join (sep : string) (l : list string) : string :=
  match l with
  | [] => ""
  | [s] => s
  | s :: l' => s ++ sep ++ join sep l'
  end.

(** [s * n] *)
Fixpoint repeat_str (s : string) (n : nat) : string :=
  match n with
  | O => ""
  | S n' => s ++ repeat_str s n'
  end.

(** [s.replace(c, new)] for a pattern [c] of one character. *)
Fixpoint replace (c : ascii) (new : string) (s : string) : string :=
  match s with
  | EmptyString => EmptyString
  | String a s' =>
      if Ascii.eqb a c then new ++ replace c new s'
      else String a (replace c new s')
  end.

Fixpoint prefix_b (p s : string) : bool :=
  match p, s with
  | EmptyString, _ => true
  | String a p', String b s' => Ascii.eqb a b && prefix_b p' s'
  | String _ _, EmptyString => false
  end.

(** [sub in s] *)
Fixpoint substring_b (sub s : string) : bool :=
  prefix_b sub s ||
  match s with
  | EmptyString => false
  | String _ s' => substring_b sub s'
  end.

(** [str(n)] for an [int]. *)
Definition str_int (n : Z) : string := NilZero.string_of_int (Z.to_int n).

(** ** Document converter ([convert_prosemirror_to_markdown]) *)

(** The values of a generator, evaluated in order: the first exception
    wins. *)
Fixpoint collect {A : Type} (rs : list (outcome A)) : outcome (list A) :=
  match rs with
  | [] => Returns []
  | r :: rs' => a <- r ;; l <- collect rs' ;; Returns (a :: l)
  end.

(** [''.join(values)]: every value has to be a [str]. *)
Fixpoint concat_strs (vs : list json) : outcome string :=
  match vs with
  | [] => Returns ""
  | JStr s :: vs' => r <- concat_strs vs' ;; Returns (s ++ r)
  | _ :: _ => Raises TypeError
  end.

(** [''.join(f(child) for child in content)].  Iterating a [str] yields its
    characters and iterating a [dict] its keys: strings, which [f] (always
    [process_node]) renders as [""]; the other values are not iterable. *)
Definition join_children (f : json -> outcome json) (content : json)
    : outcome string :=
  match content with
  | JList l => vs <- collect (map f l) ;; concat_strs vs
  | JStr s => Returns ""
  | JDict d => Returns ""
  | JNull | JBool _ | JInt _ => Raises TypeError
  end.

(** The loop of the [bulletList] branch over the items of a list. *)
Definition bullet_items (f : json -> outcome json)
    : list json -> outcome (list string) :=
  fix go (l : list json) : outcome (list string) :=
    match l with
    | [] => Returns []
    | item :: l' =>
        match item with
        | JDict di =>
            if eq_str (get "type" di JNull) "listItem" then
              item_content <- with_field "content" (join_children f) (Returns "") di ;;
              items <- go l' ;;
              Returns (("- " ++ strip item_content) :: items)
            else go l'
        | _ => Raises AttributeError
        end
    end.

(** [for item in content: ...] of the [bulletList] branch: the characters of
    a [str] and the keys of a [dict] have no [get]. *)
Definition bullet_list (f : json -> outcome json) (content : json)
    : outcome (list string) :=
  match content with
  | JList l => bullet_items f l
  | JStr s => if (s =? "")%string then Returns [] else Raises AttributeError
  | JDict d => match d with [] => Returns [] | _ :: _ => Raises AttributeError end
  | JNull | JBool _ | JInt _ => Raises TypeError
  end.

(** A count that a sequence can be repeated by: it has to fit the index
    type of the interpreter, which has 64 bits. *)
Definition index_sized (n : Z) : bool := (- 2 ^ 63 <=? n) && (n <? 2 ^ 63).

(** ['#' * level] *)
Definition hashes (level : json) : outcome string :=
  match level with
  | JInt n =>
      if index_sized n then Returns (repeat_str "#" (Z.to_nat n))
      else Raises OverflowError
  | JBool b => Returns (if b then "#" else "")
  | _ => Raises TypeError
  end.

(** [node.get('attrs', {}).get('level', 1)] *)
Definition heading_level (d : dict) : outcome json :=
  match get "attrs" d (JDict []) with
  | JDict attrs => Returns (get "level" attrs (JInt 1))
  | _ => Raises AttributeError
  end.

Definition nl : string := String (ascii_of_nat 10) "".

Fixpoint process_node (node : json) : outcome json :=
  match node with
  | JDict d =>
      let node_type := get "type" d (JStr "") in
      let text := get "text" d (JStr "") in
      if eq_str node_type "heading" then
        level <- heading_level d ;;
        heading_text <- with_field "content" (join_children process_node) (Returns "") d ;;
        h <- hashes level ;;
        Returns (JStr (h ++ " " ++ heading_text ++ nl ++ nl))
      else if eq_str node_type "paragraph" then
        para_text <- with_field "content" (join_children process_node) (Returns "") d ;;
        Returns (JStr (para_text ++ nl ++ nl))
      else if eq_str node_type "bulletList" then
        items <- with_field "content" (bullet_list process_node) (Returns []) d ;;
        Returns (JStr (join nl items ++ nl ++ nl))
      else if eq_str node_type "text" then
        Returns text
      else
        s <- with_field "content" (join_children process_node) (Returns "") d ;;
        Returns (JStr s)
  | _ => Returns (JStr "")
  end.

Definition convert_prosemirror_to_markdown (content : json) : outcome json :=
  match content with
  | JDict d =>
      if negb (truthy content) || negb (contains_key "content" d)
      then Returns (JStr "")
      else process_node content
  | _ => Returns (JStr "")
  end.

(** ** The [datetime] library *)

(** Microseconds since 0001-01-01T00:00:00 on the wall clock. *)
Definition datetime := Z.

(** Microseconds. *)
Definition timedelta := Z.

Definition seconds (n : Z) : timedelta := n * 1000000.
Definition minutes (n : Z) : timedelta := n * 60000000.

Inductive parse_result : Type :=
| Datetime (dt : datetime)
| ValueError (msg : string).

(** [datetime.max]: the last microsecond of the year 9999. *)
Definition datetime_max : datetime := 3652059 * 86400000000 - 1.

(** The readings a [datetime] can hold: the years 1 to 9999. *)
Definition in_range (dt : datetime) : bool := (0 <=? dt) && (dt <=? datetime_max).

(** [dt + delta], and [dt - delta] as [datetime_add dt (- delta)]. *)
Definition datetime_add (dt : datetime) (delta : timedelta) : outcome datetime :=
  if in_range (dt + delta) then Returns (dt + delta) else Raises OverflowError.

(** A [datetime] object: naive, or aware, with the offset of its [tzinfo]
    from UTC.  Both carry the reading of their own wall clock. *)
Inductive moment : Type :=
| Naive (dt : datetime)
| Aware (dt : datetime) (offset : timedelta).

(** The conversions between text and [datetime] that the program calls
    are library code: they are taken as an interface.
    [fromisoformat s] is [datetime.fromisoformat(s)], which returns a
    [datetime] with the wall-clock reading written in [s] or raises
    [ValueError]; [utcoffset s] is the [utcoffset()] of that [datetime]:
    [None] when the text has no offset and the [datetime] is naive;
    [isoformat d] is [d.isoformat()] for a naive [d], and
    [isoformat_aware d offset] for an aware one. *)
Class DatetimeLib : Type := {
  fromisoformat : string -> parse_result;
  isoformat : datetime -> string;
  utcoffset : string -> option timedelta;
  isoformat_aware : datetime -> timedelta -> string
}.

(** The object that [datetime.fromisoformat(s)] returns, when it reads
    [dt]. *)
Definition moment_of `{DatetimeLib} (s : string) (dt : datetime) : moment :=
  match utcoffset s with
  | None => Naive dt
  | Some offset => Aware dt offset
  end.

(** [e.isoformat()] *)
Definition isoformat_of `{DatetimeLib} (e : moment) : string :=
  match e with
  | Naive dt => isoformat dt
  | Aware dt offset => isoformat_aware dt offset
  end.

Definition digit (n : Z) : string :=
  String (ascii_of_nat (48 + Z.to_nat n)) "".

Definition two_digits (n : Z) : string :=
  digit ((n / 10) mod 10) ++ digit (n mod 10).

(** [dt.strftime('%H:%M:%S')] *)
Definition strftime_HMS (dt : datetime) : string :=
  two_digits ((dt / 3600000000) mod 24) ++ ":" ++
  two_digits ((dt / 60000000) mod 60) ++ ":" ++
  two_digits ((dt / 1000000) mod 60).

(** ** [repr] and [str] *)

Definition hex_digit (n : nat) : string :=
  match String.get n "0123456789abcdef" with
  | Some c => String c ""
  | None => ""
  end.

Definition backslash : ascii := ascii_of_nat 92.
Definition single_quote : ascii := ascii_of_nat 39.
Definition double_quote : ascii := ascii_of_nat 34.

Definition printable (c : ascii) : bool :=
  let n := nat_of_ascii c in
  (((32 <=? n) && (n <=? 126)) || ((161 <=? n) && negb (n =? 173)))%nat.

Definition repr_char (quote c : ascii) : string :=
  let n := nat_of_ascii c in
  if Ascii.eqb c quote || Ascii.eqb c backslash then String backslash (String c "")
  else if (n =? 9)%nat then String backslash "t"
  else if (n =? 10)%nat then String backslash "n"
  else if (n =? 13)%nat then String backslash "r"
  else if printable c then String c ""
  else String backslash "x" ++ hex_digit (n / 16) ++ hex_digit (n mod 16).

Fixpoint has_char (c : ascii) (s : string) : bool :=
  match s with
  | EmptyString => false
  | String a s' => Ascii.eqb a c || has_char c s'
  end.

Fixpoint escape (quote : ascii) (s : string) : string :=
  match s with
  | EmptyString => EmptyString
  | String c s' => repr_char quote c ++ escape quote s'
  end.

(** [repr(s)] for a [str] *)
Definition repr_str (s : string) : string :=
  let quote :=
    if has_char single_quote s && negb (has_char double_quote s)
    then double_quote else single_quote in
  String quote (escape quote s) ++ String quote "".

(** [repr(v)] *)
Fixpoint repr (v : json) : string :=
  match v with
  | JNull => "None"
  | JBool b => if b then "True" else "False"
  | JInt n => str_int n
  | JStr s => repr_str s
  | JList l => "[" ++ join ", " (map repr l) ++ "]"
  | JDict d =>
      "{" ++ join ", " (map (fun kv => repr_str (fst kv) ++ ": " ++ repr (snd kv)) d) ++ "}"
  end.

(** [str(v)], which is what an f-string writes for [{v}]. *)
Definition str (v : json) : string :=
  match v with
  | JStr s => s
  | _ => repr v
  end.

(** [type(v).__name__] *)
Definition type_name (v : json) : string :=
  match v with
  | JNull => "NoneType"
  | JBool _ => "bool"
  | JInt _ => "int"
  | JStr _ => "str"
  | JList _ => "list"
  | JDict _ => "dict"
  end.

(** ** Transcript converter ([convert_transcript_to_markdown]) *)

Definition placeholder : string :=
  "# Transcript" ++ nl ++ nl ++ "No transcript content available." ++ nl.

Definition speaker (source : json) : string :=
  if eq_str source "microphone" then "Microphone" else "System".

(** The [timestamp_str] of one utterance.  Whatever is raised under the
    [try] ([replace] on a value that is not a [str], [ValueError] from the
    parser) is swallowed by the bare [except]. *)
Definition timestamp_str `{DatetimeLib} (start_timestamp : json) : string :=
  if truthy start_timestamp then
    match start_timestamp with
    | JStr s =>
        match fromisoformat (replace "Z" "+00:00" s) with
        | Datetime dt => "[" ++ strftime_HMS dt ++ "]"
        | ValueError _ => ""
        end
    | _ => ""
    end
  else "".

(** The text appended for one utterance. *)
Definition utterance_block `{DatetimeLib} (utterance : json) : outcome string :=
  match utterance with
  | JDict u =>
      let source := get "source" u (JStr "unknown") in
      let text := get "text" u (JStr "") in
      let start_timestamp := get "start_timestamp" u (JStr "") in
      Returns ("**" ++ speaker source ++ "** " ++ timestamp_str start_timestamp
               ++ nl ++ nl ++ str text ++ nl ++ nl)
  | _ => Raises AttributeError
  end.

Definition convert_transcript_to_markdown `{DatetimeLib} (transcript_data : json)
    : outcome string :=
  if negb (truthy transcript_data) || negb (is_list transcript_data) then
    Returns placeholder
  else
    match transcript_data with
    | JList l =>
        blocks <- collect (map utterance_block l) ;;
        Returns (String.concat "" (("# Transcript" ++ nl ++ nl) :: blocks))
    | _ => Returns placeholder
    end.

(** ** Token manager ([TokenManager]) *)

Record TokenManager : Type := {
  config_file : string;
  refresh_token : json;
  client_id : json;
  access_token : json;
  token_expiry : option moment
}.

(** What is at the path [config_file]: nothing, a text that [json.load]
    rejects with the given message, or a text that it reads as [j]. *)
Inductive file : Type :=
| NoFile
| Unparseable (err : string)
| Parsed (j : json).

Inductive level : Type := DEBUG | INFO | ERROR.

Record Response : Type := {
  status_code : Z;
  text : string
}.

(** A [requests.exceptions.RequestException]: [str(e)] and [e.response]. *)
Record RequestException : Type := {
  message : string;
  response : option Response
}.

(** What [requests.post(...)], [raise_for_status()] and [response.json()]
    come to for one request: one of them raises a [RequestException]
    ([ConnectionError] and the like from the first, [HTTPError] from the
    second, the [JSONDecodeError] of requests 2.27 and later from the
    third), or the decoded body is [result]. *)
Inductive reply : Type :=
| Fails (e : RequestException)
| Body (result : json).

(** The manager and what it acts on: the configuration file, the records
    handed to the logger and the requests sent so far. *)
Record world : Type := {
  self : TokenManager;
  disk : file;
  log : list (level * string);
  posted : list (string * json)
}.

Definition emit (l : level) (msg : string) (w : world) : world :=
  {| self := self w; disk := disk w;
     log := log w ++ [(l, msg)]; posted := posted w |}.

Definition set_self (m : TokenManager) (w : world) : world :=
  {| self := m; disk := disk w; log := log w; posted := posted w |}.

Definition write_file (j : json) (w : world) : world :=
  {| self := self w; disk := Parsed j; log := log w; posted := posted w |}.

Definition post (url : string) (data : json) (w : world) : world :=
  {| self := self w; disk := disk w; log := log w;
     posted := posted w ++ [(url, data)] |}.

(** [TypeError] text of [config_data[key] = value] on a value that is not a
    [dict]. *)
Definition item_assignment_error (j : json) : string :=
  match j with
  | JList _ => "list indices must be integers or slices, not str"
  | _ => "'" ++ type_name j ++ "' object does not support item assignment"
  end.

(** The four assignments of [_save_config] on the loaded [config_data]. *)
Definition updated_config `{DatetimeLib} (m : TokenManager) (config_data : dict)
    : dict :=
  let d1 := dict_set "refresh_token" (refresh_token m) config_data in
  let d2 := if truthy (client_id m)
            then dict_set "client_id" (client_id m) d1 else d1 in
  let d3 := dict_set "access_token" (access_token m) d2 in
  dict_set "token_expiry"
    (match token_expiry m with
     | Some e => JStr (isoformat_of e)
     | None => JNull
     end) d3.

Definition _save_config `{DatetimeLib} (w : world) : world :=
  let path := config_file (self w) in
  let failed (e : string) :=
    emit ERROR ("Error saving config to " ++ path ++ ": " ++ e) w in
  let saved (config_data : dict) :=
    emit DEBUG ("Configuration saved to " ++ path)
      (write_file (JDict (updated_config (self w) config_data)) w) in
  match disk w with
  | NoFile => saved []
  | Unparseable err => failed err
  | Parsed (JDict config_data) => saved config_data
  | Parsed j => failed (item_assignment_error j)
  end.

Definition buffer : timedelta := minutes 5.

(** [datetime.now() >= (self.token_expiry - buffer)] is reached with an
    access token and an expiry: the subtraction raises [OverflowError]
    below [datetime.min], and a naive [datetime] is not compared with an
    aware one. *)
Definition is_token_expired (m : TokenManager) (now : datetime) : outcome bool :=
  if negb (truthy (access_token m)) then Returns true
  else
    match token_expiry m with
    | None => Returns true
    | Some (Naive expiry) =>
        limit <- datetime_add expiry (- buffer) ;; Returns (now >=? limit)
    | Some (Aware expiry _) =>
        limit <- datetime_add expiry (- buffer) ;; Raises TypeError
    end.

Definition url : string := "https://api.workos.com/user_management/authenticate".

(** [timedelta(seconds=v)]: [v] has to be a number ([bool] is one), and
    a [timedelta] holds at most 999999999 days in either direction. *)
Definition timedelta_seconds (v : json) : outcome timedelta :=
  match v with
  | JInt n =>
      if (-999999999 <=? n / 86400) && (n / 86400 <=? 999999999)
      then Returns (seconds n) else Raises OverflowError
  | JBool b => Returns (seconds (if b then 1 else 0))
  | _ => Raises TypeError
  end.

(** [datetime.now() + timedelta(seconds=expires_in)] *)
Definition expiry_after (now : datetime) (expires_in : json) : outcome datetime :=
  delta <- timedelta_seconds expires_in ;; datetime_add now delta.

Definition with_access_token (v : json) (m : TokenManager) : TokenManager :=
  {| config_file := config_file m; refresh_token := refresh_token m;
     client_id := client_id m; access_token := v;
     token_expiry := token_expiry m |}.

Definition with_refresh_token (v : json) (m : TokenManager) : TokenManager :=
  {| config_file := config_file m; refresh_token := v;
     client_id := client_id m; access_token := access_token m;
     token_expiry := token_expiry m |}.

Definition with_client_id (v : json) (m : TokenManager) : TokenManager :=
  {| config_file := config_file m; refresh_token := refresh_token m;
     client_id := v; access_token := access_token m;
     token_expiry := token_expiry m |}.

Definition with_token_expiry (e : option moment) (m : TokenManager)
    : TokenManager :=
  {| config_file := config_file m; refresh_token := refresh_token m;
     client_id := client_id m; access_token := access_token m;
     token_expiry := e |}.

(** The [except RequestException] handler of [refresh_access_token]. *)
Definition log_request_exception (e : RequestException) (w : world) : world :=
  let w1 := emit ERROR ("Error obtaining access token: " ++ message e) w in
  match response e with
  | Some r =>
      emit DEBUG ("Response body: " ++ text r)
        (emit DEBUG ("Response status: " ++ str_int (status_code r)) w1)
  | None => w1
  end.

(** [refresh_access_token], called at time [now] (the reading of
    [datetime.now()]) when the token endpoint would answer [r]. *)
Definition refresh_access_token `{DatetimeLib}
    (w : world) (now : datetime) (r : reply) : outcome bool * world :=
  let w := emit INFO "Obtaining new access token from refresh token..." w in
  if negb (truthy (refresh_token (self w))) then
    (Returns false, emit ERROR "No refresh token available in config.json" w)
  else if negb (truthy (client_id (self w))) then
    (Returns false, emit ERROR "No client_id found in config.json" w)
  else
    let data := JDict [("client_id", client_id (self w));
                       ("grant_type", JStr "refresh_token");
                       ("refresh_token", refresh_token (self w))] in
    let w := post url data w in
    match r with
    | Fails e => (Returns false, log_request_exception e w)
    | Body (JDict result) =>
        let w := set_self (with_access_token (get "access_token" result JNull) (self w)) w in
        let new_refresh_token := get "refresh_token" result JNull in
        let w := if truthy new_refresh_token
                 then emit INFO "Refresh token was rotated"
                        (set_self (with_refresh_token new_refresh_token (self w)) w)
                 else w in
        let expires_in := get "expires_in" result (JInt 3600) in
        match expiry_after now expires_in with
        | Returns expiry =>
            let w := set_self (with_token_expiry (Some (Naive expiry)) (self w)) w in
            let w := _save_config w in
            (Returns true,
             emit INFO ("Successfully obtained access token (expires in "
                        ++ str expires_in ++ " seconds)") w)
        | Raises e => (Raises e, w)
        end
    | Body _ => (Raises AttributeError, w)
    end.

(** [get_valid_token]: the clock reads [now] in [is_token_expired] and
    [now'] in [refresh_access_token]. *)
Definition get_valid_token `{DatetimeLib}
    (w : world) (now now' : datetime) (r : reply) : outcome json * world :=
  match is_token_expired (self w) now with
  | Returns true =>
      match refresh_access_token w now' r with
      | (Returns true, w') => (Returns (access_token (self w')), w')
      | (Returns false, w') =>
          (Returns JNull, emit ERROR "Failed to obtain access token" w')
      | (Raises e, w') => (Raises e, w')
      end
  | Returns false => (Returns (access_token (self w)), w)
  | Raises e => (Raises e, w)
  end.

Definition _load_config `{DatetimeLib} (w : world) : bool * world :=
  let path := config_file (self w) in
  let failed (m : TokenManager) (e : string) :=
    (false,
     emit ERROR ("Error loading config from " ++ path ++ ": " ++ e) (set_self m w)) in
  let loaded (m : TokenManager) :=
    (true, emit DEBUG ("Configuration loaded from " ++ path) (set_self m w)) in
  match disk w with
  | NoFile =>
      (false,
       emit ERROR ("Config file " ++ path
                   ++ " does not exist. Please create it from config.json.template") w)
  | Unparseable err => failed (self w) err
  | Parsed (JDict config_data) =>
      let m := with_refresh_token (get "refresh_token" config_data JNull) (self w) in
      let m := with_client_id (get "client_id" config_data JNull) m in
      let m := with_access_token (get "access_token" config_data JNull) m in
      let expiry_str := get "token_expiry" config_data JNull in
      if truthy expiry_str then
        match expiry_str with
        | JStr s =>
            match fromisoformat s with
            | Datetime dt => loaded (with_token_expiry (Some (moment_of s dt)) m)
            | ValueError msg => failed m msg
            end
        | _ => failed m "fromisoformat: argument must be str"
        end
      else loaded m
  | Parsed j => failed (self w) ("'" ++ type_name j ++ "' object has no attribute 'get'")
  end.

(** [TokenManager(config_file)] in a fresh process, with [f] at the path. *)
Definition __init__ `{DatetimeLib} (path : string) (f : file) : world :=
  snd (_load_config
         {| self := {| config_file := path; refresh_token := JNull;
                       client_id := JNull; access_token := JNull;
                       token_expiry := None |};
            disk := f; log := []; posted := [] |}).

(** The worlds a run can be in: a manager is constructed over whatever is
    at its path, and then its methods are called, at any times and with any
    answers of the token endpoint. *)
Inductive reachable `{DatetimeLib} : world -> Prop :=
| reach_init (path : string) (f : file) :
    reachable (__init__ path f)
| reach_load (w : world) :
    reachable w -> reachable (snd (_load_config w))
| reach_save (w : world) :
    reachable w -> reachable (_save_config w)
| reach_refresh (w : world) (now : datetime) (r : reply) :
    reachable w -> reachable (snd (refresh_access_token w now r))
| reach_get (w : world) (now now' : datetime) (r : reply) :
    reachable w -> reachable (snd (get_valid_token w now now' r)).

(** The number of calls of [refresh_access_token] a log shows: the method
    opens with a record of its own. *)
Definition is_refresh_record (rec : level * string) : bool :=
  match rec with
  | (INFO, msg) => (msg =? "Obtaining new access token from refresh token...")%string
  | _ => false
  end.

Definition refresh_calls (w : world) : nat :=
  List.length (filter is_refresh_record (log w)).

(** ** A reference [DatetimeLib]

    The proleptic Gregorian calendar as [datetime.py] computes it, the
    text [isoformat()] writes and a reader of that text:
    [YYYY-MM-DD[*HH[:MM[:SS[.fff[fff]]]][+HH:MM[:SS[.ffffff]]]]]. *)
Module Reference.

Definition is_leap (y : Z) : bool :=
  (y mod 4 =? 0) && (negb (y mod 100 =? 0) || (y mod 400 =? 0)).

Definition days_before_year (y : Z) : Z :=
  let y := y - 1 in y * 365 + y / 4 - y / 100 + y / 400.

Definition days_in_month (y m : Z) : Z :=
  if m =? 2 then (if is_leap y then 29 else 28)
  else if (m =? 4) || (m =? 6) || (m =? 9) || (m =? 11) then 30
  else 31.

Definition days_before_month (y m : Z) : Z :=
  fold_left Z.add (map (days_in_month y) (map Z.of_nat (seq 1 (Z.to_nat (m - 1))))) 0.

Definition ymd2ord (y m d : Z) : Z :=
  days_before_year y + days_before_month y m + d.

(** [datetime(y, m, d, hh, mm, ss, us)] *)
Definition datetime_of (y m d hh mm ss us : Z) : datetime :=
  (((ymd2ord y m d - 1) * 24 + hh) * 60 + mm) * 60000000 + ss * 1000000 + us.

Definition ord2ymd (n : Z) : Z * Z * Z :=
  let n := n - 1 in
  let n400 := n / 146097 in
  let n := n mod 146097 in
  let n100 := n / 36524 in
  let n := n mod 36524 in
  let n4 := n / 1461 in
  let n := n mod 1461 in
  let n1 := n / 365 in
  let n := n mod 365 in
  let year := n400 * 400 + 1 + n100 * 100 + n4 * 4 + n1 in
  if (n1 =? 4) || (n100 =? 4) then (year - 1, 12, 31)
  else
    let month := Z.shiftr (n + 50) 5 in
    let preceding := days_before_month year month in
    if preceding >? n
    then (year, month - 1, n - (preceding - days_in_month year (month - 1)) + 1)
    else (year, month, n - preceding + 1).

Fixpoint zero_pad (width : nat) (n : Z) : string :=
  match width with
  | O => ""
  | S w => zero_pad w (n / 10) ++ digit (n mod 10)
  end.

Definition isoformat (dt : datetime) : string :=
  let us := dt mod 1000000 in
  let s := dt / 1000000 in
  let '(y, m, d) := ord2ymd (s / 86400 + 1) in
  zero_pad 4 y ++ "-" ++ zero_pad 2 m ++ "-" ++ zero_pad 2 d ++ "T" ++
  zero_pad 2 ((s / 3600) mod 24) ++ ":" ++ zero_pad 2 ((s / 60) mod 60) ++ ":" ++
  zero_pad 2 (s mod 60) ++
  (if us =? 0 then "" else "." ++ zero_pad 6 us).

Definition digit_value (c : ascii) : option Z :=
  let n := nat_of_ascii c in
  if ((48 <=? n) && (n <=? 57))%nat then Some (Z.of_nat (n - 48)) else None.

(** The value of a text of decimal digits. *)
Fixpoint number_from (acc : Z) (s : string) : option Z :=
  match s with
  | EmptyString => Some acc
  | String c s' =>
      match digit_value c with
      | Some v => number_from (acc * 10 + v) s'
      | None => None
      end
  end.

Definition number (s : string) : option Z :=
  match s with
  | EmptyString => None
  | _ => number_from 0 s
  end.

Definition opt_bind {A B : Type} (m : option A) (k : A -> option B) : option B :=
  match m with Some a => k a | None => None end.

Definition field (s : string) (pos len : nat) : option Z :=
  number (substring pos len s).

Definition char_is (s : string) (pos : nat) (c : string) : bool :=
  (substring pos 1 s =? c)%string.

(** [HH[:MM[:SS[.fff[fff]]]]] *)
Definition parse_hh_mm_ss_ff (t : string) : option (Z * Z * Z * Z) :=
  let len := String.length t in
  let hh := field t 0 2 in
  let mm := if (5 <=? len)%nat then field t 3 2 else Some 0 in
  let ss := if (8 <=? len)%nat then field t 6 2 else Some 0 in
  let ff := if (len =? 12)%nat then option_map (Z.mul 1000) (field t 9 3)
            else if (len =? 15)%nat then field t 9 6 else Some 0 in
  let separators :=
    ((len <? 5)%nat || char_is t 2 ":") && ((len <? 8)%nat || char_is t 5 ":")
    && ((len <? 12)%nat || char_is t 8 ".") in
  if existsb (Nat.eqb len) [2; 5; 8; 12; 15]%nat && separators then
    opt_bind hh (fun h => opt_bind mm (fun m => opt_bind ss (fun s =>
    opt_bind ff (fun f => Some (h, m, s, f)))))
  else None.

(** The position of the sign that opens the offset: the first [-] or, when
    there is none, the first [+]. *)
Definition tz_pos (t : string) : option nat :=
  match index 0 "-" t with
  | Some i => Some i
  | None => index 0 "+" t
  end.

Definition parse_isoformat_time (t : string) : option (Z * Z * Z * Z) :=
  match tz_pos t with
  | None => parse_hh_mm_ss_ff t
  | Some i =>
      let tz := substring (i + 1) (String.length t - (i + 1)) t in
      if existsb (Nat.eqb (String.length tz)) [5; 8; 15]%nat then
        opt_bind (parse_hh_mm_ss_ff tz) (fun '(h, m, s, f) =>
          if ((h * 60 + m) * 60 + s) * 1000000 + f <? 86400000000
          then parse_hh_mm_ss_ff (substring 0 i t)
          else None)
      else None
  end.

Definition parse (s : string) : option datetime :=
  let len := String.length s in
  if (10 <=? len)%nat && char_is s 4 "-" && char_is s 7 "-" then
    opt_bind (field s 0 4) (fun y => opt_bind (field s 5 2) (fun m =>
    opt_bind (field s 8 2) (fun d =>
    if (1 <=? y) && (1 <=? m) && (m <=? 12) && (1 <=? d) && (d <=? days_in_month y m)
    then
      opt_bind (if (len <=? 11)%nat then Some (0, 0, 0, 0)
                else parse_isoformat_time (substring 11 (len - 11) s))
        (fun '(hh, mm, ss, us) =>
           if (hh <? 24) && (mm <? 60) && (ss <? 60)
           then Some (datetime_of y m d hh mm ss us) else None)
    else None)))
  else None.

Definition fromisoformat (s : string) : parse_result :=
  match parse s with
  | Some dt => Datetime dt
  | None => ValueError ("Invalid isoformat string: " ++ repr_str s)
  end.

(** The offset written in the text of a time, in microseconds, when one is
    written. *)
Definition parse_offset (t : string) : option timedelta :=
  match tz_pos t with
  | None => None
  | Some i =>
      let tz := substring (i + 1) (String.length t - (i + 1)) t in
      opt_bind (parse_hh_mm_ss_ff tz) (fun '(h, m, s, f) =>
        let magnitude := ((h * 60 + m) * 60 + s) * 1000000 + f in
        Some (if char_is t i "-" then - magnitude else magnitude))
  end.

Definition utcoffset (s : string) : option timedelta :=
  let len := String.length s in
  match parse s with
  | Some _ =>
      if (len <=? 11)%nat then None
      else parse_offset (substring 11 (len - 11) s)
  | None => None
  end.

(** The text of an offset: [+HH:MM[:SS[.ffffff]]]. *)
Definition format_offset (offset : timedelta) : string :=
  let magnitude := Z.abs offset in
  let us := magnitude mod 1000000 in
  let s := magnitude / 1000000 in
  (if offset <? 0 then "-" else "+") ++
  zero_pad 2 (s / 3600) ++ ":" ++ zero_pad 2 ((s / 60) mod 60) ++
  (if (s mod 60 =? 0) && (us =? 0) then ""
   else ":" ++ zero_pad 2 (s mod 60) ++
        (if us =? 0 then "" else "." ++ zero_pad 6 us)).

Definition isoformat_aware (dt : datetime) (offset : timedelta) : string :=
  isoformat dt ++ format_offset offset.

End Reference.

Definition reference_datetime : DatetimeLib := {|
  fromisoformat := Reference.fromisoformat;
  isoformat := Reference.isoformat;
  utcoffset := Reference.utcoffset;
  isoformat_aware := Reference.isoformat_aware
|}.

(** ** [sanitize_filename] *)

(** [invalid_chars] *)
Definition invalid_chars : string :=
  "<>:" ++ String double_quote ("/" ++ String backslash "|?*").

(** [''.join(c for c in title if c not in invalid_chars)] over the
    characters of a [str]. *)
Fixpoint keep_valid (s : string) : string :=
  match s with
  | EmptyString => EmptyString
  | String c s' =>
      if has_char c invalid_chars then keep_valid s'
      else String c (keep_valid s')
  end.

(** The same over the items of a [list] or the keys of a [dict]: [c not in
    invalid_chars] asks for a [str] on the left and tests whether it occurs
    in [invalid_chars]. *)
Fixpoint keep_valid_items (l : list json) : outcome string :=
  match l with
  | [] => Returns ""
  | JStr c :: l' =>
      rest <- keep_valid_items l' ;;
      Returns (if substring_b c invalid_chars then rest else c ++ rest)
  | _ :: _ => Raises TypeError
  end.

Definition sanitize_filename (title : json) : outcome string :=
  filename <-
    match title with
    | JStr s => Returns (keep_valid s)
    | JList l => keep_valid_items l
    | JDict d => keep_valid_items (map (fun kv => JStr (fst kv)) d)
    | JNull | JBool _ | JInt _ => Raises TypeError
    end ;;
  Returns (replace " " "_" filename).

(** ** The orchestrator ([main]) *)

(** What [main] asks of the interpreter and its libraries without the
    program saying how: the text of [parent / child] for two paths, the
    order in which [list(set(values))] yields the distinct values, and the
    text [str(e)] of an exception raised under the [try] of a document. *)
Class Interpreter : Type := {
  path_join : string -> string -> string;
  set_list : list json -> list json;
  exception_text : exn -> string
}.

(** The levels of the logger of [main]. *)
Inductive levelname : Type := Debug | Info | Warning | Error.

(** What a file holds: what [json.dump] wrote, or a text. *)
Inductive content : Type :=
| Json (j : json)
| Text (s : string).

(** What the exchange behind one call of the API comes to:
    [raise_for_status()] raises an [HTTPError] for a response with the
    given status, something else is raised, or the decoded body is [j].
    [msg] is the text of the exception. *)
Inductive api_reply : Type :=
| HTTPError (status : Z) (msg : string)
| OtherError (msg : string)
| Answer (j : json).

(** What a run leaves behind: the records handed to the logger of [main],
    the files written (the folder of a document is named by the [id] of
    the document; a later entry for a file replaces an earlier one), the
    requests sent to the API (address, headers, body) and the world of the
    token manager, once it is constructed. *)
Record run : Type := {
  records : list (levelname * string);
  files : list (string * string * content);
  requests : list (string * json * json);
  token_manager : option world
}.

Definition start : run :=
  {| records := []; files := []; requests := []; token_manager := None |}.

(** A piece of [main]: it changes the run and returns or raises. *)
Definition action (A : Type) : Type := run -> outcome A * run.

Definition ret {A : Type} (a : A) : action A := fun s => (Returns a, s).

Definition raise {A : Type} (e : exn) : action A := fun s => (Raises e, s).

Definition and_then {A B : Type} (m : action A) (k : A -> action B) : action B :=
  fun s =>
    match m s with
    | (Returns a, s') => k a s'
    | (Raises e, s') => (Raises e, s')
    end.

Declare Scope action_scope.
Delimit Scope action_scope with action.
Notation "x <- m ;; k" := (and_then m (fun x => k))
  (at level 61, m at next level, right associativity) : action_scope.
Notation "m ;; k" := (and_then m (fun _ => k))
  (at level 61, right associativity) : action_scope.

(** [try: m except Exception as e: handler(e)] *)
Definition try_except {A : Type} (m : action A) (handler : exn -> action A)
    : action A :=
  fun s =>
    match m s with
    | (Returns a, s') => (Returns a, s')
    | (Raises e, s') => handler e s'
    end.

(** The result of a pure call, inside [main]. *)
Definition lift {A : Type} (r : outcome A) : action A := fun s => (r, s).

(** The run after a record is handed to the logger, a file is written, a
    request is sent, the token manager is assigned. *)
Definition logged (l : levelname) (msg : string) (s : run) : run :=
  {| records := records s ++ [(l, msg)]; files := files s;
     requests := requests s; token_manager := token_manager s |}.

Definition written (folder name : string) (c : content) (s : run) : run :=
  {| records := records s; files := files s ++ [(folder, name, c)];
     requests := requests s; token_manager := token_manager s |}.

Definition sent (address : string) (headers data : json) (s : run) : run :=
  {| records := records s; files := files s;
     requests := requests s ++ [(address, headers, data)];
     token_manager := token_manager s |}.

Definition managed (w : world) (s : run) : run :=
  {| records := records s; files := files s; requests := requests s;
     token_manager := Some w |}.

Definition logger (l : levelname) (msg : string) : action unit :=
  fun s => (Returns tt, logged l msg s).

(** [with open(folder / name, 'w') as f: ...], when the block has written
    [c]. *)
Definition open_w (folder name : string) (c : content) : action unit :=
  fun s => (Returns tt, written folder name c s).

Definition send (address : string) (headers data : json) : action unit :=
  fun s => (Returns tt, sent address headers data s).

Definition set_token_manager (w : world) : action unit :=
  fun s => (Returns tt, managed w s).

Definition headers (token : json) : json :=
  JDict [("Authorization", JStr ("Bearer " ++ str token));
         ("Content-Type", JStr "application/json");
         ("Accept", JStr "*/*");
         ("User-Agent", JStr "Granola/5.354.0");
         ("X-Client-Version", JStr "5.354.0")].

Definition check_config_exists (config : file) : action bool :=
  (match config with
   | NoFile =>
       logger Error "Config file 'config.json' not found!" ;;
       logger Error "Please create config.json from config.json.template:" ;;
       logger Error "  1. Copy config.json.template to config.json" ;;
       logger Error "  2. Add your refresh_token and client_id" ;;
       logger Error "  3. See GETTING_REFRESH_TOKEN.md for instructions on obtaining tokens" ;;
       ret false
   | _ => ret true
   end)%action.

(** [fetch_granola_documents(token)], when the API would answer [r]. *)
Definition fetch_granola_documents (token : json) (r : api_reply) : action json :=
  (send "https://api.granola.ai/v2/get-documents" (headers token)
     (JDict [("limit", JInt 100); ("offset", JInt 0);
             ("include_last_viewed_panel", JBool true)]) ;;
   match r with
   | Answer j => ret j
   | HTTPError _ msg | OtherError msg =>
       logger Error ("Error fetching documents: " ++ msg) ;;
       ret JNull
   end)%action.

(** [fetch_document_transcript(token, document_id)], when the API would
    answer [r]. *)
Definition fetch_document_transcript (token : json) (document_id : string)
    (r : api_reply) : action json :=
  (send "https://api.granola.ai/v1/get-document-transcript" (headers token)
     (JDict [("document_id", JStr document_id)]) ;;
   match r with
   | Answer j => ret j
   | HTTPError status msg =>
       (if status =? 404
        then logger Debug ("No transcript found for document " ++ document_id)
        else logger Error ("Error fetching transcript for " ++ document_id
                           ++ ": " ++ msg)) ;;
       ret JNull
   | OtherError msg =>
       logger Error ("Error fetching transcript for " ++ document_id
                     ++ ": " ++ msg) ;;
       ret JNull
   end)%action.

(** The [source] of one utterance, as the set of sources takes it in: an
    utterance has to be an object and its source hashable. *)
Definition utterance_source (utterance : json) : outcome json :=
  match utterance with
  | JDict u =>
      match get "source" u (JStr "unknown") with
      | JList _ | JDict _ => Raises TypeError
      | source => Returns source
      end
  | _ => Raises AttributeError
  end.

(** The [metadata] of a document. *)
Definition metadata_of `{Interpreter} (doc : dict) (title : json)
    (doc_id : string) (transcript_data : json) : outcome json :=
  let metadata :=
    [("document_id", JStr doc_id); ("title", title);
     ("created_at", get "created_at" doc JNull);
     ("updated_at", get "updated_at" doc JNull);
     ("meeting_date", JNull); ("sources", JList [])] in
  match transcript_data with
  | JList (first_utterance :: rest) =>
      sources <- collect (map utterance_source (first_utterance :: rest)) ;;
      let metadata := dict_set "sources" (JList (set_list sources)) metadata in
      match first_utterance with
      | JDict u =>
          if truthy (get "start_timestamp" u JNull)
          then Returns (JDict (dict_set "meeting_date"
                                 (get "start_timestamp" u JNull) metadata))
          else Returns (JDict metadata)
      | _ => Raises AttributeError
      end
  | _ => Returns (JDict metadata)
  end.

(** The [content_to_parse] of a document. *)
Definition content_to_parse (doc : dict) : option json :=
  match get "last_viewed_panel" doc JNull with
  | JDict panel =>
      if truthy (JDict panel) then
        match get "content" panel JNull with
        | JDict c =>
            if truthy (JDict c) && eq_str (get "type" c JNull) "doc"
            then Some (JDict c) else None
        | _ => None
        end
      else None
  | _ => None
  end.

(** The block under [try] for one document. *)
Definition process_document `{DatetimeLib} `{Interpreter}
    (output_path : string) (token : json) (doc : dict) (title : json)
    (doc_id : string) (r : api_reply) : action unit :=
  let doc_folder := path_join output_path doc_id in
  (open_w doc_id "document.json" (Json (JDict doc)) ;;
   logger Debug ("Saved raw document JSON to: "
                 ++ path_join doc_folder "document.json") ;;
   transcript_data <- fetch_document_transcript token doc_id r ;;
   (if truthy transcript_data then
      open_w doc_id "transcript.json" (Json transcript_data) ;;
      logger Debug ("Saved raw transcript JSON to: "
                    ++ path_join doc_folder "transcript.json")
    else ret tt) ;;
   metadata <- lift (metadata_of doc title doc_id transcript_data) ;;
   open_w doc_id "metadata.json" (Json metadata) ;;
   logger Debug ("Saved metadata to: " ++ path_join doc_folder "metadata.json") ;;
   match content_to_parse doc with
   | Some content_to_parse =>
       logger Debug ("Converting document to markdown: " ++ str title) ;;
       markdown_content <- lift (convert_prosemirror_to_markdown content_to_parse) ;;
       match markdown_content with
       | JStr markdown =>
           open_w doc_id "resume.md" (Text ("# " ++ str title ++ nl ++ nl ++ markdown))
       | _ =>
           open_w doc_id "resume.md" (Text ("# " ++ str title ++ nl ++ nl)) ;;
           raise TypeError
       end ;;
       logger Debug ("Saved resume to: " ++ path_join doc_folder "resume.md")
   | None =>
       logger Warning ("No content found for resume.md in document: " ++ str title)
   end ;;
   (if truthy transcript_data then
      transcript_markdown <- lift (convert_transcript_to_markdown transcript_data) ;;
      open_w doc_id "transcript.md" (Text transcript_markdown) ;;
      logger Debug ("Saved transcript markdown to: "
                    ++ path_join doc_folder "transcript.md")
    else
      logger Warning ("No transcript available for document: " ++ str title)) ;;
   logger Info ("Successfully processed document: " ++ str title))%action.

(** One turn of the loop over the documents: [mkdir id] is what
    [doc_folder.mkdir(exist_ok=True)] raises for the folder of [id], when
    it raises; [r] is the answer the transcript request would get and
    [synced_count] the count so far; the turn returns the count after
    it. *)
Definition sync_document `{DatetimeLib} `{Interpreter}
    (output_path : string) (token : json) (mkdir : string -> option exn)
    (doc : json) (r : api_reply) (synced_count : Z) : action Z :=
  match doc with
  | JDict d =>
      let title := get "title" d (JStr "Untitled Granola Note") in
      let doc_id := get "id" d (JStr "unknown_id") in
      (logger Info ("Processing document: " ++ str title
                    ++ " (ID: " ++ str doc_id ++ ")") ;;
       match doc_id with
       | JStr id =>
           match mkdir id with
           | Some e => raise e
           | None => ret tt
           end ;;
           logger Debug ("Created folder: " ++ path_join output_path id) ;;
           try_except
             (process_document output_path token d title id r ;;
              ret (synced_count + 1))
             (fun e =>
                logger Error ("Error processing document '" ++ str title
                              ++ "' (ID: " ++ str doc_id ++ "): "
                              ++ exception_text e) ;;
                logger Debug "Full traceback:" ;;
                ret synced_count)
       | _ => raise TypeError
       end)%action
  | _ => raise AttributeError
  end.

(** [for doc in documents: ...]: the [n]-th transcript request gets the
    answer [replies n]. *)
Fixpoint sync_documents `{DatetimeLib} `{Interpreter}
    (output_path : string) (token : json) (mkdir : string -> option exn)
    (docs : list json) (replies : nat -> api_reply) (synced_count : Z)
    : action Z :=
  match docs with
  | [] => ret synced_count
  | doc :: docs' =>
      (synced_count <- sync_document output_path token mkdir doc (replies O)
                         synced_count ;;
       sync_documents output_path token mkdir docs' (fun n => replies (S n))
         synced_count)%action
  end.

(** What [for doc in documents] goes through, and [len(documents)]. *)
Definition iterate (documents : json) : outcome (list json) :=
  match documents with
  | JList l => Returns l
  | JStr s => Returns (map (fun c => JStr (String c "")) (list_ascii_of_string s))
  | JDict d => Returns (map (fun kv => JStr (fst kv)) d)
  | JNull | JBool _ | JInt _ => Raises TypeError
  end.

(** ["docs" not in api_response] and, when the key is found,
    [api_response["docs"]]: a [list] and a [str] can hold ["docs"] and
    cannot be indexed by it. *)
Definition docs_of (api_response : json) : outcome (option json) :=
  match api_response with
  | JDict d => Returns (dict_get "docs" d)
  | JList l =>
      if existsb (fun x => eq_str x "docs") l then Raises TypeError
      else Returns None
  | JStr s => if substring_b "docs" s then Raises TypeError else Returns None
  | JNull | JBool _ | JInt _ => Raises TypeError
  end.

(** The circumstances of a run: the path given on the command line (as
    [str(Path(...))] writes it) and whether it is a directory, what is at
    [config.json], the two readings of the clock in [get_valid_token], the
    answers of the token endpoint and of the API, and what making the
    folder of a document raises, when it does ([FileNotFoundError] and the
    other [OSError]s, [Exception "ValueError"] for a name with a null
    character). *)
Record circumstances : Type := {
  output_path : string;
  is_dir : bool;
  config : file;
  now_checked : datetime;
  now_refreshed : datetime;
  token_reply : reply;
  documents_reply : api_reply;
  transcript_replies : nat -> api_reply;
  mkdir : string -> option exn
}.

Definition main `{DatetimeLib} `{Interpreter} (c : circumstances) : action unit :=
  (logger Info "Starting Granola sync process" ;;
   logger Info ("Output directory set to: " ++ output_path c) ;;
   if negb (is_dir c) then
     logger Error ("Output directory '" ++ output_path c
                   ++ "' does not exist or is not a directory.") ;;
     logger Error "Please create it first."
   else
     logger Info "Checking for config.json..." ;;
     exists_ <- check_config_exists (config c) ;;
     if negb exists_ then ret tt
     else
       logger Info "Initializing token manager..." ;;
       set_token_manager (__init__ "config.json" (config c)) ;;
       logger Info "Obtaining access token..." ;;
       let (result, w) :=
         get_valid_token (__init__ "config.json" (config c))
           (now_checked c) (now_refreshed c) (token_reply c) in
       set_token_manager w ;;
       access_token <- lift result ;;
       if negb (truthy access_token) then
         logger Error "Failed to obtain access token. Exiting."
       else
         logger Info "Access token obtained successfully. Fetching documents from Granola API..." ;;
         api_response <- fetch_granola_documents access_token (documents_reply c) ;;
         if negb (truthy api_response) then
           logger Error "Failed to fetch documents - API response is empty"
         else
           found <- lift (docs_of api_response) ;;
           match found with
           | None =>
             logger Error "API response format is unexpected - 'docs' key not found" ;;
             logger Debug ("API Response: " ++ str api_response)
           | Some documents =>
             docs <- lift (iterate documents) ;;
             logger Info ("Successfully fetched "
                          ++ str_int (Z.of_nat (List.length docs))
                          ++ " documents from Granola") ;;
             if negb (truthy documents) then
               logger Warning "No documents found in the API response"
             else
               synced_count <-
                 sync_documents (output_path c) access_token (mkdir c) docs
                   (transcript_replies c) 0 ;;
               logger Info ("Sync complete. " ++ str_int synced_count
                            ++ " documents processed and saved to '"
                            ++ output_path c ++ "'")
           end)%action.

(** A stand-in for the interpreter: paths joined by a slash, the distinct
    values in the order of their first occurrence, the name of the class
    for the text of an exception. *)
Definition json_eqb (a b : json) : bool :=
  match a, b with
  | JNull, JNull => true
  | JBool x, JBool y => Bool.eqb x y
  | JInt x, JInt y => x =? y
  | JBool x, JInt y | JInt y, JBool x => (if x then 1 else 0) =? y
  | JStr x, JStr y => (x =? y)%string
  | _, _ => false
  end.

Fixpoint distinct (l : list json) : list json :=
  match l with
  | [] => []
  | x :: l' => x :: filter (fun y => negb (json_eqb x y)) (distinct l')
  end.

Definition reference_interpreter : Interpreter := {|
  path_join := fun parent child => parent ++ "/" ++ child;
  set_list := distinct;
  exception_text := fun e =>
    match e with
    | AttributeError => "AttributeError"
    | TypeError => "TypeError"
    | OverflowError => "OverflowError"
    | OSError => "OSError"
    | Exception class => class
    end
|}.

(** * Vocabulary of the properties *)

(** ** Token manager *)

(** Both credentials pass the tests of [refresh_access_token]. *)
Definition credentials_present (m : TokenManager) : bool :=
  truthy (refresh_token m) && truthy (client_id m).

(** The request [refresh_access_token] sends. *)
Definition refresh_request (m : TokenManager) : string * json :=
  (url, JDict [("client_id", client_id m);
               ("grant_type", JStr "refresh_token");
               ("refresh_token", refresh_token m)]).

(** The manager once the answer [result] has been taken in. *)
Definition refreshed (m : TokenManager) (result : dict)
    (expiry : option moment) : TokenManager :=
  {| config_file := config_file m;
     refresh_token := if truthy (get "refresh_token" result JNull)
                      then get "refresh_token" result JNull
                      else refresh_token m;
     client_id := client_id m;
     access_token := get "access_token" result JNull;
     token_expiry := expiry |}.

(** The stages of a call of [refresh_access_token]: its opening record is
    logged; its request is sent. *)
Definition started (w : world) : world :=
  emit INFO "Obtaining new access token from refresh token..." w.

Definition requested (w : world) : world :=
  post (fst (refresh_request (self w))) (snd (refresh_request (self w))) (started w).

(** The world after the assignments to [self.access_token] and
    [self.refresh_token]. *)
Definition answered (w : world) (result : dict) : world :=
  let w1 := set_self (refreshed (self w) result (token_expiry (self w)))
              (requested w) in
  if truthy (get "refresh_token" result JNull)
  then emit INFO "Refresh token was rotated" w1 else w1.

(** What [_save_config] writes for [token_expiry]. *)
Definition expiry_text `{DatetimeLib} (m : TokenManager) : json :=
  match token_expiry m with
  | Some e => JStr (isoformat_of e)
  | None => JNull
  end.

(** The fields [_save_config] assigns. *)
Definition credential_fields : list string :=
  ["refresh_token"; "client_id"; "access_token"; "token_expiry"].

(** A manager that holds a refresh token read it from a file that holds a
    JSON object, and the file still does. *)
Definition consistent (w : world) : Prop :=
  truthy (refresh_token (self w)) = true -> exists d, disk w = Parsed (JDict d).

(** A configuration file with a field of its own beside the credentials,
    an answer of the token endpoint that rotates the refresh token, and a
    time of day. *)
Definition sample_config : json :=
  JDict [("refresh_token", JStr "r0"); ("client_id", JStr "c0");
         ("note", JStr "keep")].

Definition sample_answer : reply :=
  Body (JDict [("access_token", JStr "a1"); ("refresh_token", JStr "r1");
               ("expires_in", JInt 7200)]).

Definition sample_now : datetime := Reference.datetime_of 2024 1 1 10 0 0 0.


(** The reading of the specification: the file holds the credential
    fields and nothing else. *)
Definition holds_only_credential_fields (d : dict) : Prop :=
  forall key : string, contains_key key d = true -> In key credential_fields.

(** The record a call of [refresh_access_token] opens with. *)
Definition refresh_record : level * string :=
  (INFO, "Obtaining new access token from refresh token...").



(** The record of a rotation, when the answer brings a refresh token. *)
Definition rotation_records (result : dict) : list (level * string) :=
  if truthy (get "refresh_token" result JNull)
  then [(INFO, "Refresh token was rotated")] else [].

(** ** Converters *)

(** Nodes of a document, as the API sends them. *)
Definition text_node (s : string) : json :=
  JDict [("type", JStr "text"); ("text", JStr s)].

Definition heading_node (level : Z) (children : list json) : json :=
  JDict [("type", JStr "heading"); ("attrs", JDict [("level", JInt level)]);
         ("content", JList children)].

Definition paragraph_node (children : list json) : json :=
  JDict [("type", JStr "paragraph"); ("content", JList children)].

Definition list_item_node (children : list json) : json :=
  JDict [("type", JStr "listItem"); ("content", JList children)].

Definition bullet_list_node (items : list json) : json :=
  JDict [("type", JStr "bulletList"); ("content", JList items)].

(** The title line of a transcript. *)
Definition header : string := "# Transcript" ++ nl ++ nl.

(** What the specification asks of the block of one utterance [u]. *)
Definition block_of `{DatetimeLib} (u : dict) (block : string) : Prop :=
  exists label stamp : string,
    block = "**" ++ label ++ "** " ++ stamp ++ nl ++ nl
            ++ str (get "text" u (JStr "")) ++ nl ++ nl /\
    (get "source" u (JStr "unknown") = JStr "microphone" -> label = "Microphone") /\
    (get "source" u (JStr "unknown") <> JStr "microphone" -> label = "System") /\
    (forall (s : string) (dt : datetime),
       get "start_timestamp" u (JStr "") = JStr s -> s <> "" ->
       fromisoformat (replace "Z" "+00:00" s) = Datetime dt ->
       stamp = "[" ++ strftime_HMS dt ++ "]") /\
    (forall (s msg : string),
       get "start_timestamp" u (JStr "") = JStr s ->
       fromisoformat (replace "Z" "+00:00" s) = ValueError msg ->
       stamp = "") /\
    (contains_key "start_timestamp" u = false -> stamp = "") /\
    (truthy (get "start_timestamp" u (JStr "")) = false -> stamp = "") /\
    (is_str (get "start_timestamp" u (JStr "")) = false -> stamp = "").

(** The utterance of the specification's example. *)
Definition sample_utterance : json :=
  JDict [("source", JStr "microphone"); ("text", JStr "hi");
         ("start_timestamp", JStr "2024-01-01T10:00:00Z")].

(** A call returned; a call returned a [str]. *)
Definition returned {A : Type} (r : outcome A) : bool :=
  match r with
  | Returns _ => true
  | Raises _ => false
  end.

Definition returns_str (r : outcome json) : bool :=
  match r with
  | Returns (JStr _) => true
  | _ => false
  end.

(** A [content] that can be iterated, over children that render. *)
Definition all_children (wf : json -> bool) (content : json) : bool :=
  match content with
  | JList l => forallb wf l
  | JStr _ | JDict _ => true
  | JNull | JBool _ | JInt _ => false
  end.

(** An item of a [bulletList]: an object; a [listItem] has a [content] as
    above. *)
Definition item_ok (wf : json -> bool) (item : json) : bool :=
  match item with
  | JDict di =>
      if eq_str (get "type" di JNull) "listItem"
      then with_field "content" (all_children wf) true di
      else true
  | _ => false
  end.

(** The [content] of a [bulletList]: a list of such items, or an empty
    [str] or [dict]. *)
Definition items_ok (wf : json -> bool) (content : json) : bool :=
  match content with
  | JList l => forallb (item_ok wf) l
  | JStr s => (s =? "")%string
  | JDict d => match d with [] => true | _ :: _ => false end
  | JNull | JBool _ | JInt _ => false
  end.

(** [attrs] is an object, when given, and its [level] a number that
    ['#'] can be repeated by. *)
Definition level_ok (d : dict) : bool :=
  match heading_level d with
  | Returns (JInt n) => index_sized n
  | Returns (JBool _) => true
  | _ => false
  end.

(** The nodes that [process_node] renders to a string: whatever is not an
    object, and an object whose fields have the shapes its type reads. *)
Fixpoint well_formed (node : json) : bool :=
  match node with
  | JDict d =>
      let node_type := get "type" d (JStr "") in
      if eq_str node_type "heading" then
        level_ok d && with_field "content" (all_children well_formed) true d
      else if eq_str node_type "paragraph" then
        with_field "content" (all_children well_formed) true d
      else if eq_str node_type "bulletList" then
        with_field "content" (items_ok well_formed) true d
      else if eq_str node_type "text" then
        is_str (get "text" d (JStr ""))
      else
        with_field "content" (all_children well_formed) true d
  | _ => true
  end.

(** The documents [convert_prosemirror_to_markdown] renders to a string. *)
Definition well_formed_document (content : json) : bool :=
  match content with
  | JDict d =>
      negb (truthy content) || negb (contains_key "content" d)
      || well_formed content
  | _ => true
  end.

(** The number of values in a value, for induction on documents. *)
Fixpoint size (j : json) : nat :=
  match j with
  | JList l => S (list_sum (map size l))
  | JDict d => S (list_sum (map (fun kv => size (snd kv)) d))
  | _ => 1%nat
  end.


(** The answer to a rejected request: [raise_for_status()] raises an
    [HTTPError] that carries the response. *)
Definition unauthorized : reply :=
  Fails {| message := "401 Client Error: Unauthorized for url: " ++ url;
           response := Some {| status_code := 401; text := "{}" |} |}.

(** ** Token manager: files, requests and construction *)

(** [f'] is what a method may leave at the path where it found [f]: an
    object keeps every field, and every field that is not a credential
    field keeps its value; a file that cannot be read as an object is not
    touched; where nothing was, nothing or an object is. *)
Definition keeps_file (f f' : file) : Prop :=
  match f with
  | Parsed (JDict d) =>
      exists d' : dict,
        f' = Parsed (JDict d') /\
        (forall key : string,
           contains_key key d = true -> contains_key key d' = true) /\
        (forall key : string,
           ~ In key credential_fields -> dict_get key d' = dict_get key d)
  | NoFile => f' = NoFile \/ exists d' : dict, f' = Parsed (JDict d')
  | _ => f' = f
  end.

(** A request as [refresh_access_token] builds it, with credentials that
    are not empty. *)
Definition token_request (p : string * json) : Prop :=
  fst p = url /\
  exists cid rt : json,
    snd p = JDict [("client_id", cid); ("grant_type", JStr "refresh_token");
                   ("refresh_token", rt)] /\
    truthy cid = true /\ truthy rt = true.

(** A value [timedelta(seconds=...)] accepts. *)
Definition is_number (v : json) : bool :=
  match v with
  | JInt _ | JBool _ => true
  | _ => false
  end.

(** The [token_expiry] a manager takes from the object [d]. *)
Definition loaded_expiry `{DatetimeLib} (d : dict) : option moment :=
  match get "token_expiry" d JNull with
  | JStr s =>
      if (s =? "")%string then None
      else match fromisoformat s with
           | Datetime dt => Some (moment_of s dt)
           | ValueError _ => None
           end
  | _ => None
  end.

(** ** Converters: rendering *)

(** The texts [ss], one after the other. *)
Definition glue (ss : list string) : string := fold_right String.append "" ss.

(** The nodes [l] render as the texts [ss]. *)
Definition renders (l : list json) (ss : list string) : Prop :=
  Forall2 (fun c s => process_node c = Returns (JStr s)) l ss.

(** A type that [process_node] has no branch for. *)
Definition unknown_type (t : json) : Prop :=
  eq_str t "heading" = false /\ eq_str t "paragraph" = false /\
  eq_str t "bulletList" = false /\ eq_str t "text" = false.

Definition sample_doc_type : dict :=
  [("type", JStr "doc");
   ("content", JList [paragraph_node [text_node "a"]; text_node "b"])].


(** ** File names *)

(** A name [sanitize_filename] has nothing to do on. *)
Definition clean (s : string) : Prop :=
  forall c : ascii,
    has_char c s = true -> has_char c invalid_chars = false /\ c <> " "%char.

(** ** The orchestrator *)

(** What [fetch_document_transcript] returns when the API answers [r]. *)
Definition transcript_of (r : api_reply) : json :=
  match r with
  | Answer j => j
  | HTTPError _ _ | OtherError _ => JNull
  end.

(** A value a [set] takes. *)
Definition hashable (v : json) : bool :=
  match v with
  | JList _ | JDict _ => false
  | _ => true
  end.

(** An utterance the metadata can be derived from: an object whose
    [source] is hashable. *)
Definition utterance_ok (utterance : json) : bool :=
  match utterance with
  | JDict u => hashable (get "source" u (JStr "unknown"))
  | _ => false
  end.

Definition utterances_ok (transcript_data : json) : bool :=
  match transcript_data with
  | JList l => forallb utterance_ok l
  | _ => true
  end.

(** The content of a document, when there is one, is well formed. *)
Definition resume_ok (doc : dict) : bool :=
  match content_to_parse doc with
  | Some c => well_formed_document c
  | None => true
  end.

(** A document the block under [try] gets through, when its transcript
    request is answered by [r]. *)
Definition processed (doc : dict) (r : api_reply) : bool :=
  utterances_ok (transcript_of r) && resume_ok doc.

Definition documents_request (token : json) : string * json * json :=
  ("https://api.granola.ai/v2/get-documents", headers token,
   JDict [("limit", JInt 100); ("offset", JInt 0);
          ("include_last_viewed_panel", JBool true)]).

Definition transcript_request (token : json) (document_id : string)
    : string * json * json :=
  ("https://api.granola.ai/v1/get-document-transcript", headers token,
   JDict [("document_id", JStr document_id)]).

Definition file_name (f : string * string * content) : string := snd (fst f).
Definition file_folder (f : string * string * content) : string := fst (fst f).

(** The files a document gets besides [document.json], when the block
    under [try] runs to its end. *)
Definition derived_files (doc : dict) (transcript_data : json) : list string :=
  ((if truthy transcript_data then ["transcript.json"] else [])
   ++ ["metadata.json"]
   ++ (match content_to_parse doc with Some _ => ["resume.md"] | None => [] end)
   ++ (if truthy transcript_data then ["transcript.md"] else []))%list.

(** A document the loop of [main] can take: an object whose [id], when
    given, is a string. *)
Definition identified (doc : json) : bool :=
  match doc with
  | JDict d => is_str (get "id" d (JStr "unknown_id"))
  | _ => false
  end.

(** The name of the folder of a document. *)
Definition doc_id_of (doc : json) : string :=
  match doc with
  | JDict d => str (get "id" d (JStr "unknown_id"))
  | _ => ""
  end.

(** The folder of a document can be made. *)
Definition folder_made (mkdir : string -> option exn) (doc : json) : bool :=
  match mkdir (doc_id_of doc) with
  | None => true
  | Some _ => false
  end.

(** A document the loop of [main] reaches the [try] with. *)
Definition admitted (mkdir : string -> option exn) (doc : json) : bool :=
  identified doc && folder_made mkdir doc.

(** What is raised at a document that is not admitted: a value that is
    not an object has no [get], an [id] that is not a string does not
    extend a path, and [mkdir] raises what it raises. *)
Definition rejection (mkdir : string -> option exn) (doc : json) : exn :=
  if negb (is_dict doc) then AttributeError
  else if negb (identified doc) then TypeError
  else match mkdir (doc_id_of doc) with
       | Some e => e
       | None => TypeError
       end.

Definition synced (doc : json) (r : api_reply) : bool :=
  match doc with
  | JDict d => processed d r
  | _ => false
  end.


(** The raw documents among the files of a run: folder and content of
    every [document.json], in the order of writing. *)
Definition raw_documents (fs : list (string * string * content))
    : list (string * content) :=
  map (fun f => (file_folder f, snd f))
      (filter (fun f => (file_name f =? "document.json")%string) fs).

Definition raw_document (doc : json) : string * content :=
  (doc_id_of doc, Json doc).

(** [token_manager.get_valid_token()] as [main] calls it. *)
Definition token_of `{DatetimeLib} (c : circumstances) : outcome json * world :=
  get_valid_token (__init__ "config.json" (config c))
    (now_checked c) (now_refreshed c) (token_reply c).


(** Two documents, the first with a content and a transcript, and the
    circumstances of a run that fetches them. *)
Definition sample_doc1 : json :=
  JDict [("id", JStr "d1"); ("title", JStr "T1");
         ("last_viewed_panel",
          JDict [("content",
                  JDict [("type", JStr "doc");
                         ("content", JList [paragraph_node [text_node "hello"]])])])].


Definition sample_replies (n : nat) : api_reply :=
  match n with
  | O => Answer (JList [sample_utterance])
  | _ => HTTPError 404 "404 Client Error: Not Found"
  end.

(** A directory without folders of its own: the folder of an [id] with a
    slash has no parent to be made in. *)
Definition sample_mkdir (id : string) : option exn :=
  if has_char "/" id then Some OSError else None.

Definition sample_circumstances (documents : json) : circumstances :=
  {| output_path := "notes"; is_dir := true;
     config := Parsed sample_config;
     now_checked := sample_now; now_refreshed := sample_now;
     token_reply := sample_answer;
     documents_reply := Answer (JDict [("docs", documents)]);
     transcript_replies := sample_replies;
     mkdir := sample_mkdir |}.

(** [Path('config.json').exists()] *)
Definition config_exists (f : file) : bool :=
  match f with
  | NoFile => false
  | Unparseable _ | Parsed _ => true
  end.

(** The record [main] ends with when it has no token. *)
Definition no_token_record : levelname * string :=
  (Error, "Failed to obtain access token. Exiting.").

(** A configuration without a client id. *)
Definition sample_config_without_client_id : json :=
  JDict [("refresh_token", JStr "r0")].

(** An answer of the token endpoint without [access_token]. *)
Definition sample_answer_without_token : reply :=
  Body (JDict [("expires_in", JInt 7200)]).





(** * Properties *)

(** ** Dictionaries *)

Lemma dict_get_set_same (key : string) (v : json) (d : dict) :
  dict_get key (dict_set key v d) = Some v.
Proof.
  induction d as [|[k x] d IH]; simpl.
  - now rewrite String.eqb_refl.
  - destruct (k =? key)%string eqn:E; simpl; now rewrite E.
Qed.

Lemma dict_get_set_other (key key' : string) (v : json) (d : dict) :
  key <> key' -> dict_get key' (dict_set key v d) = dict_get key' d.
Proof.
  intros Hne. induction d as [|[k x] d IH]; simpl.
  - destruct (key =? key')%string eqn:E; [|reflexivity].
    apply String.eqb_eq in E. contradiction.
  - destruct (k =? key)%string eqn:E; simpl.
    + apply String.eqb_eq in E. subst k.
      destruct (key =? key')%string eqn:E'; [|reflexivity].
      apply String.eqb_eq in E'. contradiction.
    + now rewrite IH.
Qed.

Lemma contains_key_get (key : string) (d : dict) (default : json) :
  contains_key key d = false -> get key d default = default.
Proof.
  unfold contains_key, get. now destruct (dict_get key d).
Qed.

(** ** [is_token_expired] *)



(** ** [refresh_access_token] *)

Lemma self_emit (l : level) (msg : string) (w : world) :
  self (emit l msg w) = self w.
Proof. reflexivity. Qed.

Lemma disk_emit (l : level) (msg : string) (w : world) :
  disk (emit l msg w) = disk w.
Proof. reflexivity. Qed.

Lemma posted_emit (l : level) (msg : string) (w : world) :
  posted (emit l msg w) = posted w.
Proof. reflexivity. Qed.

Lemma self_set_self (m : TokenManager) (w : world) :
  self (set_self m w) = m.
Proof. reflexivity. Qed.

Lemma disk_set_self (m : TokenManager) (w : world) :
  disk (set_self m w) = disk w.
Proof. reflexivity. Qed.

Lemma posted_set_self (m : TokenManager) (w : world) :
  posted (set_self m w) = posted w.
Proof. reflexivity. Qed.

Lemma self_log_request_exception (e : RequestException) (w : world) :
  self (log_request_exception e w) = self w.
Proof. unfold log_request_exception. now destruct (response e). Qed.

Lemma disk_log_request_exception (e : RequestException) (w : world) :
  disk (log_request_exception e w) = disk w.
Proof. unfold log_request_exception. now destruct (response e). Qed.

Lemma posted_log_request_exception (e : RequestException) (w : world) :
  posted (log_request_exception e w) = posted w.
Proof. unfold log_request_exception. now destruct (response e). Qed.

Lemma self_save_config `{DatetimeLib} (w : world) :
  self (_save_config w) = self w.
Proof. unfold _save_config. now destruct (disk w) as [| |[]]. Qed.

Lemma posted_save_config `{DatetimeLib} (w : world) :
  posted (_save_config w) = posted w.
Proof. unfold _save_config. now destruct (disk w) as [| |[]]. Qed.

(** The paths through [refresh_access_token]. *)

Lemma refresh_no_refresh_token `{DatetimeLib} (w : world) (now : datetime) (r : reply) :
  truthy (refresh_token (self w)) = false ->
  refresh_access_token w now r =
  (Returns false, emit ERROR "No refresh token available in config.json" (started w)).
Proof.
  intros Hrt. unfold refresh_access_token. rewrite self_emit, Hrt. reflexivity.
Qed.

Lemma refresh_no_client_id `{DatetimeLib} (w : world) (now : datetime) (r : reply) :
  truthy (refresh_token (self w)) = true ->
  truthy (client_id (self w)) = false ->
  refresh_access_token w now r =
  (Returns false, emit ERROR "No client_id found in config.json" (started w)).
Proof.
  intros Hrt Hcid. unfold refresh_access_token. rewrite self_emit, Hrt, Hcid.
  reflexivity.
Qed.

Lemma refresh_request_fails `{DatetimeLib} (w : world) (now : datetime)
    (e : RequestException) :
  credentials_present (self w) = true ->
  refresh_access_token w now (Fails e) =
  (Returns false, log_request_exception e (requested w)).
Proof.
  intros Hc. apply andb_prop in Hc as [Hrt Hcid].
  unfold refresh_access_token. rewrite self_emit, Hrt, Hcid. reflexivity.
Qed.

Lemma refresh_body_not_dict `{DatetimeLib} (w : world) (now : datetime)
    (result : json) :
  credentials_present (self w) = true ->
  is_dict result = false ->
  refresh_access_token w now (Body result) = (Raises AttributeError, requested w).
Proof.
  intros Hc Hd. apply andb_prop in Hc as [Hrt Hcid].
  unfold refresh_access_token. rewrite self_emit, Hrt, Hcid.
  destruct result; try reflexivity. discriminate.
Qed.

Lemma refresh_body_dict `{DatetimeLib} (w : world) (now : datetime)
    (result : dict) :
  credentials_present (self w) = true ->
  refresh_access_token w now (Body (JDict result)) =
  match expiry_after now (get "expires_in" result (JInt 3600)) with
  | Returns expiry =>
      (Returns true,
       emit INFO ("Successfully obtained access token (expires in "
                  ++ str (get "expires_in" result (JInt 3600)) ++ " seconds)")
         (_save_config
            (set_self (refreshed (self w) result (Some (Naive expiry)))
               (answered w result))))
  | Raises e => (Raises e, answered w result)
  end.
Proof.
  intros Hc. apply andb_prop in Hc as [Hrt Hcid].
  unfold refresh_access_token. rewrite self_emit, Hrt, Hcid.
  unfold answered, refreshed.
  destruct (truthy (get "refresh_token" result JNull));
    destruct (expiry_after _ _); reflexivity.
Qed.

(** The expiry is set when the lifetime is one that [timedelta] takes and
    the sum is a reading that a [datetime] can hold. *)
Lemma expiry_after_returns (now : datetime) (expires_in : json)
    (expiry : datetime) :
  expiry_after now expires_in = Returns expiry <->
  exists delta : timedelta,
    timedelta_seconds expires_in = Returns delta /\
    in_range (now + delta) = true /\ expiry = now + delta.
Proof.
  unfold expiry_after, datetime_add.
  destruct (timedelta_seconds expires_in) as [delta | e]; cbn [bind].
  - destruct (in_range (now + delta)) eqn:Hr; split.
    + intros [= <-]. eauto.
    + now intros (delta' & [= <-] & _ & ->).
    + discriminate.
    + intros (delta' & [= <-] & Hr' & _). congruence.
  - split; [discriminate|]. now intros (delta' & Hd & _).
Qed.

Lemma credentials_cases (m : TokenManager) :
  truthy (refresh_token m) = false \/
  (truthy (refresh_token m) = true /\ truthy (client_id m) = false) \/
  credentials_present m = true.
Proof.
  unfold credentials_present.
  destruct (truthy (refresh_token m)), (truthy (client_id m)); auto.
Qed.

Lemma self_answered (w : world) (result : dict) :
  self (answered w result) = refreshed (self w) result (token_expiry (self w)).
Proof.
  unfold answered. now destruct (truthy (get "refresh_token" result JNull)).
Qed.

Lemma disk_answered (w : world) (result : dict) :
  disk (answered w result) = disk w.
Proof.
  unfold answered. now destruct (truthy (get "refresh_token" result JNull)).
Qed.

Lemma posted_answered (w : world) (result : dict) :
  posted (answered w result) = (posted w ++ [refresh_request (self w)])%list.
Proof.
  unfold answered. now destruct (truthy (get "refresh_token" result JNull)).
Qed.

(** C3. A call of [refresh_access_token] fails, that is returns [False],
    exactly when the refresh token or the client id is missing or the
    exchange with the token endpoint raises a [RequestException] (a
    rejected status, a failed connection, a body that is not JSON).  Every
    such call returns [False], it does not raise, and it leaves the
    manager's [refresh_token], [client_id], [access_token] and
    [token_expiry] and the configuration file as they were. *)
Theorem refresh_access_token_failure `{DatetimeLib}
    (w : world) (now : datetime) (r : reply) :
  (truthy (refresh_token (self w)) = false \/
   truthy (client_id (self w)) = false \/
   (exists e, r = Fails e)
   <-> fst (refresh_access_token w now r) = Returns false) /\
  (fst (refresh_access_token w now r) = Returns false ->
   self (snd (refresh_access_token w now r)) = self w /\
   disk (snd (refresh_access_token w now r)) = disk w).
Proof.
  destruct (credentials_cases (self w)) as [Hrt | [[Hrt Hcid] | Hc]].
  - rewrite (refresh_no_refresh_token w now r Hrt). simpl. tauto.
  - rewrite (refresh_no_client_id w now r Hrt Hcid). simpl. tauto.
  - assert (Hboth := Hc). apply andb_prop in Hboth as [Hrt Hcid].
    rewrite Hrt, Hcid.
    destruct r as [e | result].
    + rewrite (refresh_request_fails w now e Hc). simpl.
      rewrite self_log_request_exception, disk_log_request_exception.
      split; [split; eauto|auto].
    + assert (Hno : fst (refresh_access_token w now (Body result)) <> Returns false).
      { destruct result;
          try (rewrite refresh_body_not_dict by easy; discriminate).
        rewrite refresh_body_dict by easy.
        destruct (expiry_after _ _); discriminate. }
      split; [split|]; intros Hf; try contradiction.
      destruct Hf as [Hf | [Hf | [e He]]]; discriminate.
Qed.

(** C4. [refresh_access_token] needs the refresh token and the client id:
    when either is absent ([None] or empty) it returns [False] after
    logging the configuration error, sends no request and changes neither
    the manager nor the file.  When both are there, it sends its one
    request to the token endpoint. *)
Theorem refresh_access_token_requires_credentials `{DatetimeLib}
    (w : world) (now : datetime) (r : reply) :
  (truthy (refresh_token (self w)) = false \/
   truthy (client_id (self w)) = false ->
   fst (refresh_access_token w now r) = Returns false /\
   posted (snd (refresh_access_token w now r)) = posted w /\
   self (snd (refresh_access_token w now r)) = self w /\
   disk (snd (refresh_access_token w now r)) = disk w /\
   exists msg,
     log (snd (refresh_access_token w now r)) =
     (log w ++ [(INFO, "Obtaining new access token from refresh token...");
                (ERROR, msg)])%list) /\
  (refresh_token (self w) = JNull \/ client_id (self w) = JNull ->
   fst (refresh_access_token w now r) = Returns false /\
   posted (snd (refresh_access_token w now r)) = posted w) /\
  (credentials_present (self w) = true ->
   posted (snd (refresh_access_token w now r)) =
   (posted w ++ [refresh_request (self w)])%list).
Proof.
  assert (Hmissing :
    truthy (refresh_token (self w)) = false \/
    truthy (client_id (self w)) = false ->
    fst (refresh_access_token w now r) = Returns false /\
    posted (snd (refresh_access_token w now r)) = posted w /\
    self (snd (refresh_access_token w now r)) = self w /\
    disk (snd (refresh_access_token w now r)) = disk w /\
    exists msg,
      log (snd (refresh_access_token w now r)) =
      (log w ++ [(INFO, "Obtaining new access token from refresh token...");
                 (ERROR, msg)])%list).
  { intros Hmiss.
    destruct (credentials_cases (self w)) as [Hrt | [[Hrt Hcid] | Hc]].
    - rewrite (refresh_no_refresh_token w now r Hrt). simpl.
      rewrite <- app_assoc. repeat split. eexists. reflexivity.
    - rewrite (refresh_no_client_id w now r Hrt Hcid). simpl.
      rewrite <- app_assoc. repeat split. eexists. reflexivity.
    - apply andb_prop in Hc as [Hrt Hcid].
      destruct Hmiss as [Hm | Hm]; congruence. }
  split; [exact Hmissing|split].
  - intros Hnull.
    assert (Hm : truthy (refresh_token (self w)) = false \/
                 truthy (client_id (self w)) = false)
      by (destruct Hnull as [Hn | Hn]; rewrite Hn; auto).
    destruct (Hmissing Hm) as (Hf & Hp & _). auto.
  - intros Hc. destruct r as [e | result].
    + rewrite (refresh_request_fails w now e Hc). simpl.
      now rewrite posted_log_request_exception.
    + destruct result; try (now rewrite refresh_body_not_dict by easy).
      rewrite refresh_body_dict by easy.
      destruct (expiry_after _ _); unfold snd.
      * now rewrite posted_emit, posted_save_config, posted_set_self,
          posted_answered.
      * now rewrite posted_answered.
Qed.

(** ** The configuration file *)

Ltac differ := apply String.eqb_neq; reflexivity.

Lemma updated_config_refresh_token `{DatetimeLib} (m : TokenManager) (d : dict) :
  dict_get "refresh_token" (updated_config m d) = Some (refresh_token m).
Proof.
  unfold updated_config.
  rewrite 2 dict_get_set_other by differ.
  destruct (truthy (client_id m)).
  - rewrite dict_get_set_other by differ. apply dict_get_set_same.
  - apply dict_get_set_same.
Qed.

Lemma updated_config_access_token `{DatetimeLib} (m : TokenManager) (d : dict) :
  dict_get "access_token" (updated_config m d) = Some (access_token m).
Proof.
  unfold updated_config.
  rewrite dict_get_set_other by differ. apply dict_get_set_same.
Qed.

Lemma updated_config_token_expiry `{DatetimeLib} (m : TokenManager) (d : dict) :
  dict_get "token_expiry" (updated_config m d) = Some (expiry_text m).
Proof. unfold updated_config. apply dict_get_set_same. Qed.

Lemma updated_config_client_id `{DatetimeLib} (m : TokenManager) (d : dict) :
  dict_get "client_id" (updated_config m d) =
  if truthy (client_id m) then Some (client_id m) else dict_get "client_id" d.
Proof.
  unfold updated_config.
  rewrite 2 dict_get_set_other by differ.
  destruct (truthy (client_id m)).
  - apply dict_get_set_same.
  - now rewrite dict_get_set_other by differ.
Qed.

Lemma updated_config_other `{DatetimeLib} (m : TokenManager) (d : dict)
    (key : string) :
  ~ In key credential_fields ->
  dict_get key (updated_config m d) = dict_get key d.
Proof.
  intros Hkey. unfold credential_fields in Hkey. simpl in Hkey.
  unfold updated_config.
  rewrite 2 dict_get_set_other by tauto.
  destruct (truthy (client_id m)).
  - rewrite 2 dict_get_set_other by tauto. reflexivity.
  - rewrite dict_get_set_other by tauto. reflexivity.
Qed.

Lemma save_config_on_dict `{DatetimeLib} (w : world) (d : dict) :
  disk w = Parsed (JDict d) ->
  _save_config w =
  emit DEBUG ("Configuration saved to " ++ config_file (self w))
    (write_file (JDict (updated_config (self w) d)) w).
Proof. intros Hd. unfold _save_config. now rewrite Hd. Qed.

Lemma load_config_consistent `{DatetimeLib} (w : world) :
  consistent w -> consistent (snd (_load_config w)).
Proof.
  unfold consistent, _load_config. intros Hw.
  destruct (disk w) as [| err | j] eqn:Hd; simpl; rewrite ?Hd; try exact Hw.
  destruct j; simpl; rewrite ?Hd; try exact Hw.
  intros _. exists fields.
  destruct (truthy (get "token_expiry" fields JNull)); [|exact Hd].
  destruct (get "token_expiry" fields JNull); try exact Hd.
  destruct (fromisoformat s); exact Hd.
Qed.

Lemma save_config_consistent `{DatetimeLib} (w : world) :
  consistent w -> consistent (_save_config w).
Proof.
  unfold consistent. rewrite self_save_config. intros Hw Hrt.
  destruct (Hw Hrt) as [d Hd]. rewrite (save_config_on_dict w d Hd).
  simpl. eauto.
Qed.

(** A call that raises has not written the file. *)
Lemma disk_refresh_raises `{DatetimeLib} (w w' : world) (now : datetime)
    (r : reply) (e : exn) :
  refresh_access_token w now r = (Raises e, w') -> disk w' = disk w.
Proof.
  destruct (credentials_cases (self w)) as [Hrt | [[Hrt Hcid] | Hc]].
  - now rewrite (refresh_no_refresh_token w now r Hrt).
  - now rewrite (refresh_no_client_id w now r Hrt Hcid).
  - destruct r as [x | result].
    + now rewrite (refresh_request_fails w now x Hc).
    + destruct result; try (rewrite refresh_body_not_dict by easy;
        intros [= _ <-]; reflexivity).
      rewrite refresh_body_dict by easy.
      destruct (expiry_after _ _); intros [= <- <-] || intros [= _ <-].
      apply disk_answered.
Qed.

Lemma refresh_consistent `{DatetimeLib} (w : world) (now : datetime) (r : reply) :
  consistent w -> consistent (snd (refresh_access_token w now r)).
Proof.
  intros Hw.
  destruct (credentials_cases (self w)) as [Hrt | [[Hrt Hcid] | Hc]].
  - rewrite (refresh_no_refresh_token w now r Hrt). exact Hw.
  - rewrite (refresh_no_client_id w now r Hrt Hcid). exact Hw.
  - assert (Hboth := Hc). apply andb_prop in Hboth as [Hrt Hcid].
    destruct (Hw Hrt) as [d Hd].
    destruct r as [x | result].
    + rewrite (refresh_request_fails w now x Hc). unfold consistent, snd.
      now rewrite self_log_request_exception, disk_log_request_exception.
    + destruct result; try (rewrite refresh_body_not_dict by easy; exact Hw).
      rewrite refresh_body_dict by easy. intros _.
      destruct (expiry_after _ _); unfold snd.
      * rewrite disk_emit.
        erewrite save_config_on_dict
          by (rewrite disk_set_self, disk_answered; exact Hd).
        simpl. eauto.
      * rewrite disk_answered. eauto.
Qed.

Lemma get_valid_token_world `{DatetimeLib} (w : world) (now now' : datetime)
    (r : reply) :
  snd (get_valid_token w now now' r) =
  match is_token_expired (self w) now with
  | Returns true =>
      match fst (refresh_access_token w now' r) with
      | Returns false =>
          emit ERROR "Failed to obtain access token"
            (snd (refresh_access_token w now' r))
      | _ => snd (refresh_access_token w now' r)
      end
  | _ => w
  end.
Proof.
  unfold get_valid_token.
  destruct (is_token_expired (self w) now) as [[|]|e]; try reflexivity.
  now destruct (refresh_access_token w now' r) as [[[|]|e] w'].
Qed.

Lemma get_valid_token_consistent `{DatetimeLib} (w : world) (now now' : datetime)
    (r : reply) :
  consistent w -> consistent (snd (get_valid_token w now now' r)).
Proof.
  intros Hw. rewrite get_valid_token_world.
  destruct (is_token_expired (self w) now) as [[|]|e]; try exact Hw.
  pose proof (refresh_consistent w now' r Hw) as Hr.
  now destruct (fst (refresh_access_token w now' r)) as [[|]|e].
Qed.

Lemma reachable_consistent `{DatetimeLib} (w : world) :
  reachable w -> consistent w.
Proof.
  induction 1.
  - apply load_config_consistent. intros Hrt. discriminate.
  - now apply load_config_consistent.
  - now apply save_config_consistent.
  - now apply refresh_consistent.
  - now apply get_valid_token_consistent.
Qed.

(** ** Successful refresh *)

Lemma refresh_returns_true `{DatetimeLib} (w w' : world) (now : datetime)
    (r : reply) :
  refresh_access_token w now r = (Returns true, w') ->
  credentials_present (self w) = true /\
  exists (result : dict) (delta : timedelta),
    r = Body (JDict result) /\
    timedelta_seconds (get "expires_in" result (JInt 3600)) = Returns delta /\
    in_range (now + delta) = true /\
    w' = emit INFO ("Successfully obtained access token (expires in "
                    ++ str (get "expires_in" result (JInt 3600)) ++ " seconds)")
           (_save_config
              (set_self (refreshed (self w) result (Some (Naive (now + delta))))
                 (answered w result))).
Proof.
  destruct (credentials_cases (self w)) as [Hrt | [[Hrt Hcid] | Hc]].
  - now rewrite (refresh_no_refresh_token w now r Hrt).
  - now rewrite (refresh_no_client_id w now r Hrt Hcid).
  - intros Hcall. split; [exact Hc|].
    destruct r as [x | result].
    + now rewrite (refresh_request_fails w now x Hc) in Hcall.
    + destruct result; try now rewrite refresh_body_not_dict in Hcall by easy.
      rewrite refresh_body_dict in Hcall by easy.
      destruct (expiry_after _ _) as [expiry | e] eqn:Hexpiry; [|discriminate].
      apply expiry_after_returns in Hexpiry as (delta & Hdelta & Hrange & ->).
      injection Hcall as <-. exists fields, delta. auto.
Qed.

Lemma timedelta_seconds_default (result : dict) (delta : timedelta) :
  timedelta_seconds (get "expires_in" result (JInt 3600)) = Returns delta ->
  (contains_key "expires_in" result = false -> delta = seconds 3600) /\
  (forall n : Z, dict_get "expires_in" result = Some (JInt n) -> delta = seconds n).
Proof.
  unfold get, contains_key.
  destruct (dict_get "expires_in" result) as [v|]; intros Hdelta; split.
  - discriminate.
  - intros n [= ->]. cbn [timedelta_seconds] in Hdelta.
    destruct (_ && _); [|discriminate]. now injection Hdelta as <-.
  - intros _. now injection Hdelta as <-.
  - discriminate.
Qed.

(** C1. After a successful call of [refresh_access_token] (one that returns
    [True]) by a manager of a run, the answer of the token endpoint was a
    JSON object and: [access_token] is the [access_token] of the answer;
    [token_expiry] is the time of the call plus the [expires_in] seconds of
    the answer, 3600 seconds when the answer has no [expires_in] (a naive
    [datetime], within the years that a [datetime] holds);
    [refresh_token] is the [refresh_token] of the answer when it brings one
    (a value that is not empty) and the one held before otherwise; and,
    when the call returns, the configuration file holds the manager's
    [refresh_token], [client_id], [access_token] and the text of its
    [token_expiry]. *)
Theorem refresh_access_token_success `{DatetimeLib}
    (w w' : world) (now : datetime) (r : reply) :
  reachable w ->
  refresh_access_token w now r = (Returns true, w') ->
  exists (result : dict) (delta : timedelta) (d : dict),
    r = Body (JDict result) /\
    access_token (self w') = get "access_token" result JNull /\
    timedelta_seconds (get "expires_in" result (JInt 3600)) = Returns delta /\
    (contains_key "expires_in" result = false -> delta = seconds 3600) /\
    (forall n : Z, dict_get "expires_in" result = Some (JInt n) -> delta = seconds n) /\
    token_expiry (self w') = Some (Naive (now + delta)) /\
    in_range (now + delta) = true /\
    refresh_token (self w') =
      (if truthy (get "refresh_token" result JNull)
       then get "refresh_token" result JNull
       else refresh_token (self w)) /\
    (forall token : string,
       token <> "" ->
       dict_get "refresh_token" result = Some (JStr token) ->
       refresh_token (self w') = JStr token) /\
    (contains_key "refresh_token" result = false ->
     refresh_token (self w') = refresh_token (self w)) /\
    client_id (self w') = client_id (self w) /\
    disk w' = Parsed (JDict d) /\
    dict_get "refresh_token" d = Some (refresh_token (self w')) /\
    dict_get "client_id" d = Some (client_id (self w')) /\
    dict_get "access_token" d = Some (access_token (self w')) /\
    dict_get "token_expiry" d = Some (JStr (isoformat (now + delta))).
Proof.
  intros Hreach Hcall.
  destruct (refresh_returns_true w w' now r Hcall)
    as (Hc & result & delta & -> & Hdelta & Hrange & ->).
  assert (Hboth := Hc). apply andb_prop in Hboth as [Hrt Hcid].
  destruct (reachable_consistent w Hreach Hrt) as [d0 Hd0].
  pose (m := refreshed (self w) result (Some (Naive (now + delta)))).
  exists result, delta, (updated_config m d0).
  destruct (timedelta_seconds_default result delta Hdelta) as [Hdef Hgiven].
  rewrite self_emit, self_save_config, self_set_self, disk_emit.
  erewrite save_config_on_dict
    by (rewrite disk_set_self, disk_answered; exact Hd0).
  rewrite disk_emit, self_set_self. fold m.
  rewrite updated_config_refresh_token, updated_config_access_token,
    updated_config_token_expiry, updated_config_client_id.
  simpl. rewrite Hcid. repeat split; auto.
  - intros token Htoken Hget. unfold get. rewrite Hget. simpl.
    destruct (token =? "")%string eqn:E; [|reflexivity].
    apply String.eqb_eq in E. contradiction.
  - intros Hno. now rewrite (contains_key_get _ _ _ Hno).
Qed.

(** The refresh of a manager constructed over [sample_config], answered by
    [sample_answer] at [sample_now]. *)
Lemma refresh_access_token_success_witness :
  let w := @__init__ reference_datetime "config.json" (Parsed sample_config) in
  let w' := snd (@refresh_access_token reference_datetime w sample_now sample_answer) in
  access_token (self w') = JStr "a1" /\
  refresh_token (self w') = JStr "r1" /\
  token_expiry (self w') = Some (Naive (sample_now + seconds 7200)) /\
  exists d : dict,
    disk w' = Parsed (JDict d) /\
    dict_get "refresh_token" d = Some (JStr "r1") /\
    dict_get "access_token" d = Some (JStr "a1") /\
    dict_get "token_expiry" d = Some (JStr "2024-01-01T12:00:00").
Proof.
  intros w w'.
  destruct (@refresh_access_token_success reference_datetime w w' sample_now
              sample_answer (@reach_init reference_datetime _ _) eq_refl)
    as (result & delta & d & Hr & Ha & Hdelta & _ & _ & He & _ & Hrt & _ & _ & _
        & Hd & Hd1 & _ & Hd3 & Hd4).
  injection Hr as <-.
  injection Hdelta as <-.
  repeat split; try assumption.
  exists d. repeat split; assumption.
Defined.

(** ** What a refresh writes *)

(** C9, as amended.  A successful refresh by a manager of a run rewrites the
    configuration file as the object it held before with [refresh_token],
    [client_id], [access_token] and [token_expiry] set to the manager's
    values: these four fields are there afterwards, and every other field
    that was stored is carried over with its value.  (A refresh that fails
    does not write.) *)
Theorem refresh_merges_into_config `{DatetimeLib}
    (w w' : world) (now : datetime) (r : reply) :
  reachable w ->
  refresh_access_token w now r = (Returns true, w') ->
  exists d0 : dict,
    disk w = Parsed (JDict d0) /\
    disk w' = Parsed (JDict (updated_config (self w') d0)) /\
    (forall key : string,
       In key credential_fields ->
       contains_key key (updated_config (self w') d0) = true) /\
    (forall key : string,
       ~ In key credential_fields ->
       dict_get key (updated_config (self w') d0) = dict_get key d0) /\
    (forall key : string,
       contains_key key (updated_config (self w') d0) = true <->
       In key credential_fields \/ contains_key key d0 = true).
Proof.
  intros Hreach Hcall.
  destruct (refresh_returns_true w w' now r Hcall)
    as (Hc & result & delta & -> & Hdelta & Hrange & ->).
  assert (Hboth := Hc). apply andb_prop in Hboth as [Hrt Hcid].
  destruct (reachable_consistent w Hreach Hrt) as [d0 Hd0].
  exists d0. split; [exact Hd0|].
  rewrite self_emit, self_save_config, self_set_self, disk_emit.
  erewrite save_config_on_dict
    by (rewrite disk_set_self, disk_answered; exact Hd0).
  rewrite disk_emit, self_set_self.
  set (m := refreshed (self w) result (Some (Naive (now + delta)))).
  assert (Hin : forall key : string,
            In key credential_fields ->
            contains_key key (updated_config m d0) = true).
  { intros key Hkey. unfold contains_key. simpl in Hkey.
    destruct Hkey as [<- | [<- | [<- | [<- | []]]]].
    - now rewrite updated_config_refresh_token.
    - rewrite updated_config_client_id. subst m. simpl. now rewrite Hcid.
    - now rewrite updated_config_access_token.
    - now rewrite updated_config_token_expiry. }
  split; [reflexivity|]. split; [exact Hin|]. split.
  - intros key Hkey. now apply updated_config_other.
  - intros key. split.
    + intros Hk.
      destruct (in_dec string_dec key credential_fields) as [Hkey | Hkey];
        [now left|right].
      unfold contains_key in *. now rewrite updated_config_other in Hk.
    + intros [Hkey | Hk]; [now apply Hin|].
      destruct (in_dec string_dec key credential_fields) as [Hkey | Hkey];
        [now apply Hin|].
      unfold contains_key in *. now rewrite updated_config_other.
Qed.

(** The same refresh carries the field [note] of [sample_config] over. *)
Lemma refresh_merges_into_config_witness :
  let w := @__init__ reference_datetime "config.json" (Parsed sample_config) in
  let w' := snd (@refresh_access_token reference_datetime w sample_now sample_answer) in
  exists d0 : dict,
    disk w = Parsed (JDict d0) /\
    disk w' = Parsed (JDict (@updated_config reference_datetime (self w') d0)) /\
    dict_get "note" (@updated_config reference_datetime (self w') d0)
    = dict_get "note" d0.
Proof.
  intros w w'.
  destruct (@refresh_merges_into_config reference_datetime w w' sample_now
              sample_answer (@reach_init reference_datetime _ _) eq_refl)
    as (d0 & Hd0 & Hd & _ & Hother & _).
  exists d0. repeat split; try assumption.
  apply Hother. unfold credential_fields. simpl.
  intros [E | [E | [E | [E | []]]]]; discriminate E.
Defined.

(** C9, as the specification has it, fails: the file is merged into, not
    replaced.  A file that holds a field [note] beside the credentials
    still holds it, with its value, after a successful refresh. *)
Lemma refresh_keeps_other_fields :
  exists (w' : world) (d : dict),
    @refresh_access_token reference_datetime
      (@__init__ reference_datetime "config.json" (Parsed sample_config))
      sample_now sample_answer = (Returns true, w') /\
    disk w' = Parsed (JDict d) /\
    dict_get "note" d = Some (JStr "keep") /\
    keys d = ["refresh_token"; "client_id"; "note"; "access_token"; "token_expiry"] /\
    ~ holds_only_credential_fields d.
Proof.
  eexists. eexists. split; [reflexivity|].
  split; [reflexivity|]. split; [reflexivity|]. split; [reflexivity|].
  intros Hall. specialize (Hall "note" eq_refl).
  unfold credential_fields in Hall. simpl in Hall.
  destruct Hall as [E | [E | [E | [E | []]]]]; discriminate E.
Qed.

(** ** The log of a refresh *)

Lemma log_answered (w : world) (result : dict) :
  log (answered w result) = (log w ++ refresh_record :: rotation_records result)%list.
Proof.
  unfold answered, rotation_records.
  destruct (truthy (get "refresh_token" result JNull)); simpl.
  - now rewrite <- app_assoc.
  - reflexivity.
Qed.

Lemma log_save_config `{DatetimeLib} (w : world) :
  exists (l : level) (msg : string),
    l <> INFO /\ log (_save_config w) = (log w ++ [(l, msg)])%list.
Proof.
  unfold _save_config.
  destruct (disk w) as [| err | []]; simpl; eexists; eexists;
    (split; [|reflexivity]); discriminate.
Qed.

Lemma log_request_exception_records (e : RequestException) (w : world) :
  exists rest : list (level * string),
    log (log_request_exception e w) = (log w ++ rest)%list /\
    filter is_refresh_record rest = [].
Proof.
  unfold log_request_exception. destruct (response e) as [resp|]; simpl.
  - eexists. rewrite <- !app_assoc. split; reflexivity.
  - eexists. split; reflexivity.
Qed.

(** Every call of [refresh_access_token] adds its opening record to the log,
    once. *)
Lemma refresh_log `{DatetimeLib} (w : world) (now : datetime) (r : reply) :
  exists rest : list (level * string),
    log (snd (refresh_access_token w now r)) = (log w ++ refresh_record :: rest)%list /\
    filter is_refresh_record rest = [].
Proof.
  destruct (credentials_cases (self w)) as [Hrt | [[Hrt Hcid] | Hc]].
  - rewrite (refresh_no_refresh_token w now r Hrt). simpl.
    eexists. rewrite <- app_assoc. split; reflexivity.
  - rewrite (refresh_no_client_id w now r Hrt Hcid). simpl.
    eexists. rewrite <- app_assoc. split; reflexivity.
  - destruct r as [x | result].
    + rewrite (refresh_request_fails w now x Hc). unfold snd.
      destruct (log_request_exception_records x (requested w)) as (rest & -> & Hrest).
      exists rest. simpl. rewrite <- app_assoc. auto.
    + destruct result;
        try (rewrite refresh_body_not_dict by easy; exists []; split; reflexivity).
      rewrite refresh_body_dict by easy.
      assert (Hrot : filter is_refresh_record (rotation_records fields) = []).
      { unfold rotation_records. now destruct (truthy _). }
      destruct (expiry_after _ _) as [expiry | e]; unfold snd.
      * destruct (log_save_config
                    (set_self (refreshed (self w) fields (Some (Naive expiry)))
                       (answered w fields))) as (l & msg & Hl & Hlog).
        unfold emit at 1. simpl log. rewrite Hlog. simpl log.
        rewrite log_answered.
        eexists. rewrite <- !app_assoc. simpl. split; [reflexivity|].
        rewrite !filter_app, Hrot. simpl.
        destruct l; try reflexivity. contradiction.
      * rewrite log_answered. eauto.
Qed.

Lemma refresh_calls_emit_error (msg : string) (w : world) :
  refresh_calls (emit ERROR msg w) = refresh_calls w.
Proof.
  unfold refresh_calls. simpl. rewrite filter_app. simpl.
  now rewrite app_nil_r.
Qed.

Lemma refresh_calls_refresh `{DatetimeLib} (w : world) (now : datetime)
    (r : reply) :
  refresh_calls (snd (refresh_access_token w now r)) = S (refresh_calls w).
Proof.
  unfold refresh_calls.
  destruct (refresh_log w now r) as (rest & -> & Hrest).
  rewrite filter_app. simpl. rewrite Hrest, length_app. simpl. lia.
Qed.

Lemma posted_refresh `{DatetimeLib} (w : world) (now : datetime) (r : reply) :
  posted (snd (refresh_access_token w now r)) =
  if credentials_present (self w)
  then (posted w ++ [refresh_request (self w)])%list else posted w.
Proof.
  destruct (credentials_cases (self w)) as [Hrt | [[Hrt Hcid] | Hc]].
  - rewrite (refresh_no_refresh_token w now r Hrt).
    unfold credentials_present. now rewrite Hrt.
  - rewrite (refresh_no_client_id w now r Hrt Hcid).
    unfold credentials_present. now rewrite Hrt, Hcid.
  - rewrite Hc. destruct r as [e | result].
    + rewrite (refresh_request_fails w now e Hc). unfold snd.
      now rewrite posted_log_request_exception.
    + destruct result; try (now rewrite refresh_body_not_dict by easy).
      rewrite refresh_body_dict by easy.
      destruct (expiry_after _ _); unfold snd.
      * now rewrite posted_emit, posted_save_config, posted_set_self,
          posted_answered.
      * now rewrite posted_answered.
Qed.




(** ** [get_valid_token] *)

(** C5. [get_valid_token] hands out the stored access token, and does
    nothing else, when [is_token_expired] answers [False].  When the token
    is expired it calls [refresh_access_token] once (the log shows one more
    call, and at most one request has gone out); the manager and the file
    are then as that call leaves them; and when that call fails (returns
    [False]: credentials missing, or a [RequestException] from the token
    endpoint) [get_valid_token] returns [None], it does not raise.  (When
    [is_token_expired] itself raises, so does [get_valid_token], and
    nothing has changed.) *)
Theorem get_valid_token_spec `{DatetimeLib}
    (w : world) (now now' : datetime) (r : reply) :
  (is_token_expired (self w) now = Returns false ->
   get_valid_token w now now' r = (Returns (access_token (self w)), w)) /\
  (forall e : exn,
     is_token_expired (self w) now = Raises e ->
     get_valid_token w now now' r = (Raises e, w)) /\
  (is_token_expired (self w) now = Returns true ->
   refresh_calls (snd (get_valid_token w now now' r)) = S (refresh_calls w) /\
   (List.length (posted (snd (get_valid_token w now now' r)))
    <= S (List.length (posted w)))%nat /\
   self (snd (get_valid_token w now now' r))
   = self (snd (refresh_access_token w now' r)) /\
   disk (snd (get_valid_token w now now' r))
   = disk (snd (refresh_access_token w now' r)) /\
   (fst (refresh_access_token w now' r) = Returns true ->
    fst (get_valid_token w now now' r)
    = Returns (access_token (self (snd (refresh_access_token w now' r))))) /\
   (fst (refresh_access_token w now' r) = Returns false ->
    fst (get_valid_token w now now' r) = Returns JNull) /\
   (truthy (refresh_token (self w)) = false \/
    truthy (client_id (self w)) = false \/
    (exists e, r = Fails e) ->
    fst (get_valid_token w now now' r) = Returns JNull)).
Proof.
  split; [|split].
  - intros Hexp. unfold get_valid_token. now rewrite Hexp.
  - intros e Hexp. unfold get_valid_token. now rewrite Hexp.
  - intros Hexp.
    assert (Hfalse : fst (refresh_access_token w now' r) = Returns false ->
                     fst (get_valid_token w now now' r) = Returns JNull).
    { unfold get_valid_token. rewrite Hexp.
      destruct (refresh_access_token w now' r) as [[[|]|e] w1]; simpl;
        intros E; (reflexivity || discriminate E). }
    pose proof (refresh_calls_refresh w now' r) as Hcalls.
    pose proof (posted_refresh w now' r) as Hposted.
    rewrite get_valid_token_world, Hexp.
    repeat split.
    + destruct (fst (refresh_access_token w now' r)) as [[|]|e];
        rewrite ?refresh_calls_emit_error; exact Hcalls.
    + assert (Hlen : (List.length (posted (snd (refresh_access_token w now' r)))
                      <= S (List.length (posted w)))%nat).
      { rewrite Hposted. destruct (credentials_present (self w)).
        - rewrite length_app. simpl. lia.
        - lia. }
      destruct (fst (refresh_access_token w now' r)) as [[|]|e]; exact Hlen.
    + now destruct (fst (refresh_access_token w now' r)) as [[|]|e].
    + now destruct (fst (refresh_access_token w now' r)) as [[|]|e].
    + unfold get_valid_token. rewrite Hexp.
      destruct (refresh_access_token w now' r) as [[[|]|e] w1]; simpl;
        intros E; (reflexivity || discriminate E).
    + exact Hfalse.
    + intros Hcause. apply Hfalse.
      destruct (credentials_cases (self w)) as [Hrt | [[Hrt Hcid] | Hc]].
      * now rewrite (refresh_no_refresh_token w now' r Hrt).
      * now rewrite (refresh_no_client_id w now' r Hrt Hcid).
      * apply andb_prop in Hc as Hboth. destruct Hboth as [Hrt Hcid].
        destruct Hcause as [Hf | [Hf | [e ->]]]; try congruence.
        now rewrite (refresh_request_fails w now' e Hc).
Qed.

(** ** Document converter *)

Lemma append_empty (s : string) : s ++ "" = s.
Proof. induction s as [|c s IH]; simpl; [reflexivity|now rewrite IH]. Qed.

Lemma append_assoc (s t u : string) : (s ++ t) ++ u = s ++ (t ++ u).
Proof. induction s as [|c s IH]; simpl; [reflexivity|now rewrite IH]. Qed.

(** C8. A [heading] node of level 2 over the text [Title] renders as
    [## Title] and a blank line; a [bulletList] of two [listItem]s over the
    texts [A] and [B] renders as [- A], [- B] and a blank line.  The same
    holds for any texts: a heading of level 2 puts [## ] before its text,
    and a list item puts [- ] before its text, stripped. *)
Theorem render_heading_and_bullet_list :
  process_node (heading_node 2 [text_node "Title"])
  = Returns (JStr ("## Title" ++ nl ++ nl)) /\
  process_node (bullet_list_node [list_item_node [text_node "A"];
                                  list_item_node [text_node "B"]])
  = Returns (JStr ("- A" ++ nl ++ "- B" ++ nl ++ nl)) /\
  convert_prosemirror_to_markdown (heading_node 2 [text_node "Title"])
  = Returns (JStr ("## Title" ++ nl ++ nl)) /\
  convert_prosemirror_to_markdown
    (bullet_list_node [list_item_node [paragraph_node [text_node "A"]];
                       list_item_node [paragraph_node [text_node "B"]]])
  = Returns (JStr ("- A" ++ nl ++ "- B" ++ nl ++ nl)) /\
  (forall title : string,
     process_node (heading_node 2 [text_node title])
     = Returns (JStr ("## " ++ title ++ nl ++ nl))) /\
  (forall a b : string,
     process_node (bullet_list_node [list_item_node [text_node a];
                                     list_item_node [text_node b]])
     = Returns (JStr ("- " ++ strip a ++ nl ++ "- " ++ strip b ++ nl ++ nl))).
Proof.
  repeat split; try reflexivity.
  - intros title. cbn. rewrite append_empty. reflexivity.
  - intros a b. cbn. rewrite !append_empty, append_assoc. reflexivity.
Qed.

(** ** Transcript converter *)

(** [strftime_HMS] prints the time of day of a reading of the clock. *)
Lemma strftime_HMS_clock (day hh mm ss us : Z) :
  0 <= hh < 24 -> 0 <= mm < 60 -> 0 <= ss < 60 -> 0 <= us < 1000000 ->
  strftime_HMS ((((day * 24 + hh) * 60 + mm) * 60 + ss) * 1000000 + us)
  = two_digits hh ++ ":" ++ two_digits mm ++ ":" ++ two_digits ss.
Proof.
  intros Hh Hm Hs Hu. unfold strftime_HMS.
  set (x := (((day * 24 + hh) * 60 + mm) * 60 + ss) * 1000000 + us).
  assert (E1 : (x / 3600000000) mod 24 = hh).
  { assert (x / 3600000000 = day * 24 + hh) as ->.
    { symmetry. apply (Z.div_unique _ _ _ ((mm * 60 + ss) * 1000000 + us)); lia. }
    symmetry. apply (Z.mod_unique _ _ day); lia. }
  assert (E2 : (x / 60000000) mod 60 = mm).
  { assert (x / 60000000 = (day * 24 + hh) * 60 + mm) as ->.
    { symmetry. apply (Z.div_unique _ _ _ (ss * 1000000 + us)); lia. }
    symmetry. apply (Z.mod_unique _ _ (day * 24 + hh)); lia. }
  assert (E3 : (x / 1000000) mod 60 = ss).
  { assert (x / 1000000 = ((day * 24 + hh) * 60 + mm) * 60 + ss) as ->.
    { symmetry. apply (Z.div_unique _ _ _ us); lia. }
    symmetry. apply (Z.mod_unique _ _ ((day * 24 + hh) * 60 + mm)); lia. }
  now rewrite E1, E2, E3.
Qed.

Lemma eq_str_true (v : json) (s : string) : eq_str v s = true <-> v = JStr s.
Proof.
  destruct v; simpl; try (split; [discriminate|intros [=]]).
  rewrite String.eqb_eq. split; [now intros ->|now intros [= ->]].
Qed.

Lemma utterance_block_of `{DatetimeLib} (u : dict) :
  exists block : string,
    utterance_block (JDict u) = Returns block /\ block_of u block.
Proof.
  eexists. split; [reflexivity|].
  exists (speaker (get "source" u (JStr "unknown"))),
         (timestamp_str (get "start_timestamp" u (JStr ""))).
  split; [reflexivity|]. unfold speaker, timestamp_str.
  repeat split.
  - intros ->. reflexivity.
  - intros Hne. destruct (eq_str _ "microphone") eqn:E; [|reflexivity].
    apply eq_str_true in E. contradiction.
  - intros s dt -> Hs ->. simpl.
    destruct (s =? "")%string eqn:E; [|reflexivity].
    apply String.eqb_eq in E. contradiction.
  - intros s msg -> ->. now destruct (truthy (JStr s)).
  - intros Hno. now rewrite (contains_key_get _ _ _ Hno).
  - intros ->. reflexivity.
  - intros Hs. destruct (get "start_timestamp" u (JStr ""));
      try discriminate; now destruct (truthy _).
Qed.

Lemma collect_blocks `{DatetimeLib} (us : list dict) :
  exists blocks : list string,
    collect (map utterance_block (map JDict us)) = Returns blocks /\
    Forall2 block_of us blocks.
Proof.
  induction us as [|u us (blocks & Hblocks & Hall)].
  - exists []. split; [reflexivity|constructor].
  - destruct (utterance_block_of u) as (block & Hblock & Hof).
    exists (block :: blocks). split.
    + cbn [map collect]. rewrite Hblock. cbn [bind].
      rewrite Hblocks. reflexivity.
    + now constructor.
Qed.

(** C7. [convert_transcript_to_markdown] returns the fixed placeholder for
    an input that is empty or not a list.  For a list of utterances
    (objects) that is not empty it returns the title line followed by one
    block for each utterance, in the order of the input; the block of an
    utterance is [**label** stamp], a blank line, the text and a blank
    line, where the label is [Microphone] exactly when the source is
    ["microphone"] and [System] for every other source, and the stamp is
    the time of day of the parsed [start_timestamp] between brackets and
    empty when the timestamp is absent, empty, not a text or not parseable.
    With a library that reads [2024-01-01T10:00:00+00:00] as ten o'clock
    of that day, the transcript of the one utterance (microphone, [hi],
    [2024-01-01T10:00:00Z]) contains [**Microphone** [10:00:00]] and
    [hi]. *)
Theorem convert_transcript_to_markdown_spec `{DatetimeLib} :
  (forall data : json,
     truthy data = false \/ is_list data = false ->
     convert_transcript_to_markdown data = Returns placeholder) /\
  convert_transcript_to_markdown (JList []) = Returns placeholder /\
  (forall us : list dict,
     us <> [] ->
     exists blocks : list string,
       convert_transcript_to_markdown (JList (map JDict us))
       = Returns (String.concat "" (header :: blocks)) /\
       Forall2 block_of us blocks) /\
  (forall day hh mm ss us : Z,
     0 <= hh < 24 -> 0 <= mm < 60 -> 0 <= ss < 60 -> 0 <= us < 1000000 ->
     strftime_HMS ((((day * 24 + hh) * 60 + mm) * 60 + ss) * 1000000 + us)
     = two_digits hh ++ ":" ++ two_digits mm ++ ":" ++ two_digits ss) /\
  (fromisoformat "2024-01-01T10:00:00+00:00"
   = Datetime (Reference.datetime_of 2024 1 1 10 0 0 0) ->
   convert_transcript_to_markdown (JList [sample_utterance])
   = Returns (header ++ "**Microphone** [10:00:00]" ++ nl ++ nl ++ "hi" ++ nl ++ nl) /\
   exists out : string,
     convert_transcript_to_markdown (JList [sample_utterance]) = Returns out /\
     substring_b "**Microphone** [10:00:00]" out = true /\
     substring_b "hi" out = true).
Proof.
  split; [|split; [|split; [|split]]].
  - intros data Hdata. unfold convert_transcript_to_markdown.
    destruct Hdata as [-> | Hl]; [reflexivity|].
    rewrite Hl, orb_true_r. reflexivity.
  - reflexivity.
  - intros us Hus. destruct (collect_blocks us) as (blocks & Hblocks & Hall).
    exists blocks. split; [|exact Hall].
    unfold convert_transcript_to_markdown.
    destruct us as [|u us]; [contradiction|].
    simpl truthy. simpl is_list. simpl orb. cbv iota.
    rewrite Hblocks. reflexivity.
  - exact strftime_HMS_clock.
  - intros Hparse.
    assert (Hout : convert_transcript_to_markdown (JList [sample_utterance])
                   = Returns (header ++ "**Microphone** [10:00:00]" ++ nl ++ nl
                              ++ "hi" ++ nl ++ nl)).
    { unfold convert_transcript_to_markdown, sample_utterance, utterance_block,
        timestamp_str.
      simpl. rewrite Hparse. reflexivity. }
    split; [exact Hout|]. eexists. split; [exact Hout|].
    split; reflexivity.
Qed.

(** The example of the specification, with the reference library. *)
Lemma convert_transcript_to_markdown_example :
  exists out : string,
    @convert_transcript_to_markdown reference_datetime (JList [sample_utterance])
    = Returns out /\
    substring_b "**Microphone** [10:00:00]" out = true /\
    substring_b "hi" out = true.
Proof.
  exact (proj2 (proj2 (proj2 (proj2 (proj2
           (@convert_transcript_to_markdown_spec reference_datetime)))) eq_refl)).
Defined.

(** ** The inputs the converters accept *)

Lemma size_item (c : json) (l : list json) :
  In c l -> (size c < size (JList l))%nat.
Proof.
  intros Hin. simpl. induction l as [|x l IH]; [contradiction|].
  simpl. destruct Hin as [-> | Hin]; [lia|].
  specialize (IH Hin). lia.
Qed.

Lemma size_field (key : string) (v : json) (d : dict) :
  dict_get key d = Some v -> (size v < size (JDict d))%nat.
Proof.
  intros Hget. simpl. induction d as [|[k x] d IH]; [discriminate|].
  simpl in Hget |- *. destruct (k =? key)%string.
  - injection Hget as ->. lia.
  - specialize (IH Hget). lia.
Qed.

Lemma json_size_ind (P : json -> Prop) :
  (forall j : json, (forall j' : json, (size j' < size j)%nat -> P j') -> P j) ->
  forall j : json, P j.
Proof.
  intros Hstep.
  assert (Hall : forall (n : nat) (j : json), (size j < n)%nat -> P j).
  { induction n as [|n IH]; intros j Hj; [lia|].
    apply Hstep. intros j' Hj'. apply IH. lia. }
  intros j. apply (Hall (S (size j))). lia.
Qed.

Lemma with_field_get {R : Type} (key : string) (k : json -> R) (absent : R)
    (d : dict) :
  with_field key k absent d =
  match dict_get key d with
  | Some v => k v
  | None => absent
  end.
Proof.
  induction d as [|[k' v] d IH]; simpl; [reflexivity|].
  now destruct (k' =? key)%string.
Qed.

Lemma join_children_returned (f : json -> outcome json) (wf : json -> bool)
    (content : json) :
  (forall c : json, (size c < size content)%nat -> returns_str (f c) = wf c) ->
  returned (join_children f content) = all_children wf content.
Proof.
  destruct content; simpl join_children; simpl all_children; try reflexivity.
  intros Hf.
  assert (Hin : forall c : json, In c items -> returns_str (f c) = wf c).
  { intros c Hc. apply Hf. now apply size_item. }
  clear Hf. induction items as [|c l IH]; [reflexivity|].
  cbn [map collect forallb].
  rewrite <- (Hin c) by now left.
  assert (IH' := IH (fun x Hx => Hin x (or_intror Hx))). clear IH.
  destruct (f c) as [a | e]; [|reflexivity].
  cbn [bind] in *.
  destruct (collect (map f l)) as [vs | e]; cbn [bind] in *.
  - destruct a; try reflexivity.
    simpl. rewrite <- IH'. now destruct (concat_strs vs).
  - rewrite <- IH'. now destruct a.
Qed.

Lemma bullet_list_returned (f : json -> outcome json) (wf : json -> bool)
    (content : json) :
  (forall c : json, (size c < size content)%nat -> returns_str (f c) = wf c) ->
  returned (bullet_list f content) = items_ok wf content.
Proof.
  destruct content; simpl bullet_list; simpl items_ok; try reflexivity.
  - now destruct (s =? "")%string.
  - intros Hf.
    assert (Hin : forall item : json, In item items ->
              forall c : json, (size c < size item)%nat -> returns_str (f c) = wf c).
    { intros item Hitem c Hc. apply Hf.
      pose proof (size_item item items Hitem). lia. }
    clear Hf. induction items as [|item l IH]; [reflexivity|].
    assert (IH' := IH (fun x Hx => Hin x (or_intror Hx))). clear IH.
    assert (Hitem := Hin item (or_introl eq_refl)). clear Hin.
    cbn [bullet_items forallb]. fold (bullet_items f l).
    destruct item; try reflexivity.
    cbn [item_ok].
    destruct (eq_str (get "type" fields JNull) "listItem"); [|exact IH'].
    rewrite !with_field_get.
    destruct (dict_get "content" fields) as [v|] eqn:Hv.
    + rewrite <- (join_children_returned f wf v).
      * destruct (join_children f v); [|reflexivity].
        cbn [bind returned andb]. rewrite <- IH'.
        now destruct (bullet_items f l).
      * intros c Hc. apply Hitem.
        pose proof (size_field _ _ _ Hv). lia.
    + cbn [bind andb]. rewrite <- IH'. now destruct (bullet_items f l).
  - now destruct fields.
Qed.

Lemma bind_returns_str {A : Type} (m : outcome A) (k : A -> string) :
  returns_str (x <- m ;; Returns (JStr (k x))) = returned m.
Proof. now destruct m. Qed.

Lemma content_returned (d : dict) :
  (forall j' : json, (size j' < size (JDict d))%nat ->
     returns_str (process_node j') = well_formed j') ->
  returned (with_field "content" (join_children process_node) (Returns "") d)
  = with_field "content" (all_children well_formed) true d.
Proof.
  intros IH. rewrite !with_field_get.
  destruct (dict_get "content" d) as [v|] eqn:Hv; [|reflexivity].
  apply join_children_returned. intros c Hc. apply IH.
  pose proof (size_field _ _ _ Hv). lia.
Qed.

Lemma items_returned (d : dict) :
  (forall j' : json, (size j' < size (JDict d))%nat ->
     returns_str (process_node j') = well_formed j') ->
  returned (with_field "content" (bullet_list process_node) (Returns []) d)
  = with_field "content" (items_ok well_formed) true d.
Proof.
  intros IH. rewrite !with_field_get.
  destruct (dict_get "content" d) as [v|] eqn:Hv; [|reflexivity].
  apply bullet_list_returned. intros c Hc. apply IH.
  pose proof (size_field _ _ _ Hv). lia.
Qed.

(** [process_node] returns a string on the well-formed nodes, and on no
    other. *)
Lemma process_node_returns_str (node : json) :
  returns_str (process_node node) = well_formed node.
Proof.
  induction node as [node IH] using json_size_ind.
  destruct node as [| b | n | s | l | d]; try reflexivity.
  cbn [process_node well_formed].
  pose proof (content_returned d IH) as Hcontent.
  pose proof (items_returned d IH) as Hitems.
  destruct (eq_str (get "type" d (JStr "")) "heading").
  { unfold level_ok. rewrite <- Hcontent.
    destruct (heading_level d) as [lv | e]; [|reflexivity]. cbn [bind].
    destruct (with_field "content" (join_children process_node) (Returns "") d);
      destruct lv as [| b | n | s | l | d']; try reflexivity;
      cbn [bind hashes returned]; destruct (index_sized n); reflexivity. }
  destruct (eq_str (get "type" d (JStr "")) "paragraph").
  { rewrite <- Hcontent. apply bind_returns_str. }
  destruct (eq_str (get "type" d (JStr "")) "bulletList").
  { rewrite <- Hitems.
    apply (bind_returns_str _ (fun items => join nl items ++ nl ++ nl)). }
  destruct (eq_str (get "type" d (JStr "")) "text").
  { now destruct (get "text" d (JStr "")). }
  rewrite <- Hcontent. apply (bind_returns_str _ (fun s => s)).
Qed.


Lemma transcript_returned `{DatetimeLib} (l : list json) :
  returned (collect (map utterance_block l)) = forallb is_dict l.
Proof.
  induction l as [|u l IH]; [reflexivity|].
  cbn [map collect forallb].
  destruct u; try reflexivity.
  cbn [utterance_block bind is_dict andb]. rewrite <- IH.
  now destruct (collect (map utterance_block l)).
Qed.





(** ** Answers that make [refresh_access_token] raise *)

(** An answer that is JSON but not an object, or whose [expires_in] is not
    a number, is not handled by [except RequestException]: the call
    raises, in the second case after [access_token] has been assigned. *)
Lemma refresh_raises_on_malformed_answer `{DatetimeLib}
    (w : world) (now : datetime) :
  credentials_present (self w) = true ->
  fst (refresh_access_token w now (Body (JList []))) = Raises AttributeError /\
  fst (refresh_access_token w now
         (Body (JDict [("access_token", JStr "a1"); ("expires_in", JStr "soon")])))
  = Raises TypeError /\
  access_token
    (self (snd (refresh_access_token w now
                  (Body (JDict [("access_token", JStr "a1");
                                ("expires_in", JStr "soon")])))))
  = JStr "a1".
Proof.
  intros Hc. rewrite refresh_body_not_dict by easy.
  rewrite refresh_body_dict by exact Hc.
  assert (E : expiry_after now
                (get "expires_in"
                   [("access_token", JStr "a1"); ("expires_in", JStr "soon")]
                   (JInt 3600)) = Raises TypeError) by reflexivity.
  rewrite E. unfold fst, snd. rewrite self_answered. auto.
Qed.

(** On a rejected request [get_valid_token] returns [None]. *)
Example get_valid_token_unauthorized :
  fst (@get_valid_token reference_datetime
         (@__init__ reference_datetime "config.json" (Parsed sample_config))
         sample_now sample_now unauthorized)
  = Returns JNull.
Proof. reflexivity. Qed.

(** * Further properties of the token manager *)

(** ** The configuration file under the methods *)

Lemma dict_get_set (key key' : string) (v : json) (d : dict) :
  dict_get key' (dict_set key v d) =
  if (key =? key')%string then Some v else dict_get key' d.
Proof.
  destruct (key =? key')%string eqn:E.
  - apply String.eqb_eq in E. subst key'. apply dict_get_set_same.
  - apply String.eqb_neq in E. now apply dict_get_set_other.
Qed.

Lemma contains_key_set (key key' : string) (v : json) (d : dict) :
  contains_key key' d = true -> contains_key key' (dict_set key v d) = true.
Proof.
  unfold contains_key. rewrite dict_get_set.
  now destruct (key =? key')%string.
Qed.

Lemma contains_key_updated_config `{DatetimeLib} (m : TokenManager) (d : dict)
    (key : string) :
  contains_key key d = true -> contains_key key (updated_config m d) = true.
Proof.
  intros Hk. unfold updated_config.
  destruct (truthy (client_id m)); repeat apply contains_key_set; exact Hk.
Qed.

Lemma disk_save_config `{DatetimeLib} (w : world) :
  disk (_save_config w) =
  match disk w with
  | NoFile => Parsed (JDict (updated_config (self w) []))
  | Parsed (JDict d) => Parsed (JDict (updated_config (self w) d))
  | f => f
  end.
Proof.
  unfold _save_config.
  destruct (disk w) as [| err | []] eqn:Hd; simpl; rewrite ?Hd; reflexivity.
Qed.

Lemma disk_load_config `{DatetimeLib} (w : world) :
  disk (snd (_load_config w)) = disk w.
Proof.
  unfold _load_config.
  destruct (disk w) as [| err | j] eqn:Hd; simpl; try exact Hd.
  destruct j; simpl; try exact Hd.
  destruct (truthy (get "token_expiry" fields JNull)); [|exact Hd].
  destruct (get "token_expiry" fields JNull); try exact Hd.
  destruct (fromisoformat s); exact Hd.
Qed.

Lemma posted_load_config `{DatetimeLib} (w : world) :
  posted (snd (_load_config w)) = posted w.
Proof.
  unfold _load_config.
  destruct (disk w) as [| err | j]; simpl; try reflexivity.
  destruct j; simpl; try reflexivity.
  destruct (truthy (get "token_expiry" fields JNull)); [|reflexivity].
  destruct (get "token_expiry" fields JNull); try reflexivity.
  now destruct (fromisoformat s).
Qed.

Lemma keeps_file_refl (f : file) : keeps_file f f.
Proof.
  destruct f as [| err | j]; simpl; auto.
  destruct j; simpl; auto. exists fields. auto.
Qed.

Lemma keeps_file_save `{DatetimeLib} (m : TokenManager) (w : world) :
  keeps_file (disk w) (disk (_save_config (set_self m w))).
Proof.
  rewrite disk_save_config, disk_set_self, self_set_self.
  destruct (disk w) as [| err | j]; simpl; eauto.
  destruct j; simpl; auto.
  exists (updated_config m fields). split; [reflexivity|]. split.
  - intros key. apply contains_key_updated_config.
  - intros key. apply updated_config_other.
Qed.

(** What [refresh_access_token] leaves on the disk: what was there, or what
    [_save_config] writes for the refreshed manager. *)
Lemma disk_refresh `{DatetimeLib} (w : world) (now : datetime) (r : reply) :
  disk (snd (refresh_access_token w now r)) = disk w \/
  exists m : TokenManager,
    disk (snd (refresh_access_token w now r)) = disk (_save_config (set_self m w)).
Proof.
  destruct (credentials_cases (self w)) as [Hrt | [[Hrt Hcid] | Hc]].
  - rewrite (refresh_no_refresh_token w now r Hrt). now left.
  - rewrite (refresh_no_client_id w now r Hrt Hcid). now left.
  - destruct r as [e | result].
    + rewrite (refresh_request_fails w now e Hc). left.
      unfold snd. now rewrite disk_log_request_exception.
    + destruct result; try (rewrite refresh_body_not_dict by easy; now left).
      rewrite refresh_body_dict by exact Hc.
      destruct (expiry_after _ _) as [expiry | e]; unfold snd.
      * right. exists (refreshed (self w) fields (Some (Naive expiry))).
        rewrite disk_emit, !disk_save_config, !disk_set_self, !self_set_self.
        now rewrite disk_answered.
      * left. apply disk_answered.
Qed.

Lemma disk_get_valid_token `{DatetimeLib} (w : world) (now now' : datetime)
    (r : reply) :
  disk (snd (get_valid_token w now now' r)) = disk w \/
  disk (snd (get_valid_token w now now' r))
  = disk (snd (refresh_access_token w now' r)).
Proof.
  rewrite get_valid_token_world.
  destruct (is_token_expired (self w) now) as [[|]|e]; try now left.
  right. now destruct (fst (refresh_access_token w now' r)) as [[|]|e].
Qed.

(** X1. No method of the manager removes a field from the configuration
    file or changes a field that is not a credential field, and none
    touches a file that does not hold a JSON object. *)
Theorem configuration_file_is_kept `{DatetimeLib} (w : world) :
  keeps_file (disk w) (disk (_save_config w)) /\
  disk (snd (_load_config w)) = disk w /\
  (forall (now : datetime) (r : reply),
     keeps_file (disk w) (disk (snd (refresh_access_token w now r)))) /\
  (forall (now now' : datetime) (r : reply),
     keeps_file (disk w) (disk (snd (get_valid_token w now now' r)))).
Proof.
  assert (Hrefresh : forall (now : datetime) (r : reply),
            keeps_file (disk w) (disk (snd (refresh_access_token w now r)))).
  { intros now r. destruct (disk_refresh w now r) as [-> | [m ->]].
    - apply keeps_file_refl.
    - apply keeps_file_save. }
  split; [|split; [|split]].
  - replace w with (set_self (self w) w) at 2 by now destruct w.
    apply keeps_file_save.
  - apply disk_load_config.
  - exact Hrefresh.
  - intros now now' r. destruct (disk_get_valid_token w now now' r) as [-> | ->].
    + apply keeps_file_refl.
    + apply Hrefresh.
Qed.

(** ** The requests that go out *)

Lemma posted_get_valid_token `{DatetimeLib} (w : world) (now now' : datetime)
    (r : reply) :
  posted (snd (get_valid_token w now now' r)) = posted w \/
  posted (snd (get_valid_token w now now' r))
  = posted (snd (refresh_access_token w now' r)).
Proof.
  rewrite get_valid_token_world.
  destruct (is_token_expired (self w) now) as [[|]|e]; try now left.
  right. now destruct (fst (refresh_access_token w now' r)) as [[|]|e].
Qed.

Lemma token_requests_refresh `{DatetimeLib} (w : world) (now : datetime)
    (r : reply) :
  Forall token_request (posted w) ->
  Forall token_request (posted (snd (refresh_access_token w now r))).
Proof.
  intros Hw. rewrite posted_refresh.
  destruct (credentials_present (self w)) eqn:Hc; [|exact Hw].
  apply andb_prop in Hc as [Hrt Hcid].
  apply Forall_app. split; [exact Hw|].
  constructor; [|constructor]. split; [reflexivity|].
  exists (client_id (self w)), (refresh_token (self w)). auto.
Qed.

(** X2. Every request a manager has sent went to the token endpoint, with
    the grant type [refresh_token] and with a client id and a refresh token
    that are not empty: the manager never asks with a missing credential. *)
Theorem requests_carry_credentials `{DatetimeLib} (w : world) :
  reachable w -> Forall token_request (posted w).
Proof.
  induction 1 as [path f | w Hw IH | w Hw IH | w now r Hw IH | w now now' r Hw IH].
  - unfold __init__. rewrite posted_load_config. constructor.
  - now rewrite posted_load_config.
  - now rewrite posted_save_config.
  - now apply token_requests_refresh.
  - destruct (posted_get_valid_token w now now' r) as [-> | ->].
    + exact IH.
    + now apply token_requests_refresh.
Qed.

Lemma requests_carry_credentials_witness :
  Forall token_request
    (posted (snd (@refresh_access_token reference_datetime
                    (@__init__ reference_datetime "config.json" (Parsed sample_config))
                    sample_now sample_answer))).
Proof.
  apply (@requests_carry_credentials reference_datetime).
  apply reach_refresh. apply reach_init.
Defined.

(** ** Construction *)

Lemma self_init `{DatetimeLib} (path : string) (f : file) :
  self (__init__ path f) =
  match f with
  | Parsed (JDict d) =>
      {| config_file := path;
         refresh_token := get "refresh_token" d JNull;
         client_id := get "client_id" d JNull;
         access_token := get "access_token" d JNull;
         token_expiry := loaded_expiry d |}
  | _ =>
      {| config_file := path; refresh_token := JNull; client_id := JNull;
         access_token := JNull; token_expiry := None |}
  end.
Proof.
  unfold __init__, _load_config, loaded_expiry.
  destruct f as [| err | j]; try reflexivity.
  destruct j; try reflexivity. simpl.
  destruct (get "token_expiry" fields JNull) as [| b | n | s | l | d];
    try reflexivity.
  - now destruct b.
  - now destruct n.
  - simpl. destruct (s =? "")%string; [reflexivity|].
    now destruct (fromisoformat s).
  - now destruct l.
  - now destruct d.
Qed.

Lemma disk_init `{DatetimeLib} (path : string) (f : file) :
  disk (__init__ path f) = f.
Proof. unfold __init__. now rewrite disk_load_config. Qed.

Lemma posted_init `{DatetimeLib} (path : string) (f : file) :
  posted (__init__ path f) = [].
Proof. unfold __init__. now rewrite posted_load_config. Qed.

Lemma get_valid_token_without_credentials `{DatetimeLib} (w : world)
    (now now' : datetime) (r : reply) :
  is_token_expired (self w) now = Returns true ->
  credentials_present (self w) = false ->
  fst (get_valid_token w now now' r) = Returns JNull /\
  posted (snd (get_valid_token w now now' r)) = posted w /\
  disk (snd (get_valid_token w now now' r)) = disk w.
Proof.
  intros Hexp Hc. unfold get_valid_token. rewrite Hexp.
  destruct (credentials_cases (self w)) as [Hrt | [[Hrt Hcid] | Hc']].
  - now rewrite (refresh_no_refresh_token w now' r Hrt).
  - now rewrite (refresh_no_client_id w now' r Hrt Hcid).
  - congruence.
Qed.

(** X3. A manager constructed over a missing file, over a file that is not
    JSON or over JSON that is not an object holds no credential: its
    [get_valid_token] returns [None], whatever the time, sends no request
    and leaves the path as it was.  Over an object without a refresh token
    or without a client id the same holds whenever [is_token_expired]
    returns [True] (the stored token is missing, or expired); and when
    [is_token_expired] raises (the stored expiry is aware, or too early to
    take five minutes from), [get_valid_token] raises the same, again
    without a request and with the path as it was. *)
Theorem get_valid_token_without_configuration `{DatetimeLib}
    (path : string) (f : file) (now now' : datetime) (r : reply) :
  ((forall d : dict, f <> Parsed (JDict d)) ->
   fst (get_valid_token (__init__ path f) now now' r) = Returns JNull /\
   posted (snd (get_valid_token (__init__ path f) now now' r)) = [] /\
   disk (snd (get_valid_token (__init__ path f) now now' r)) = f) /\
  (forall d : dict,
     f = Parsed (JDict d) ->
     truthy (get "refresh_token" d JNull) = false \/
     truthy (get "client_id" d JNull) = false ->
     is_token_expired (self (__init__ path f)) now = Returns true ->
     fst (get_valid_token (__init__ path f) now now' r) = Returns JNull /\
     posted (snd (get_valid_token (__init__ path f) now now' r)) = [] /\
     disk (snd (get_valid_token (__init__ path f) now now' r)) = f) /\
  (forall e : exn,
     is_token_expired (self (__init__ path f)) now = Raises e ->
     fst (get_valid_token (__init__ path f) now now' r) = Raises e /\
     posted (snd (get_valid_token (__init__ path f) now now' r)) = [] /\
     disk (snd (get_valid_token (__init__ path f) now now' r)) = f).
Proof.
  split; [|split].
  - intros Hf.
    assert (Hself : self (__init__ path f) =
                    {| config_file := path; refresh_token := JNull;
                       client_id := JNull; access_token := JNull;
                       token_expiry := None |}).
    { rewrite self_init. destruct f as [| err | j]; try reflexivity.
      destruct j; try reflexivity. now destruct (Hf fields). }
    destruct (get_valid_token_without_credentials (__init__ path f) now now' r)
      as (Hnone & Hposted & Hdisk); try now rewrite Hself.
    rewrite posted_init in Hposted. rewrite disk_init in Hdisk. auto.
  - intros d -> Hmiss Hexp.
    destruct (get_valid_token_without_credentials
                (__init__ path (Parsed (JDict d))) now now' r)
      as (Hnone & Hposted & Hdisk); [exact Hexp| |].
    + rewrite self_init. unfold credentials_present. simpl.
      destruct Hmiss as [-> | ->]; [reflexivity|apply andb_false_r].
    + rewrite posted_init in Hposted. rewrite disk_init in Hdisk. auto.
  - intros e Hexp. unfold get_valid_token. rewrite Hexp. cbn [fst snd].
    now rewrite posted_init, disk_init.
Qed.

(** ** Saving and constructing again *)

Lemma get_of_dict_get (key : string) (d : dict) (v default : json) :
  dict_get key d = Some v -> get key d default = v.
Proof. unfold get. now intros ->. Qed.

(** X4. What [_save_config] writes, a new manager reads back: constructed
    over the file a manager has just saved (at a path that held nothing or
    an object), a manager holds the same refresh token, access token and
    expiry, provided the library reads the text of the expiry back (to the
    same reading and the same offset, or none); it is the same manager
    altogether when the client id is not empty (an empty client id is not
    written). *)
Theorem save_then_construct `{DatetimeLib} (w : world) :
  disk w = NoFile \/ (exists d : dict, disk w = Parsed (JDict d)) ->
  (forall e : moment,
     token_expiry (self w) = Some e ->
     isoformat_of e <> "" /\
     exists dt : datetime,
       fromisoformat (isoformat_of e) = Datetime dt /\
       moment_of (isoformat_of e) dt = e) ->
  refresh_token (self (__init__ (config_file (self w)) (disk (_save_config w))))
  = refresh_token (self w) /\
  access_token (self (__init__ (config_file (self w)) (disk (_save_config w))))
  = access_token (self w) /\
  token_expiry (self (__init__ (config_file (self w)) (disk (_save_config w))))
  = token_expiry (self w) /\
  (truthy (client_id (self w)) = true ->
   self (__init__ (config_file (self w)) (disk (_save_config w))) = self w).
Proof.
  intros Hdisk Hlib.
  assert (Hsaved : exists d0 : dict,
            disk (_save_config w) = Parsed (JDict (updated_config (self w) d0))).
  { rewrite disk_save_config.
    destruct Hdisk as [-> | [d ->]]; eauto. }
  destruct Hsaved as [d0 ->]. rewrite self_init.
  set (m := self w) in *.
  assert (Hexp : loaded_expiry (updated_config m d0) = token_expiry m).
  { unfold loaded_expiry.
    rewrite (get_of_dict_get _ _ _ _ (updated_config_token_expiry m d0)).
    unfold expiry_text. destruct (token_expiry m) as [e|] eqn:He; [|reflexivity].
    destruct (Hlib e eq_refl) as (Hne & dt & Hback & Hmoment).
    destruct (isoformat_of e =? "")%string eqn:E.
    - apply String.eqb_eq in E. contradiction.
    - now rewrite Hback, Hmoment. }
  simpl.
  rewrite (get_of_dict_get _ _ _ _ (updated_config_refresh_token m d0)).
  rewrite (get_of_dict_get _ _ _ _ (updated_config_access_token m d0)).
  rewrite Hexp. repeat split.
  intros Hcid.
  assert (Hget : dict_get "client_id" (updated_config m d0) = Some (client_id m)).
  { rewrite updated_config_client_id. now rewrite Hcid. }
  rewrite (get_of_dict_get _ _ _ _ Hget). now destruct m.
Qed.

Lemma save_then_construct_witness :
  let w := snd (@refresh_access_token reference_datetime
                  (@__init__ reference_datetime "config.json" (Parsed sample_config))
                  sample_now sample_answer) in
  self (@__init__ reference_datetime "config.json"
          (disk (@_save_config reference_datetime w))) = self w.
Proof.
  intros w.
  refine (proj2 (proj2 (proj2
            (@save_then_construct reference_datetime w _ _))) eq_refl).
  - right. eexists. reflexivity.
  - intros e [= <-]. split; [discriminate|].
    exists (sample_now + seconds 7200). split; reflexivity.
Defined.

Lemma dict_set_same_value (key : string) (v : json) (d : dict) :
  dict_get key d = Some v -> dict_set key v d = d.
Proof.
  induction d as [|[k x] d IH]; simpl; [discriminate|].
  destruct (k =? key)%string.
  - now intros [= ->].
  - intros Hget. now rewrite IH.
Qed.

Lemma updated_config_twice `{DatetimeLib} (m : TokenManager) (d : dict) :
  updated_config m (updated_config m d) = updated_config m d.
Proof.
  set (D := updated_config m d).
  unfold updated_config at 1.
  rewrite (dict_set_same_value "refresh_token" _ D)
    by apply updated_config_refresh_token.
  assert (Hcid : (if truthy (client_id m)
                  then dict_set "client_id" (client_id m) D else D) = D).
  { destruct (truthy (client_id m)) eqn:Hc; [|reflexivity].
    apply dict_set_same_value. unfold D.
    rewrite updated_config_client_id. now rewrite Hc. }
  rewrite Hcid.
  rewrite (dict_set_same_value "access_token" _ D)
    by apply updated_config_access_token.
  apply dict_set_same_value. apply updated_config_token_expiry.
Qed.

(** X5. Saving twice is saving once: a second [_save_config] writes the
    file the first one wrote. *)
Theorem save_config_twice `{DatetimeLib} (w : world) :
  disk (_save_config (_save_config w)) = disk (_save_config w).
Proof.
  rewrite (disk_save_config (_save_config w)), self_save_config.
  rewrite disk_save_config.
  destruct (disk w) as [| err | j]; try reflexivity.
  - now rewrite updated_config_twice.
  - destruct j; try reflexivity. now rewrite updated_config_twice.
Qed.

(** ** After a refresh *)

Lemma self_refresh_success `{DatetimeLib} (w : world) (now : datetime)
    (result : dict) (expiry : datetime) :
  credentials_present (self w) = true ->
  expiry_after now (get "expires_in" result (JInt 3600)) = Returns expiry ->
  fst (refresh_access_token w now (Body (JDict result))) = Returns true /\
  self (snd (refresh_access_token w now (Body (JDict result))))
  = refreshed (self w) result (Some (Naive expiry)).
Proof.
  intros Hc Hexpiry. rewrite refresh_body_dict by exact Hc. rewrite Hexpiry.
  unfold fst, snd. now rewrite self_emit, self_save_config, self_set_self.
Qed.

Lemma refresh_raises `{DatetimeLib} (w : world) (now : datetime)
    (result : dict) (e : exn) :
  credentials_present (self w) = true ->
  expiry_after now (get "expires_in" result (JInt 3600)) = Raises e ->
  fst (refresh_access_token w now (Body (JDict result))) = Raises e /\
  self (snd (refresh_access_token w now (Body (JDict result))))
  = refreshed (self w) result (token_expiry (self w)) /\
  disk (snd (refresh_access_token w now (Body (JDict result)))) = disk w /\
  posted (snd (refresh_access_token w now (Body (JDict result))))
  = (posted w ++ [refresh_request (self w)])%list.
Proof.
  intros Hc Hexpiry. rewrite refresh_body_dict by exact Hc. rewrite Hexpiry.
  unfold fst, snd.
  now rewrite self_answered, disk_answered, posted_answered.
Qed.

(** Five minutes can be taken from a reading that lies five minutes into
    the year 1. *)
Lemma limit_in_range (e : datetime) :
  in_range e = true ->
  (in_range (e - minutes 5) = true <-> minutes 5 <= e).
Proof.
  unfold in_range, datetime_max, minutes. intros Hrange.
  apply andb_prop in Hrange as [Hlo Hhi].
  apply Z.leb_le in Hlo, Hhi. rewrite andb_true_iff, !Z.leb_le. lia.
Qed.

Lemma expired_after_refresh (m : TokenManager) (result : dict) (e now1 : datetime) :
  truthy (get "access_token" result JNull) = true ->
  is_token_expired (refreshed m result (Some (Naive e))) now1
  = if in_range (e - minutes 5)
    then Returns (now1 >=? e - minutes 5)
    else Raises OverflowError.
Proof.
  intros Htoken.
  unfold is_token_expired, refreshed, datetime_add, buffer.
  cbn [access_token token_expiry]. rewrite Htoken. cbn [negb].
  change (e + - minutes 5) with (e - minutes 5).
  now destruct (in_range (e - minutes 5)).
Qed.

(** X6. The token a refresh has fetched is handed out without another
    request for as long as the clock is more than five minutes short of its
    expiry: after a successful refresh at [now] with a lifetime [delta]
    (one that [timedelta] takes and that leads to a reading [now + delta]
    within the years of a [datetime]) and an access token that is not
    empty, [is_token_expired] returns [True] exactly from
    [now + delta - 5 minutes] on, and before that [get_valid_token] returns
    the fetched token and changes nothing.  A lifetime of five minutes or
    less leaves the token expired at once.  All this for an expiry from
    which five minutes can be taken; for one within the first five minutes
    of the year 1, [is_token_expired] raises [OverflowError]. *)
Theorem token_is_reused_until_buffer `{DatetimeLib}
    (w : world) (now : datetime) (result : dict) (delta : timedelta)
    (now1 now1' : datetime) (r1 : reply) :
  credentials_present (self w) = true ->
  timedelta_seconds (get "expires_in" result (JInt 3600)) = Returns delta ->
  in_range (now + delta) = true ->
  truthy (get "access_token" result JNull) = true ->
  fst (refresh_access_token w now (Body (JDict result))) = Returns true /\
  (minutes 5 <= now + delta ->
   (is_token_expired (self (snd (refresh_access_token w now (Body (JDict result))))) now1
    = Returns true <-> now + delta - minutes 5 <= now1) /\
   (now1 < now + delta - minutes 5 ->
    get_valid_token (snd (refresh_access_token w now (Body (JDict result))))
      now1 now1' r1
    = (Returns (get "access_token" result JNull),
       snd (refresh_access_token w now (Body (JDict result))))) /\
   (delta <= minutes 5 -> now <= now1 ->
    is_token_expired (self (snd (refresh_access_token w now (Body (JDict result))))) now1
    = Returns true)) /\
  (now + delta < minutes 5 ->
   is_token_expired (self (snd (refresh_access_token w now (Body (JDict result))))) now1
   = Raises OverflowError).
Proof.
  intros Hc Hdelta Hrange Htoken.
  assert (Hexpiry : expiry_after now (get "expires_in" result (JInt 3600))
                    = Returns (now + delta))
    by (apply expiry_after_returns; eauto).
  destruct (self_refresh_success w now result (now + delta) Hc Hexpiry)
    as [Htrue Hself].
  pose proof (expired_after_refresh (self w) result (now + delta) now1 Htoken)
    as Hexp.
  rewrite <- Hself in Hexp.
  pose proof (limit_in_range (now + delta) Hrange) as Hlimit.
  split; [exact Htrue|]. split.
  - intros Hfive. apply Hlimit in Hfive. rewrite Hfive in Hexp.
    split; [|split].
    + rewrite Hexp. split.
      * intros [= E]. apply Z.geb_le in E. exact E.
      * intros Hle. f_equal. now apply Z.geb_le.
    + intros Hbefore. unfold get_valid_token. rewrite Hexp.
      destruct (now1 >=? now + delta - minutes 5) eqn:E.
      * apply Z.geb_le in E. lia.
      * rewrite Hself. reflexivity.
    + intros Hshort Hlater. rewrite Hexp. f_equal. apply Z.geb_le. lia.
  - intros Hearly. rewrite Hexp.
    destruct (in_range (now + delta - minutes 5)); [|reflexivity].
    pose proof (proj1 Hlimit eq_refl). lia.
Qed.

Lemma token_is_reused_until_buffer_witness :
  let w := @__init__ reference_datetime "config.json" (Parsed sample_config) in
  let w1 := snd (@refresh_access_token reference_datetime w sample_now sample_answer) in
  @get_valid_token reference_datetime w1
    (sample_now + minutes 100) (sample_now + minutes 100) unauthorized
  = (Returns (JStr "a1"), w1).
Proof.
  intros w w1.
  refine (proj1 (proj2 (proj1 (proj2
            (@token_is_reused_until_buffer reference_datetime w sample_now
               [("access_token", JStr "a1"); ("refresh_token", JStr "r1");
                ("expires_in", JInt 7200)] (seconds 7200)
               (sample_now + minutes 100) (sample_now + minutes 100) unauthorized
               eq_refl eq_refl eq_refl eq_refl)) _)) _).
  - vm_compute. discriminate.
  - vm_compute. reflexivity.
Defined.

(** X7. An answer with a 2xx status that is not what the manager expects
    makes [refresh_access_token] raise, after the request has gone out.
    An answer that is not an object raises [AttributeError] and leaves the
    manager as it was.  An answer whose [expires_in] is given and is not a
    number ([null] included) raises [TypeError] after the assignments: the
    manager holds the new access token and the rotated refresh token, its
    expiry is the old one, and the file is not written.  The same state is
    left by whatever else the expiry raises: [OverflowError], for a
    lifetime that [timedelta] does not take or that leads out of the years
    of a [datetime]. *)
Theorem refresh_raises_on_ill_typed_answer `{DatetimeLib}
    (w : world) (now : datetime) :
  credentials_present (self w) = true ->
  (forall result : json,
     is_dict result = false ->
     fst (refresh_access_token w now (Body result)) = Raises AttributeError /\
     self (snd (refresh_access_token w now (Body result))) = self w /\
     disk (snd (refresh_access_token w now (Body result))) = disk w /\
     posted (snd (refresh_access_token w now (Body result)))
     = (posted w ++ [refresh_request (self w)])%list) /\
  (forall (result : dict) (v : json),
     dict_get "expires_in" result = Some v ->
     is_number v = false ->
     fst (refresh_access_token w now (Body (JDict result))) = Raises TypeError /\
     self (snd (refresh_access_token w now (Body (JDict result))))
     = refreshed (self w) result (token_expiry (self w)) /\
     disk (snd (refresh_access_token w now (Body (JDict result)))) = disk w /\
     posted (snd (refresh_access_token w now (Body (JDict result))))
     = (posted w ++ [refresh_request (self w)])%list) /\
  (forall (result : dict) (e : exn),
     expiry_after now (get "expires_in" result (JInt 3600)) = Raises e ->
     fst (refresh_access_token w now (Body (JDict result))) = Raises e /\
     self (snd (refresh_access_token w now (Body (JDict result))))
     = refreshed (self w) result (token_expiry (self w)) /\
     disk (snd (refresh_access_token w now (Body (JDict result)))) = disk w /\
     posted (snd (refresh_access_token w now (Body (JDict result))))
     = (posted w ++ [refresh_request (self w)])%list).
Proof.
  intros Hc. split; [|split].
  - intros result Hd. rewrite refresh_body_not_dict by assumption.
    simpl. auto.
  - intros result v Hv Hnum. apply refresh_raises; [exact Hc|].
    rewrite (get_of_dict_get _ _ _ _ Hv).
    destruct v; try reflexivity; discriminate.
  - intros result e. now apply refresh_raises.
Qed.

Lemma refresh_raises_on_ill_typed_answer_witness :
  let w := @__init__ reference_datetime "config.json" (Parsed sample_config) in
  let result := [("access_token", JStr "a1"); ("refresh_token", JStr "r1");
                 ("expires_in", JStr "3600")] in
  fst (@refresh_access_token reference_datetime w sample_now (Body (JDict result)))
  = Raises TypeError /\
  refresh_token
    (self (snd (@refresh_access_token reference_datetime w sample_now
                  (Body (JDict result))))) = JStr "r1" /\
  disk (snd (@refresh_access_token reference_datetime w sample_now
               (Body (JDict result)))) = Parsed sample_config.
Proof.
  intros w result.
  destruct (proj1 (proj2 (@refresh_raises_on_ill_typed_answer reference_datetime w
                     sample_now eq_refl)) result (JStr "3600") eq_refl eq_refl)
    as (Hraise & Hself & Hdisk & _).
  split; [exact Hraise|]. split.
  - rewrite Hself. reflexivity.
  - exact Hdisk.
Defined.

(** X8. Constructed over a JSON object, a manager holds the
    [refresh_token], [client_id] and [access_token] of the object ([None]
    for a missing key) whatever its [token_expiry] is.  A [token_expiry]
    that is missing, empty, not a text or not readable leaves the expiry
    unset: the credentials are not lost, the manager only counts as
    expired.  A text that is read gives the expiry: a naive [datetime]
    when the text has no UTC offset, an aware one when it has. *)
Theorem construct_over_object `{DatetimeLib}
    (path : string) (d : dict) (now : datetime) :
  refresh_token (self (__init__ path (Parsed (JDict d))))
  = get "refresh_token" d JNull /\
  client_id (self (__init__ path (Parsed (JDict d))))
  = get "client_id" d JNull /\
  access_token (self (__init__ path (Parsed (JDict d))))
  = get "access_token" d JNull /\
  (contains_key "token_expiry" d = false \/
   is_str (get "token_expiry" d JNull) = false \/
   get "token_expiry" d JNull = JStr "" \/
   (exists s msg : string,
      get "token_expiry" d JNull = JStr s /\ fromisoformat s = ValueError msg) ->
   token_expiry (self (__init__ path (Parsed (JDict d)))) = None /\
   is_token_expired (self (__init__ path (Parsed (JDict d)))) now
   = Returns true) /\
  (forall (s : string) (dt : datetime),
     get "token_expiry" d JNull = JStr s -> s <> "" ->
     fromisoformat s = Datetime dt ->
     token_expiry (self (__init__ path (Parsed (JDict d))))
     = Some (moment_of s dt) /\
     (utcoffset s = None -> moment_of s dt = Naive dt) /\
     (forall offset : timedelta,
        utcoffset s = Some offset -> moment_of s dt = Aware dt offset)).
Proof.
  rewrite self_init. simpl.
  split; [reflexivity|]. split; [reflexivity|]. split; [reflexivity|]. split.
  - intros Hbad.
    assert (Hnone : loaded_expiry d = None).
    { unfold loaded_expiry.
      destruct Hbad as [Hno | [Hstr | [-> | (s & msg & -> & Hs)]]].
      - now rewrite (contains_key_get _ _ _ Hno).
      - now destruct (get "token_expiry" d JNull).
      - reflexivity.
      - rewrite Hs. now destruct (s =? "")%string. }
    split; [exact Hnone|].
    unfold is_token_expired. simpl. rewrite Hnone.
    now destruct (truthy (get "access_token" d JNull)).
  - intros s dt Hs Hne Hdt. unfold loaded_expiry, moment_of. rewrite Hs, Hdt.
    split; [|split].
    + destruct (s =? "")%string eqn:E; [|reflexivity].
      apply String.eqb_eq in E. contradiction.
    + now intros ->.
    + now intros offset ->.
Qed.

(** * Further properties of the converters *)

(** ** Documents *)

Lemma glue_app (ss1 ss2 : list string) :
  glue (ss1 ++ ss2) = glue ss1 ++ glue ss2.
Proof.
  induction ss1 as [|s ss1 IH]; simpl; [reflexivity|].
  now rewrite IH, append_assoc.
Qed.

Lemma join_children_renders (l : list json) (ss : list string) :
  renders l ss ->
  join_children process_node (JList l) = Returns (glue ss).
Proof.
  unfold join_children. induction 1 as [|c s l ss Hc Hl IH]; [reflexivity|].
  cbn [map collect]. rewrite Hc. cbn [bind].
  destruct (collect (map process_node l)) as [vs | e]; [|discriminate].
  cbn [bind] in *. cbn [concat_strs]. rewrite IH. reflexivity.
Qed.

Lemma renders_app (l1 l2 : list json) (ss1 ss2 : list string) :
  renders l1 ss1 -> renders l2 ss2 -> renders (l1 ++ l2) (ss1 ++ ss2).
Proof. apply Forall2_app. Qed.

Lemma content_renders (d : dict) (l : list json) (ss : list string) :
  dict_get "content" d = Some (JList l) ->
  renders l ss ->
  with_field "content" (join_children process_node) (Returns "") d
  = Returns (glue ss).
Proof.
  intros Hd Hl. rewrite with_field_get, Hd. now apply join_children_renders.
Qed.

(** X9. A document renders as its top-level nodes, one after the other: a
    node of a type the converter has no branch for (the [doc] node at the
    top, or any other) adds nothing of its own to the renderings of its
    children, and gives the empty text when it has no [content]; so the
    rendering of the children [l1 ++ l2] is the rendering of [l1] followed
    by that of [l2]. *)
Theorem unknown_nodes_are_transparent (d : dict) :
  unknown_type (get "type" d (JStr "")) ->
  (forall (l : list json) (ss : list string),
     dict_get "content" d = Some (JList l) ->
     renders l ss ->
     process_node (JDict d) = Returns (JStr (glue ss)) /\
     convert_prosemirror_to_markdown (JDict d) = Returns (JStr (glue ss))) /\
  (contains_key "content" d = false ->
   process_node (JDict d) = Returns (JStr "") /\
   convert_prosemirror_to_markdown (JDict d) = Returns (JStr "")) /\
  (forall (l1 l2 : list json) (ss1 ss2 : list string),
     dict_get "content" d = Some (JList (l1 ++ l2)) ->
     renders l1 ss1 -> renders l2 ss2 ->
     process_node (JDict d) = Returns (JStr (glue ss1 ++ glue ss2))).
Proof.
  intros (Hh & Hp & Hb & Ht).
  assert (Hnode : forall (l : list json) (ss : list string),
            dict_get "content" d = Some (JList l) -> renders l ss ->
            process_node (JDict d) = Returns (JStr (glue ss))).
  { intros l ss Hd Hl. cbn [process_node]. rewrite Hh, Hp, Hb, Ht.
    now rewrite (content_renders d l ss Hd Hl). }
  split; [|split].
  - intros l ss Hd Hl. split; [now apply (Hnode l)|].
    unfold convert_prosemirror_to_markdown, contains_key. rewrite Hd.
    destruct d as [|kv d]; [discriminate|].
    cbn [truthy negb orb]. now apply (Hnode l).
  - intros Hno. unfold convert_prosemirror_to_markdown. rewrite Hno.
    rewrite orb_true_r. split; [|reflexivity].
    cbn [process_node]. rewrite Hh, Hp, Hb, Ht, with_field_get.
    unfold contains_key in Hno.
    now destruct (dict_get "content" d).
  - intros l1 l2 ss1 ss2 Hd Hl1 Hl2. rewrite <- glue_app.
    apply (Hnode (l1 ++ l2)%list); [exact Hd|]. now apply renders_app.
Qed.

Lemma unknown_nodes_are_transparent_witness :
  convert_prosemirror_to_markdown (JDict sample_doc_type)
  = Returns (JStr (glue ["a" ++ nl ++ nl; "b"])).
Proof.
  refine (proj2 (proj1 (unknown_nodes_are_transparent sample_doc_type _)
                   _ _ eq_refl _)).
  - repeat split.
  - repeat constructor.
Defined.



(** ** Bullet lists *)

Lemma bullet_items_skip (f : json -> outcome json) (l1 l2 : list json)
    (di : dict) :
  eq_str (get "type" di JNull) "listItem" = false ->
  bullet_items f (l1 ++ JDict di :: l2) = bullet_items f (l1 ++ l2).
Proof.
  intros Hdi. induction l1 as [|item l1 IH].
  - simpl. now rewrite Hdi.
  - cbn [app bullet_items]. fold (bullet_items f (l1 ++ JDict di :: l2)).
    fold (bullet_items f (l1 ++ l2)). now rewrite IH.
Qed.

Lemma bullet_items_lines (ls : list (list json)) (sss : list (list string)) :
  Forall2 renders ls sss ->
  bullet_items process_node (map list_item_node ls)
  = Returns (map (fun ss => "- " ++ strip (glue ss)) sss).
Proof.
  induction 1 as [|l ss ls sss Hl Hls IH]; [reflexivity|].
  cbn [map bullet_items]. fold (bullet_items process_node (map list_item_node ls)).
  unfold list_item_node at 1. simpl eq_str. cbv iota.
  rewrite (content_renders
             [("type", JStr "listItem"); ("content", JList l)] l ss eq_refl Hl).
  cbn [bind]. rewrite IH. reflexivity.
Qed.

(** X11. A [bulletList] gives one line for each [listItem] among its
    items, in order: [- ] and the renderings of the item's children,
    stripped; the lines are joined by line ends and followed by an empty
    line.  An item that is an object of another type is skipped with all
    it holds, and a list without items is the empty line alone. *)
Theorem bullet_list_lines :
  (forall (ls : list (list json)) (sss : list (list string)),
     Forall2 renders ls sss ->
     process_node (bullet_list_node (map list_item_node ls))
     = Returns (JStr (join nl (map (fun ss => "- " ++ strip (glue ss)) sss)
                      ++ nl ++ nl))) /\
  (forall (l1 l2 : list json) (di : dict),
     eq_str (get "type" di JNull) "listItem" = false ->
     process_node (bullet_list_node (l1 ++ JDict di :: l2))
     = process_node (bullet_list_node (l1 ++ l2))) /\
  process_node (bullet_list_node []) = Returns (JStr (nl ++ nl)).
Proof.
  split; [|split].
  - intros ls sss Hls. unfold bullet_list_node. cbn [process_node].
    simpl eq_str. cbv iota. rewrite with_field_get. simpl dict_get. cbv iota.
    unfold bullet_list. rewrite (bullet_items_lines ls sss Hls). reflexivity.
  - intros l1 l2 di Hdi. unfold bullet_list_node. cbn [process_node].
    simpl eq_str. cbv iota. rewrite !with_field_get. simpl dict_get. cbv iota.
    unfold bullet_list. now rewrite bullet_items_skip.
  - reflexivity.
Qed.

(** ** Transcripts *)

Lemma collect_app {A : Type} (rs1 rs2 : list (outcome A)) (l1 l2 : list A) :
  collect rs1 = Returns l1 -> collect rs2 = Returns l2 ->
  collect (rs1 ++ rs2) = Returns (l1 ++ l2)%list.
Proof.
  revert l1. induction rs1 as [|r rs1 IH]; intros l1 H1 H2.
  - injection H1 as <-. exact H2.
  - cbn [app collect] in *. destruct r as [a | e]; [|discriminate].
    cbn [bind] in *.
    destruct (collect rs1) as [l | e]; [|discriminate].
    injection H1 as <-. now rewrite (IH l eq_refl H2).
Qed.

Lemma concat_empty_app (l1 l2 : list string) :
  String.concat "" (l1 ++ l2) = String.concat "" l1 ++ String.concat "" l2.
Proof.
  induction l1 as [|s l1 IH]; [reflexivity|].
  destruct l1 as [|s' l1].
  - simpl. destruct l2; [now rewrite append_empty|reflexivity].
  - change (String.concat "" ((s :: s' :: l1) ++ l2))
      with (s ++ "" ++ String.concat "" ((s' :: l1) ++ l2)).
    rewrite IH.
    change (String.concat "" (s :: s' :: l1))
      with (s ++ "" ++ String.concat "" (s' :: l1)).
    simpl. now rewrite append_assoc.
Qed.

Lemma transcript_blocks `{DatetimeLib} (us : list dict) :
  us <> [] ->
  exists blocks : list string,
    collect (map utterance_block (map JDict us)) = Returns blocks /\
    convert_transcript_to_markdown (JList (map JDict us))
    = Returns (header ++ String.concat "" blocks).
Proof.
  intros Hus. destruct (collect_blocks us) as (blocks & Hblocks & _).
  exists blocks. split; [exact Hblocks|].
  unfold convert_transcript_to_markdown.
  destruct us as [|u us]; [contradiction|].
  cbn [map truthy is_list negb orb]. cbn [map] in Hblocks. rewrite Hblocks.
  cbn [bind]. f_equal. exact (concat_empty_app [header] blocks).
Qed.

(** X12. Transcripts concatenate: the transcript of the utterances
    [us1 ++ us2] is the title line, the blocks of [us1] and the blocks of
    [us2]; what is rendered for the first utterances does not change when
    more follow. *)
Theorem transcripts_concatenate `{DatetimeLib} (us1 us2 : list dict) :
  us1 <> [] -> us2 <> [] ->
  exists blocks1 blocks2 : string,
    convert_transcript_to_markdown (JList (map JDict us1))
    = Returns (header ++ blocks1) /\
    convert_transcript_to_markdown (JList (map JDict us2))
    = Returns (header ++ blocks2) /\
    convert_transcript_to_markdown (JList (map JDict (us1 ++ us2)))
    = Returns (header ++ blocks1 ++ blocks2).
Proof.
  intros H1 H2.
  destruct (transcript_blocks us1 H1) as (b1 & Hb1 & Hc1).
  destruct (transcript_blocks us2 H2) as (b2 & Hb2 & Hc2).
  assert (H12 : (us1 ++ us2)%list <> []) by (destruct us1; [contradiction|discriminate]).
  destruct (transcript_blocks (us1 ++ us2)%list H12) as (b & Hb & Hc).
  exists (String.concat "" b1), (String.concat "" b2).
  split; [exact Hc1|]. split; [exact Hc2|].
  rewrite Hc. rewrite !map_app in Hb.
  pose proof (collect_app _ _ _ _ Hb1 Hb2) as Hb12.
  pose proof (eq_trans (eq_sym Hb) Hb12) as E. injection E as ->.
  now rewrite concat_empty_app.
Qed.

Lemma transcripts_concatenate_witness :
  exists blocks1 blocks2 : string,
    @convert_transcript_to_markdown reference_datetime
      (JList [sample_utterance]) = Returns (header ++ blocks1) /\
    @convert_transcript_to_markdown reference_datetime
      (JList [JDict [("text", JStr "ok")]]) = Returns (header ++ blocks2) /\
    @convert_transcript_to_markdown reference_datetime
      (JList [sample_utterance; JDict [("text", JStr "ok")]])
    = Returns (header ++ blocks1 ++ blocks2).
Proof.
  refine (@transcripts_concatenate reference_datetime
            [[("source", JStr "microphone"); ("text", JStr "hi");
              ("start_timestamp", JStr "2024-01-01T10:00:00Z")]]
            [[("text", JStr "ok")]] _ _); discriminate.
Defined.

(** * Properties of [sanitize_filename] *)

Lemma has_char_app (c : ascii) (s t : string) :
  has_char c (s ++ t) = has_char c s || has_char c t.
Proof.
  induction s as [|a s IH]; simpl; [reflexivity|].
  now rewrite IH, orb_assoc.
Qed.

Lemma has_char_keep_valid (c : ascii) (s : string) :
  has_char c (keep_valid s) = has_char c s && negb (has_char c invalid_chars).
Proof.
  induction s as [|a s IH]; [reflexivity|].
  cbn [keep_valid]. destruct (has_char a invalid_chars) eqn:Ha.
  - rewrite IH. cbn [has_char]. destruct (Ascii.eqb a c) eqn:E; [|reflexivity].
    apply Ascii.eqb_eq in E. subst c. rewrite Ha.
    now rewrite !andb_false_r.
  - cbn [has_char]. rewrite IH. destruct (Ascii.eqb a c) eqn:E; [|reflexivity].
    apply Ascii.eqb_eq in E. subst c. now rewrite Ha.
Qed.

Lemma has_char_replace_space (c : ascii) (s : string) :
  has_char c (replace " " "_" s) = true ->
  c <> " "%char /\ (has_char c s = true \/ c = "_"%char).
Proof.
  induction s as [|a s IH]; [discriminate|].
  cbn [replace]. destruct (Ascii.eqb a " ") eqn:Ea;
    cbn [append has_char]; intros Hc; apply orb_prop in Hc as [Hc | Hc].
  - apply Ascii.eqb_eq in Hc. subst c. split; [discriminate|now right].
  - destruct (IH Hc) as [Hne [Hs | Hu]]; split; auto.
    left. rewrite Hs. apply orb_true_r.
  - apply Ascii.eqb_eq in Hc. subst c. split.
    + intros ->. discriminate Ea.
    + left. now rewrite Ascii.eqb_refl.
  - destruct (IH Hc) as [Hne [Hs | Hu]]; split; auto.
    left. rewrite Hs. apply orb_true_r.
Qed.

Lemma keep_valid_clean (s : string) :
  (forall c : ascii, has_char c s = true -> has_char c invalid_chars = false) ->
  keep_valid s = s.
Proof.
  induction s as [|a s IH]; intros Hs; [reflexivity|].
  cbn [keep_valid]. rewrite (Hs a) by (simpl; now rewrite Ascii.eqb_refl).
  rewrite IH; [reflexivity|].
  intros c Hc. apply Hs. simpl. rewrite Hc. apply orb_true_r.
Qed.

Lemma replace_no_space (s : string) :
  has_char " " s = false -> replace " " "_" s = s.
Proof.
  induction s as [|a s IH]; [reflexivity|].
  simpl. destruct (Ascii.eqb a " "); [discriminate|].
  simpl. intros Hs. now rewrite IH.
Qed.

Lemma length_keep_valid (s : string) :
  (String.length (keep_valid s) <= String.length s)%nat.
Proof.
  induction s as [|a s IH]; [apply Nat.le_refl|].
  cbn [keep_valid]. destruct (has_char a invalid_chars); simpl; lia.
Qed.

Lemma length_replace_space (s : string) :
  String.length (replace " " "_" s) = String.length s.
Proof.
  induction s as [|a s IH]; [reflexivity|].
  simpl. destruct (Ascii.eqb a " "); simpl; now rewrite IH.
Qed.

Lemma sanitized_is_clean (s : string) :
  clean (replace " " "_" (keep_valid s)).
Proof.
  intros c Hc. apply has_char_replace_space in Hc as [Hne [Hk | ->]].
  - split; [|exact Hne]. rewrite has_char_keep_valid in Hk.
    apply andb_prop in Hk as [_ Hk]. now destruct (has_char c invalid_chars).
  - split; [reflexivity|exact Hne].
Qed.

Lemma sanitize_clean (s : string) :
  clean s -> sanitize_filename (JStr s) = Returns s.
Proof.
  intros Hs. unfold sanitize_filename. cbn [bind].
  rewrite keep_valid_clean by (intros c Hc; now apply Hs).
  rewrite replace_no_space; [reflexivity|].
  destruct (has_char " " s) eqn:E; [|reflexivity].
  now destruct (Hs _ E) as [_ Hne].
Qed.

(** X13. On a text, [sanitize_filename] returns a name that holds none of
    the characters of [invalid_chars] and no blank, and that is no longer than
    the text; it keeps a text without such characters as it is, so
    sanitising twice is sanitising once. *)
Theorem sanitize_filename_spec (s : string) :
  exists name : string,
    sanitize_filename (JStr s) = Returns name /\
    clean name /\
    (String.length name <= String.length s)%nat /\
    sanitize_filename (JStr name) = Returns name /\
    (clean s -> name = s).
Proof.
  exists (replace " " "_" (keep_valid s)).
  split; [reflexivity|]. split; [apply sanitized_is_clean|].
  split; [rewrite length_replace_space; apply length_keep_valid|].
  split; [apply sanitize_clean, sanitized_is_clean|].
  intros Hs. pose proof (sanitize_clean s Hs) as E.
  unfold sanitize_filename in E. cbn [bind] in E. now injection E.
Qed.

(** * Properties of the orchestrator *)

(** ** One document *)

Lemma convert_returns_str (c : json) :
  returns_str (convert_prosemirror_to_markdown c) = well_formed_document c.
Proof.
  unfold convert_prosemirror_to_markdown, well_formed_document.
  destruct c as [| b | n | s | l | d]; try reflexivity.
  destruct (negb (truthy (JDict d)) || negb (contains_key "content" d));
    [reflexivity|].
  apply process_node_returns_str.
Qed.

Lemma sources_returned (l : list json) :
  returned (collect (map utterance_source l)) = forallb utterance_ok l.
Proof.
  induction l as [|u l IH]; [reflexivity|].
  cbn [map collect forallb]. rewrite <- IH.
  destruct u as [| b | n | s | l' | d]; try reflexivity.
  cbn [utterance_source utterance_ok].
  destruct (get "source" d (JStr "unknown")); cbn [hashable bind andb];
    try reflexivity;
    now destruct (collect (map utterance_source l)).
Qed.

Lemma metadata_returned `{Interpreter} (doc : dict) (title : json)
    (doc_id : string) (transcript_data : json) :
  returned (metadata_of doc title doc_id transcript_data)
  = utterances_ok transcript_data.
Proof.
  unfold metadata_of, utterances_ok.
  destruct transcript_data as [| b | n | s | l | d]; try reflexivity.
  destruct l as [|first_utterance rest]; [reflexivity|].
  rewrite <- sources_returned.
  destruct (collect (map utterance_source (first_utterance :: rest)))
    as [sources|e] eqn:Hs; [|reflexivity].
  cbn [bind returned].
  destruct first_utterance as [| b | n | s | l' | u]; try discriminate Hs.
  now destruct (truthy (get "start_timestamp" u JNull)).
Qed.

Lemma transcript_after_metadata `{DatetimeLib} (transcript_data : json) :
  utterances_ok transcript_data = true ->
  returned (convert_transcript_to_markdown transcript_data) = true.
Proof.
  unfold utterances_ok, convert_transcript_to_markdown. intros Hok.
  destruct transcript_data as [| b | n | s | l | d];
    try (cbn [is_list negb]; rewrite ?orb_true_r; reflexivity).
  destruct (negb (truthy (JList l)) || negb (is_list (JList l)));
    [reflexivity|].
  assert (Hl : returned (collect (map utterance_block l)) = true).
  { rewrite transcript_returned. rewrite forallb_forall in *.
    intros u Hu. specialize (Hok u Hu). now destruct u. }
  now destruct (collect (map utterance_block l)).
Qed.

Ltac run_action :=
  unfold and_then, try_except, logger, open_w, send, set_token_manager,
    lift, ret, raise;
  cbn [fst snd].

Ltac run_state :=
  cbn [files requests records token_manager logged written sent managed].

Ltac run_state_in H :=
  cbn [files requests records token_manager logged written sent managed] in H.

Lemma fetch_document_transcript_run (token : json) (document_id : string)
    (r : api_reply) (s : run) :
  fst (fetch_document_transcript token document_id r s)
  = Returns (transcript_of r) /\
  files (snd (fetch_document_transcript token document_id r s)) = files s /\
  requests (snd (fetch_document_transcript token document_id r s))
  = (requests s ++ [transcript_request token document_id])%list /\
  token_manager (snd (fetch_document_transcript token document_id r s))
  = token_manager s.
Proof.
  unfold fetch_document_transcript. run_action.
  destruct r as [status msg | msg | j]; [destruct (status =? 404)| |];
    cbn [fst snd]; run_state; repeat split.
Qed.

Lemma process_document_run `{DatetimeLib} `{Interpreter}
    (output_path : string) (token : json) (doc : dict) (title : json)
    (doc_id : string) (r : api_reply) (s : run) :
  let res := process_document output_path token doc title doc_id r s in
  returned (fst res) = processed doc r /\
  requests (snd res) = (requests s ++ [transcript_request token doc_id])%list /\
  token_manager (snd res) = token_manager s /\
  exists fs : list (string * string * content),
    files (snd res)
    = (files s ++ (doc_id, "document.json", Json (JDict doc)) :: fs)%list /\
    Forall (fun f => file_folder f = doc_id /\ file_name f <> "document.json") fs /\
    (processed doc r = true ->
     map file_name fs = derived_files doc (transcript_of r)).
Proof.
  unfold process_document, processed, resume_ok, derived_files. run_action.
  match goal with
  | |- context [fetch_document_transcript token doc_id r ?s0] =>
      destruct (fetch_document_transcript_run token doc_id r s0)
        as (Ho & Hf & Hr & Ht);
      destruct (fetch_document_transcript token doc_id r s0) as [o s1]
  end.
  cbn [fst snd] in Ho, Hf, Hr, Ht. run_state_in Hf. run_state_in Hr.
  run_state_in Ht. subst o.
  generalize (metadata_returned doc title doc_id (transcript_of r)).
  generalize (transcript_after_metadata (transcript_of r)).
  generalize (transcript_of r) as transcript_data. intros transcript_data.
  destruct (truthy transcript_data);
    (destruct (metadata_of doc title doc_id transcript_data) as [metadata|e];
     cbn [returned]; intros Htr Hmeta;
     [specialize (Htr (eq_sym Hmeta))|clear Htr]; rewrite <- Hmeta);
    (destruct (content_to_parse doc) as [c|];
     [generalize (convert_returns_str c);
      destruct (convert_prosemirror_to_markdown c) as [[| b | n | md | l | d]|e'];
      cbn [returns_str]; intros <-|]);
    try (destruct (convert_transcript_to_markdown transcript_data);
         [|discriminate Htr]);
    cbn [fst snd returned andb]; run_state;
    rewrite ?Hf, ?Hr, ?Ht, <- ?app_assoc; cbn [app];
    (split; [reflexivity|]; split; [reflexivity|]; split; [reflexivity|];
     eexists; split; [reflexivity|]; split;
     [ repeat constructor; cbn; (reflexivity || discriminate)
     | try discriminate; intros _; reflexivity ]).
Qed.

(** ** The loop over the documents *)

Lemma raw_documents_app (fs1 fs2 : list (string * string * content)) :
  raw_documents (fs1 ++ fs2) = (raw_documents fs1 ++ raw_documents fs2)%list.
Proof. unfold raw_documents. now rewrite filter_app, map_app. Qed.

Lemma raw_documents_derived (doc_id : string)
    (fs : list (string * string * content)) :
  Forall (fun f => file_folder f = doc_id /\ file_name f <> "document.json") fs ->
  raw_documents fs = [].
Proof.
  unfold raw_documents. induction 1 as [|f fs [_ Hf] _ IH]; [reflexivity|].
  cbn [filter]. apply String.eqb_neq in Hf. now rewrite Hf.
Qed.

Lemma sync_document_run `{DatetimeLib} `{Interpreter}
    (output_path : string) (token : json) (mkdir : string -> option exn)
    (doc : json) (r : api_reply) (synced_count : Z) (s : run) :
  admitted mkdir doc = true ->
  let res := sync_document output_path token mkdir doc r synced_count s in
  fst res = Returns (synced_count + (if synced doc r then 1 else 0)) /\
  requests (snd res)
  = (requests s ++ [transcript_request token (doc_id_of doc)])%list /\
  token_manager (snd res) = token_manager s /\
  raw_documents (files (snd res))
  = (raw_documents (files s) ++ [raw_document doc])%list.
Proof.
  unfold admitted, folder_made.
  destruct doc as [| b | n | s' | l | d]; try discriminate.
  cbn [identified doc_id_of synced sync_document]. unfold raw_document.
  cbn [doc_id_of].
  destruct (get "id" d (JStr "unknown_id")) as [| b | n | id | l | d'];
    try discriminate.
  cbn [str is_str andb].
  destruct (mkdir id) as [e|]; [discriminate|].
  intros _. run_action.
  match goal with
  | |- context [process_document output_path token d ?title id r ?s0] =>
      destruct (process_document_run output_path token d title id r s0)
        as (Hret & Hreq & Htm & fs & Hfs & Hall & _);
      destruct (process_document output_path token d title id r s0) as [o s1]
  end.
  cbn [fst snd] in Hret, Hreq, Htm, Hfs. run_state_in Hreq.
  run_state_in Htm. run_state_in Hfs. rewrite <- Hret.
  assert (Hraw : raw_documents (files s1)
                 = (raw_documents (files s) ++ [(id, Json (JDict d))])%list).
  { rewrite Hfs.
    change ((id, "document.json", Json (JDict d)) :: fs)
      with ([(id, "document.json", Json (JDict d))] ++ fs)%list.
    rewrite !raw_documents_app, (raw_documents_derived id fs Hall).
    now rewrite app_nil_r. }
  destruct o as [[]|e]; cbn [fst snd returned]; run_state;
    rewrite ?Z.add_0_r; auto.
Qed.

Lemma sync_document_rejects `{DatetimeLib} `{Interpreter}
    (output_path : string) (token : json) (mkdir : string -> option exn)
    (doc : json) (r : api_reply) (synced_count : Z) (s : run) :
  admitted mkdir doc = false ->
  let res := sync_document output_path token mkdir doc r synced_count s in
  fst res = Raises (rejection mkdir doc) /\
  requests (snd res) = requests s /\
  token_manager (snd res) = token_manager s /\
  files (snd res) = files s.
Proof.
  unfold admitted, folder_made, rejection.
  destruct doc as [| b | n | s' | l | d];
    try solve [intros _; repeat split].
  cbn [identified sync_document is_dict negb doc_id_of].
  destruct (get "id" d (JStr "unknown_id")) as [| b | n | id | l | d'];
    cbn [is_str str andb negb];
    try solve [intros _; run_action; run_state; repeat split].
  destruct (mkdir id) as [e|]; [|discriminate].
  intros _. run_action. run_state. repeat split.
Qed.



(** ** A run of [main] *)

Lemma check_config_exists_run (f : file) (s : run) :
  config_exists f = true -> check_config_exists f s = (Returns true, s).
Proof. now destruct f. Qed.


Lemma sync_documents_requests `{DatetimeLib} `{Interpreter}
    (output_path : string) (token : json) (mkdir : string -> option exn)
    (docs : list json) :
  forall (replies : nat -> api_reply) (synced_count : Z) (s : run),
  exists rs : list (string * json * json),
    requests (snd (sync_documents output_path token mkdir docs replies
                     synced_count s))
    = (requests s ++ rs)%list /\
    Forall (fun q => exists id : string, q = transcript_request token id) rs.
Proof.
  induction docs as [|doc docs IH]; intros replies synced_count s.
  - exists []. cbn. now rewrite app_nil_r.
  - cbn [sync_documents]. unfold and_then.
    destruct (admitted mkdir doc) eqn:Hdoc.
    + destruct (sync_document_run output_path token mkdir doc (replies O)
                  synced_count s Hdoc) as (Hret & Hreq & _).
      destruct (sync_document output_path token mkdir doc (replies O)
                  synced_count s) as [o s1].
      cbn [fst snd] in Hret, Hreq. subst o.
      destruct (IH (fun n => replies (S n))
                  (synced_count + (if synced doc (replies O) then 1 else 0)) s1)
        as (rs & Hrs & Hall).
      exists (transcript_request token (doc_id_of doc) :: rs).
      rewrite Hrs, Hreq, <- app_assoc. split; [reflexivity|].
      constructor; eauto.
    + destruct (sync_document_rejects output_path token mkdir doc (replies O)
                  synced_count s Hdoc) as (Hret & Hreq & _).
      destruct (sync_document output_path token mkdir doc (replies O)
                  synced_count s) as [o s1].
      cbn [fst snd] in *. subst o. exists []. cbn [fst snd].
      now rewrite Hreq, app_nil_r.
Qed.

(** X14. Nothing is fetched and nothing is written without a token: a run
    of [main] either sends no request and writes no file, or the output
    directory exists, [config.json] exists, [get_valid_token] returned a
    token that passes Python's truth test, the first request is the one
    for the documents, and every request carries that token. *)
Theorem main_needs_token `{DatetimeLib} `{Interpreter} (c : circumstances) :
  let res := main c start in
  (requests (snd res) = [] /\ files (snd res) = []) \/
  (is_dir c = true /\ config_exists (config c) = true /\
   exists token : json,
     fst (token_of c) = Returns token /\ truthy token = true /\
     exists rs : list (string * json * json),
       requests (snd res) = documents_request token :: rs /\
       Forall (fun q => exists id : string, q = transcript_request token id) rs).
Proof.
  unfold main, token_of, start.
  destruct (is_dir c); [|left; split; reflexivity].
  destruct (get_valid_token (__init__ "config.json" (config c))
              (now_checked c) (now_refreshed c) (token_reply c))
    as [[token|e] w].
  2: { left. destruct (config c); split; reflexivity. }
  destruct (truthy token) eqn:Htoken.
  2: { left. destruct (config c); run_action; unfold set_token_manager;
       cbn [check_config_exists negb fst snd]; run_action;
       rewrite ?Htoken; split; reflexivity. }
  destruct (config_exists (config c)) eqn:Hconfig;
    [|left; destruct (config c); [split; reflexivity|discriminate..]].
  right. do 2 (split; [assumption || reflexivity|]).
  exists token. do 2 (split; [assumption || reflexivity|]).
  run_action. unfold set_token_manager, fetch_granola_documents.
  run_action. cbn [negb app].
  rewrite check_config_exists_run by assumption. cbn [negb].
  rewrite Htoken. cbn [negb].
  destruct (documents_reply c) as [status msg | msg | j];
    try (exists []; split; [reflexivity|constructor]).
  destruct (truthy j); cbn [negb];
    [|exists []; split; [reflexivity|constructor]].
  destruct (docs_of j) as [[documents|]|e];
    try (exists []; split; [reflexivity|constructor]).
  destruct (iterate documents) as [docs|e];
    [|exists []; split; [reflexivity|constructor]].
  destruct (truthy documents); cbn [negb];
    [|exists []; split; [reflexivity|constructor]].
  match goal with
  | |- context [sync_documents ?o ?t ?mk ?ds ?rp ?n ?s0] =>
      destruct (sync_documents_requests o t mk ds rp n s0) as (rs & Hrs & Hall);
      destruct (sync_documents o t mk ds rp n s0) as [[n'|e] s1]
  end;
    cbn [fst snd] in *; run_state; run_state_in Hrs; rewrite Hrs; exists rs;
    split; (reflexivity || assumption).
Qed.






Lemma main_no_token `{DatetimeLib} `{Interpreter} (c : circumstances)
    (token : json) :
  is_dir c = true ->
  config_exists (config c) = true ->
  fst (token_of c) = Returns token ->
  truthy token = false ->
  fst (main c start) = Returns tt /\
  requests (snd (main c start)) = [] /\
  files (snd (main c start)) = [] /\
  token_manager (snd (main c start)) = Some (snd (token_of c)) /\
  exists recs : list (levelname * string),
    records (snd (main c start)) = (recs ++ [no_token_record])%list.
Proof.
  intros Hdir Hconfig Htoken Hfalsy. unfold main, token_of in *.
  destruct (get_valid_token (__init__ "config.json" (config c))
              (now_checked c) (now_refreshed c) (token_reply c))
    as [result w].
  cbn [fst snd] in *. subst result. rewrite Hdir. unfold start.
  run_action. unfold set_token_manager. cbn [negb app].
  rewrite check_config_exists_run by assumption. cbn [negb].
  rewrite Hfalsy. cbn [negb fst snd]. run_state.
  repeat split. eexists. reflexivity.
Qed.

Lemma credentials_need_configuration `{DatetimeLib} (path : string) (f : file) :
  credentials_present (self (__init__ path f)) = true ->
  config_exists f = true.
Proof.
  rewrite self_init. destruct f as [| err | j]; [discriminate|reflexivity..].
Qed.

(** X17. Without credentials nothing leaves the machine: when the output
    directory and [config.json] exist, the configuration gives no refresh
    token or no client id, and [is_token_expired] returns [True] (there is
    no access token, no expiry time, or the expiry time is naive and at
    most five minutes away), [main] returns after reporting that it has no
    token; it sends nothing to the token endpoint and nothing to the API,
    writes no file and leaves [config.json] as it was. *)
Theorem main_without_credentials `{DatetimeLib} `{Interpreter}
    (c : circumstances) :
  is_dir c = true ->
  config_exists (config c) = true ->
  credentials_present (self (__init__ "config.json" (config c))) = false ->
  is_token_expired (self (__init__ "config.json" (config c))) (now_checked c)
  = Returns true ->
  fst (main c start) = Returns tt /\
  requests (snd (main c start)) = [] /\
  files (snd (main c start)) = [] /\
  (exists w : world,
     token_manager (snd (main c start)) = Some w /\
     posted w = [] /\ disk w = config c) /\
  exists recs : list (levelname * string),
    records (snd (main c start)) = (recs ++ [no_token_record])%list.
Proof.
  intros Hdir Hconfig Hcred Hexp.
  destruct (get_valid_token_without_credentials
              (__init__ "config.json" (config c)) (now_checked c)
              (now_refreshed c) (token_reply c) Hexp Hcred)
    as (Hnone & Hposted & Hdisk).
  rewrite posted_init in Hposted. rewrite disk_init in Hdisk.
  destruct (main_no_token c JNull Hdir Hconfig Hnone eq_refl)
    as (Hret & Hreq & Hfiles & Htm & Hrecs).
  repeat split; try assumption.
  exists (snd (token_of c)). auto.
Qed.

Lemma main_without_credentials_witness :
  let c := {| output_path := "notes"; is_dir := true;
              config := Parsed sample_config_without_client_id;
              now_checked := sample_now; now_refreshed := sample_now;
              token_reply := sample_answer;
              documents_reply := Answer (JDict [("docs", JList [sample_doc1])]);
              transcript_replies := sample_replies;
              mkdir := sample_mkdir |} in
  let res := @main reference_datetime reference_interpreter c start in
  fst res = Returns tt /\
  requests (snd res) = [] /\
  files (snd res) = [] /\
  (exists w : world,
     token_manager (snd res) = Some w /\
     posted w = [] /\ disk w = Parsed sample_config_without_client_id) /\
  exists recs : list (levelname * string),
    records (snd res) = (recs ++ [no_token_record])%list.
Proof.
  intros c res.
  exact (@main_without_credentials reference_datetime reference_interpreter c
           eq_refl eq_refl eq_refl eq_refl).
Defined.

(** X18. An answer of the token endpoint without an access token ends the
    run, although the refresh counts as a success.  When the output
    directory exists, the configuration gives both credentials,
    [is_token_expired] returns [True], and the token endpoint answers with
    a JSON object whose [access_token] is missing or falsy and whose
    [expires_in] (3600 when missing) added to the time of the refresh
    gives an expiry time [expiry], then the answer is taken in, one
    request has gone to the token endpoint, the manager holds the falsy
    access token and [expiry], and [main] returns after reporting that it
    has no token, without a request to the API and without a file. *)
Theorem main_stops_when_answer_lacks_access_token `{DatetimeLib} `{Interpreter}
    (c : circumstances) (result : dict) (expiry : datetime) :
  is_dir c = true ->
  credentials_present (self (__init__ "config.json" (config c))) = true ->
  is_token_expired (self (__init__ "config.json" (config c))) (now_checked c)
  = Returns true ->
  token_reply c = Body (JDict result) ->
  expiry_after (now_refreshed c) (get "expires_in" result (JInt 3600))
  = Returns expiry ->
  truthy (get "access_token" result JNull) = false ->
  fst (main c start) = Returns tt /\
  requests (snd (main c start)) = [] /\
  files (snd (main c start)) = [] /\
  (exists w : world,
     token_manager (snd (main c start)) = Some w /\
     posted w = [refresh_request (self (__init__ "config.json" (config c)))] /\
     access_token (self w) = get "access_token" result JNull /\
     token_expiry (self w) = Some (Naive expiry)) /\
  exists recs : list (levelname * string),
    records (snd (main c start)) = (recs ++ [no_token_record])%list.
Proof.
  intros Hdir Hcred Hexp Hreply Hexpiry Hfalsy.
  pose proof (credentials_need_configuration _ _ Hcred) as Hconfig.
  set (w0 := __init__ "config.json" (config c)) in *.
  destruct (self_refresh_success w0 (now_refreshed c) result expiry Hcred Hexpiry)
    as (Htrue & Hself).
  pose proof (posted_refresh w0 (now_refreshed c) (Body (JDict result))) as Hposted.
  rewrite Hcred in Hposted. unfold w0 in Hposted at 2.
  rewrite posted_init in Hposted.
  assert (Hcall : token_of c
                  = (Returns (get "access_token" result JNull),
                     snd (refresh_access_token w0 (now_refreshed c)
                            (Body (JDict result))))).
  { unfold token_of, get_valid_token. fold w0. rewrite Hexp, Hreply.
    destruct (refresh_access_token w0 (now_refreshed c) (Body (JDict result)))
      as [o w1].
    cbn [fst snd] in *. subst o. now rewrite Hself. }
  destruct (main_no_token c (get "access_token" result JNull) Hdir Hconfig)
    as (Hret & Hreq & Hfiles & Htm & Hrecs);
    [now rewrite Hcall|exact Hfalsy|].
  repeat split; try assumption.
  rewrite Hcall in Htm. cbn [snd] in Htm.
  eexists. split; [exact Htm|]. rewrite Hself. repeat split. exact Hposted.
Qed.

Lemma main_stops_when_answer_lacks_access_token_witness :
  let c := {| output_path := "notes"; is_dir := true;
              config := Parsed sample_config;
              now_checked := sample_now; now_refreshed := sample_now;
              token_reply := sample_answer_without_token;
              documents_reply := Answer (JDict [("docs", JList [sample_doc1])]);
              transcript_replies := sample_replies;
              mkdir := sample_mkdir |} in
  let res := @main reference_datetime reference_interpreter c start in
  fst res = Returns tt /\
  requests (snd res) = [] /\
  files (snd res) = [] /\
  (exists w : world,
     token_manager (snd res) = Some w /\
     posted w = [refresh_request
                   (self (@__init__ reference_datetime "config.json" (config c)))] /\
     access_token (self w) = JNull /\
     token_expiry (self w) = Some (Naive (sample_now + seconds 7200))) /\
  exists recs : list (levelname * string),
    records (snd res) = (recs ++ [no_token_record])%list.
Proof.
  intros c res.
  exact (@main_stops_when_answer_lacks_access_token reference_datetime
           reference_interpreter c [("expires_in", JInt 7200)]
           (sample_now + seconds 7200)
           eq_refl eq_refl eq_refl eq_refl eq_refl eq_refl).
Defined.

(** X19. The answers to the documents request that end a run before its
    loop.  With a token, [main] sends the documents request and then, if
    the request fails, if its answer is empty, or if the answer is an
    object without [docs], returns without a file written.  If [docs] is
    there but empty or not iterable, the run ends as [len(documents)]
    does: it returns for an empty list, string or object and raises
    [TypeError] for [null], a boolean or a number. *)
Theorem main_without_documents `{DatetimeLib} `{Interpreter}
    (c : circumstances) (token : json) :
  is_dir c = true ->
  config_exists (config c) = true ->
  fst (token_of c) = Returns token ->
  truthy token = true ->
  ((forall j : json, documents_reply c = Answer j -> truthy j = false) ->
   fst (main c start) = Returns tt /\
   requests (snd (main c start)) = [documents_request token] /\
   files (snd (main c start)) = []) /\
  (forall d : dict,
     documents_reply c = Answer (JDict d) ->
     truthy (JDict d) = true ->
     contains_key "docs" d = false ->
     fst (main c start) = Returns tt /\
     requests (snd (main c start)) = [documents_request token] /\
     files (snd (main c start)) = []) /\
  (forall (d : dict) (documents : json),
     documents_reply c = Answer (JDict d) ->
     dict_get "docs" d = Some documents ->
     truthy documents = false \/ returned (iterate documents) = false ->
     fst (main c start) = bind (iterate documents) (fun _ => Returns tt) /\
     requests (snd (main c start)) = [documents_request token] /\
     files (snd (main c start)) = []).
Proof.
  intros Hdir Hconfig Htoken Htruthy. unfold main, token_of in *.
  destruct (get_valid_token (__init__ "config.json" (config c))
              (now_checked c) (now_refreshed c) (token_reply c))
    as [result w].
  cbn [fst snd] in *. subst result. rewrite Hdir.
  unfold fetch_granola_documents, start.
  run_action. unfold set_token_manager. cbn [negb app].
  rewrite check_config_exists_run by assumption. cbn [negb].
  rewrite Htruthy. cbn [negb].
  split; [|split].
  - intros Hempty.
    destruct (documents_reply c) as [status msg | msg | j];
      try solve [cbn [fst snd negb truthy]; run_state; repeat split].
    rewrite (Hempty j eq_refl). cbn [negb fst snd]. run_state. repeat split.
  - intros d -> Hd Hdocs. cbn [fst snd]. rewrite Hd. cbn [negb docs_of].
    unfold contains_key in Hdocs.
    destruct (dict_get "docs" d); [discriminate|].
    cbn [fst snd]. run_state. repeat split.
  - intros d documents -> Hdocs Hbad.
    assert (Hd : truthy (JDict d) = true) by (destruct d; [discriminate|reflexivity]).
    cbn [fst snd]. rewrite Hd. cbn [negb docs_of]. rewrite Hdocs.
    destruct (iterate documents) as [docs|e]; cbn [bind fst snd].
    + destruct Hbad as [-> | Hbad]; [|discriminate].
      cbn [negb fst snd]. run_state. repeat split.
    + run_state. repeat split.
Qed.

Lemma main_without_documents_witness :
  let res := @main reference_datetime reference_interpreter
               (sample_circumstances JNull) start in
  fst res = Raises TypeError /\
  requests (snd res) = [documents_request (JStr "a1")] /\
  files (snd res) = [].
Proof.
  intros res.
  exact (proj2 (proj2
           (@main_without_documents reference_datetime reference_interpreter
              (sample_circumstances JNull) (JStr "a1")
              eq_refl eq_refl eq_refl eq_refl))
           [("docs", JNull)] JNull eq_refl eq_refl (or_introl eq_refl)).
Defined.


(** ** Documents without a transcript, and the metadata *)




(** X22. The metadata of a document.  [metadata.json] can be derived
    exactly when the utterances are objects with a hashable [source]; it
    then holds the six fields [document_id], [title], [created_at],
    [updated_at], [meeting_date] and [sources], in this order, the first
    four taken from the document.  With a transcript, [meeting_date] is
    the [start_timestamp] of the first utterance alone ([null] when that
    one is missing or empty, whatever the later utterances say) and
    [sources] lists the set of the sources of all utterances. *)
Theorem metadata_of_spec `{Interpreter} (doc : dict) (title : json)
    (doc_id : string) (transcript_data : json) :
  returned (metadata_of doc title doc_id transcript_data)
  = utterances_ok transcript_data /\
  (forall metadata : json,
     metadata_of doc title doc_id transcript_data = Returns metadata ->
     exists m : dict,
       metadata = JDict m /\
       keys m = ["document_id"; "title"; "created_at"; "updated_at";
                 "meeting_date"; "sources"] /\
       dict_get "document_id" m = Some (JStr doc_id) /\
       dict_get "title" m = Some title /\
       dict_get "created_at" m = Some (get "created_at" doc JNull) /\
       dict_get "updated_at" m = Some (get "updated_at" doc JNull) /\
       (truthy transcript_data = false ->
        dict_get "meeting_date" m = Some JNull /\
        dict_get "sources" m = Some (JList [])) /\
       (forall (u : dict) (rest : list json),
          transcript_data = JList (JDict u :: rest) ->
          dict_get "meeting_date" m
          = Some (if truthy (get "start_timestamp" u JNull)
                  then get "start_timestamp" u JNull else JNull) /\
          exists sources : list json,
            collect (map utterance_source (JDict u :: rest)) = Returns sources /\
            dict_get "sources" m = Some (JList (set_list sources)))).
Proof.
  split; [apply metadata_returned|].
  intros metadata. unfold metadata_of.
  destruct transcript_data as [| b | n | s | [|first_utterance rest] | d];
    try (intros [= <-]; eexists; split; [reflexivity|];
         repeat (split; [reflexivity|]);
         split; [intros _; split; reflexivity|discriminate]).
  destruct (collect (map utterance_source (first_utterance :: rest)))
    as [sources|e] eqn:Hs; [|discriminate].
  cbn [bind].
  destruct first_utterance as [| b | n | s | l | u]; try discriminate.
  destruct (truthy (get "start_timestamp" u JNull)) eqn:Hts;
    intros [= <-]; eexists; (split; [reflexivity|]);
    repeat (split; [reflexivity|]);
    (split; [discriminate|]);
    intros u' rest' [= <- <-]; rewrite Hts;
    (split; [reflexivity|]); exists sources; (split; [exact Hs|reflexivity]).
Qed.
